(** * HR system: loan ledger and payroll calculation

  A shallow embedding of the Apps Script sources [Utils.js],
  [Employees.js], [Loans.js], [Payroll.js], [Timesheets.js] and the
  trigger file, followed by the properties of the ledger and payroll
  engines that the design document states about them.

  Conventions of the embedding.
  - A JavaScript number is [NaN] or an exact rational: the arithmetic of
    the scripts is carried out without binary64 rounding and without
    infinities.  [NaN] is kept because the scripts rely on
    [parseFloat(x) || 0].
  - A spreadsheet is a finite map from sheet names to sheets; a sheet is
    its header row (text cells) and the rows below it, as returned by
    [getDataRange().getValues()].  Empty cells read back as the empty
    string.
  - The built-ins of the JavaScript runtime that turn text into numbers
    or dates are parameters ([Runtime]); the clock, the session user and
    the random identifier are arguments of the operations that use them.
  - A script is a state transformer over the spreadsheet that either
    returns or throws; what was written before a throw stays written. *)

From Stdlib Require Import QArith Qcanon ZArith Ascii String.
From stdpp Require Import base list gmap strings numbers pretty sorting.

Local Open Scope string_scope.

(** ** JavaScript numbers *)

Module Number.

Inductive number : Type :=
| NaN
| Num (q : Qc).

#[global] Instance number_eq_dec : EqDecision number.
Proof. solve_decision. Defined.

Definition zero : number := Num 0%Qc.

Definition of_Z (z : Z) : number := Num (Q2Qc (inject_Z z)).

Definition lift2 (f : Qc → Qc → Qc) (a b : number) : number :=
  match a, b with
  | Num x, Num y => Num (f x y)
  | _, _ => NaN
  end.

Definition add : number → number → number := lift2 Qcplus.
Definition sub : number → number → number := lift2 Qcminus.
Definition mul : number → number → number := lift2 Qcmult.

(** Division is only used with the literal divisor 60; a zero divisor,
    which would give an infinity or [NaN] in JavaScript, yields [NaN]. *)
Definition div (a b : number) : number :=
  match a, b with
  | Num x, Num y => if decide (y = 0%Qc) then NaN else Num (x / y)%Qc
  | _, _ => NaN
  end.

Definition neg (a : number) : number :=
  match a with
  | Num x => Num (- x)%Qc
  | NaN => NaN
  end.

(** [Math.abs] on a number. *)
Definition abs (a : number) : number :=
  match a with
  | Num x => if decide (x < 0)%Qc then Num (- x)%Qc else Num x
  | NaN => NaN
  end.

(** [a < b], [a <= b], [a > b]: false as soon as one side is [NaN]. *)
Definition ltb (a b : number) : bool :=
  match a, b with
  | Num x, Num y => bool_decide (x < y)%Qc
  | _, _ => false
  end.

Definition leb (a b : number) : bool :=
  match a, b with
  | Num x, Num y => bool_decide (x ≤ y)%Qc
  | _, _ => false
  end.

Definition gtb (a b : number) : bool := ltb b a.

(** [a === b] and [a !== b] on numbers: [NaN] differs from itself. *)
Definition eqb (a b : number) : bool :=
  match a, b with
  | Num x, Num y => bool_decide (x = y)
  | _, _ => false
  end.

Definition neqb (a b : number) : bool := negb (eqb a b).

(** Truthiness of a number: [0] and [NaN] are falsy. *)
Definition truthy (a : number) : bool :=
  match a with
  | Num x => bool_decide (x ≠ 0%Qc)
  | NaN => false
  end.

(** [TimeClip(a)], the time value of [new Date(a)]: [NaN] beyond 8.64e15
    milliseconds on either side of the epoch, else [a] without its
    fraction. *)
Definition TimeClip (a : number) : number :=
  match a with
  | NaN => NaN
  | Num x =>
      let limit := Q2Qc (inject_Z 8640000000000000) in
      if bool_decide (limit < x ∨ x < - limit)%Qc then NaN
      else of_Z (Z.quot (Qnum (this x)) (Zpos (Qden (this x))))
  end.

End Number.

Export Number.

Declare Scope number_scope.
Delimit Scope number_scope with num.
Bind Scope number_scope with number.
Infix "+" := Number.add : number_scope.
Infix "-" := Number.sub : number_scope.
Infix "*" := Number.mul : number_scope.
Infix "/" := Number.div : number_scope.

(** Decimal literals of the scripts. *)
Definition lit (q : Q) : number := Num (Q2Qc q).

(** ** JavaScript values *)

Inductive value : Type :=
| VUndef
| VNull
| VBool (b : bool)
| VNum (n : number)
| VStr (s : string)
| VDate (t : number).

#[global] Instance value_eq_dec : EqDecision value.
Proof. solve_decision. Defined.

(** What an empty cell reads as: the empty string. *)
Definition blank : value := VStr EmptyString.

(** The built-ins whose result is fixed by the runtime, not by the
    scripts: [Number(s)], [parseFloat(s)] and [Date.parse(s)] on a string,
    [String(n)] on a number and [String(d)] on a date with time value [t]. *)
Class Runtime : Type := {
  StringToNumber : string → number;
  parseFloat_string : string → number;
  Number_toString : number → string;
  Date_parse : string → number;
  Date_toString : number → string
}.

Section Values.
Context `{Runtime}.

(** [!!v] *)
Definition truthy (v : value) : bool :=
  match v with
  | VUndef | VNull => false
  | VBool b => b
  | VNum n => Number.truthy n
  | VStr s => negb (bool_decide (s = EmptyString))
  | VDate _ => true
  end.

(** [a || b] *)
Definition js_or (a b : value) : value := if truthy a then a else b.

(** [a === b]; two date objects are never the same object. *)
Definition strict_eq (a b : value) : bool :=
  match a, b with
  | VUndef, VUndef => true
  | VNull, VNull => true
  | VBool x, VBool y => bool_decide (x = y)
  | VNum x, VNum y => Number.eqb x y
  | VStr x, VStr y => bool_decide (x = y)
  | _, _ => false
  end.

(** [Number(v)], the conversion behind [v <= 0] and [Math.abs(v)]. *)
Definition ToNumber (v : value) : number :=
  match v with
  | VUndef => NaN
  | VNull => Number.zero
  | VBool b => if b then of_Z 1 else Number.zero
  | VNum n => n
  | VStr s => StringToNumber s
  | VDate t => t
  end.

(** [parseFloat(v)]: the argument is first turned into text. *)
Definition parseFloat (v : value) : number :=
  match v with
  | VNum n => n
  | VStr s => parseFloat_string s
  | VUndef | VNull | VBool _ | VDate _ => NaN
  end.

(** [parseFloat(v) || 0] *)
Definition parseFloat_or_0 (v : value) : number :=
  let n := parseFloat v in if Number.truthy n then n else Number.zero.

(** [new Date(v).getTime()] *)
Definition Date_getTime (v : value) : number :=
  match v with
  | VDate t => t
  | VStr s => Date_parse s
  | VUndef => NaN
  | VNull | VBool _ | VNum _ => TimeClip (ToNumber v)
  end.

(** [new Date(v)] *)
Definition Date_new (v : value) : value := VDate (Date_getTime v).

(** [v + n] for a number [n]: numeric addition unless [v] is text or a
    date, which are concatenated with the text of [n]. *)
Definition js_add (v : value) (n : number) : value :=
  match v with
  | VStr s => VStr (s ++ Number_toString n)
  | VDate t => VStr (Date_toString t ++ Number_toString n)
  | _ => VNum (ToNumber v + n)
  end.

End Values.

(** ** Objects, arrays and sheets *)

(** A plain object: [o[k]] is [undefined] for an absent key. *)
Abbreviation object := (gmap string value).

Definition get (o : object) (k : string) : value := default VUndef (o !! k).

(** [headers.indexOf(k)]: [None] stands for [-1]. *)
Fixpoint indexOf (k : string) (l : list string) : option nat :=
  match l with
  | [] => None
  | h :: l' => if decide (h = k) then Some 0 else S <$> indexOf k l'
  end.

(** [row[i]] for an index obtained from [indexOf]. *)
Definition at_index (row : list value) (i : option nat) : value :=
  match i with
  | Some n => default VUndef (row !! n)
  | None => VUndef
  end.

(** [headers.forEach((header, i) => o[header] = row[i])] on a fresh [o];
    a header that occurs twice keeps the cell of its last occurrence. *)
Fixpoint row_object_from (o : object) (headers : list string)
  (row : list value) : object :=
  match headers with
  | [] => o
  | h :: hs =>
      row_object_from (<[h := default VUndef (head row)]> o) hs (tail row)
  end.

Definition row_object (headers : list string) (row : list value) : object :=
  row_object_from ∅ headers row.

(** An array that was assigned through indices obtained from [indexOf]:
    [arr[-1] = v] leaves the elements alone and sets the property ["-1"],
    which [arr[-1]] reads back. *)
Record array : Type := mkArray {
  elements : list value;
  minus_one : value
}.

Definition array_set (i : option nat) (v : value) (a : array) : array :=
  match i with
  | Some n => mkArray (<[n := v]> (elements a)) (minus_one a)
  | None => mkArray (elements a) v
  end.

Definition array_get (a : array) (i : option nat) : value :=
  match i with
  | Some n => default VUndef (elements a !! n)
  | None => minus_one a
  end.

Record Sheet : Type := mkSheet {
  header : list string;
  body : list (list value)
}.

#[global] Instance Sheet_eq_dec : EqDecision Sheet.
Proof. solve_decision. Defined.

Abbreviation Spreadsheet := (gmap string Sheet).

(** What a cell holds after a script wrote [v] into it. *)
Definition to_cell (v : value) : value :=
  match v with
  | VUndef | VNull => blank
  | _ => v
  end.

(** [sheet.getLastRow()] *)
Definition getLastRow (sh : Sheet) : nat :=
  match header sh with
  | [] => 0
  | _ => S (length (body sh))
  end.

(** The row with 1-based number [r], header included. *)
Definition sheet_row (sh : Sheet) (r : nat) : option (list value) :=
  match r with
  | 0 => None
  | 1 => Some (VStr <$> header sh)
  | S (S i) => body sh !! i
  end.

(** [sheet.appendRow(row)] *)
Definition append_row (row : list value) (sh : Sheet) : Sheet :=
  mkSheet (header sh) (body sh ++ [to_cell <$> row]).

(** The cell update behind [getRange(r, c + 1).setValue(v)] for a 0-based
    column [c] and a row [r] below the header, the only rows that the
    scripts write to. *)
Definition set_cell (r c : nat) (v : value) (sh : Sheet) : Sheet :=
  if decide (r < 2) then sh
  else mkSheet (header sh)
               (alter (λ row, <[c := to_cell v]> row) (r - 2) (body sh)).

(** ** Scripts: state and exceptions *)

Inductive outcome (A : Type) : Type :=
| Return (a : A)
| Throw (e : string).

Arguments Return {A} a.
Arguments Throw {A} e.

#[global] Instance outcome_eq_dec `{EqDecision A} : EqDecision (outcome A).
Proof. solve_decision. Defined.

Definition script (A : Type) : Type := Spreadsheet → outcome A * Spreadsheet.

#[global] Instance script_ret : MRet script := λ A a ss, (Return a, ss).

#[global] Instance script_bind : MBind script := λ A B f m ss,
  match m ss with
  | (Return a, ss') => f a ss'
  | (Throw e, ss') => (Throw e, ss')
  end.

Definition throw {A : Type} (e : string) : script A := λ ss, (Throw e, ss).

(** A function that only reads the spreadsheet. *)
Definition reads {A : Type} (f : Spreadsheet → A) : script A :=
  λ ss, (Return (f ss), ss).

(** A reading function that may throw. *)
Definition attempts {A : Type} (f : Spreadsheet → outcome A) : script A :=
  λ ss, (f ss, ss).

(** [try { m } catch (e) { h }] *)
Definition try_catch {A : Type} (m : script A) (h : string → script A)
  : script A := λ ss,
  match m ss with
  | (Return a, ss') => (Return a, ss')
  | (Throw e, ss') => h e ss'
  end.

(** ** Utils.js *)

(** [getSheet(sheetName)]: the sheet, or [null] when there is none. *)
Definition getSheet (sheetName : string) (ss : Spreadsheet) : option Sheet :=
  ss !! sheetName.

(** [sheet.appendRow(row)] on the sheet called [sheetName]. *)
Definition appendRow (sheetName : string) (row : list value) : script unit :=
  λ ss, (Return (), alter (append_row row) sheetName ss).

(** [sheet.getRange(r, c + 1).setValue(v)] on the sheet called
    [sheetName], with [c] obtained from [indexOf]: column 0 is no range. *)
Definition setValue (sheetName : string) (r : nat) (c : option nat)
  (v : value) : script unit :=
  match c with
  | None => throw "The starting column of the range is too small."
  | Some c => λ ss, (Return (), alter (set_cell r c v) sheetName ss)
  end.

(** [sheet.getRange(1, 1, 1, sheet.getLastColumn()).getValues()[0]]: a
    range of no columns is refused. *)
Definition header_row (sh : Sheet) : outcome (list string) :=
  match header sh with
  | [] => Throw "The number of columns in the range must be at least 1."
  | hs => Return hs
  end.

(** [Array.prototype.sort(compare)]: a stable sort.  [compare a b > 0]
    moves [b] before [a]; any other result, [NaN] included, keeps the two
    in their order.  For a comparator that is a consistent ordering the
    result is the one every stable sort gives. *)
Section Sort.
Context {A : Type} (compare : A → A → number).

Fixpoint sort_insert (x : A) (l : list A) : list A :=
  match l with
  | [] => [x]
  | y :: l' =>
      if Number.gtb (compare x y) Number.zero
      then y :: sort_insert x l'
      else x :: y :: l'
  end.

Fixpoint js_sort (l : list A) : list A :=
  match l with
  | [] => []
  | x :: l' => sort_insert x (js_sort l')
  end.

End Sort.

(** ** Employees.js *)

Definition EMPLOYEE_SHEET : string := "EMPLOYEE DETAILS".

Section Scripts.
Context `{Runtime}.

(** [for (const row of data) if (row[nameCol] === name) return employee] *)
Fixpoint find_row (col : option nat) (key : value) (data : list (list value))
  : option (list value) :=
  match data with
  | [] => None
  | row :: data' =>
      if strict_eq (at_index row col) key then Some row
      else find_row col key data'
  end.

(** [getEmployeeByName(name)]: the employee object, or [null]; reading a
    sheet that does not exist throws. *)
Definition getEmployeeByName (name : value) (ss : Spreadsheet)
  : outcome (option object) :=
  match getSheet EMPLOYEE_SHEET ss with
  | None => Throw "Cannot read properties of null (reading 'getDataRange')"
  | Some sheet =>
      let data := body sheet in
      let headers := header sheet in
      let nameCol := indexOf "EMPLOYEE NAME" headers in
      Return (row_object headers <$> find_row nameCol name data)
  end.

(** ** Loans.js *)

Record validation : Type := mkValidation {
  isValid : bool;
  errors : list string
}.

#[global] Instance validation_eq_dec : EqDecision validation.
Proof. solve_decision. Defined.

(** [errors.push(msg)] guarded by [cond]. *)
Definition push_if (cond : bool) (msg : string) (errors : list string)
  : list string :=
  if cond then errors ++ [msg] else errors.

(** What the entry points return to the client. *)
Inductive response : Type :=
| Invalid (errors : list string)
| Failure (message : string)
| Success (message : string) (recordNumber : value).

#[global] Instance response_eq_dec : EqDecision response.
Proof. solve_decision. Defined.

Definition validateLoan (data : object) : validation :=
  let errors := [] in
  let errors :=
    push_if (negb (truthy (get data "Employee Name")))
            "Employee name is required." errors in
  let errors :=
    push_if (negb (truthy (get data "LoanAmount"))
             || Number.leb (ToNumber (get data "LoanAmount")) Number.zero)
            "Loan amount must be a positive number." errors in
  let errors :=
    push_if (negb (truthy (get data "TransactionDate")))
            "Transaction date is required." errors in
  mkValidation (bool_decide (length errors = 0)) errors.

(** The comparator shared by the history and the recomputation: by
    transaction date, then by recording time. *)
Definition compare_dates (dateA tsA dateB tsB : value) : number :=
  let dateA := Date_getTime dateA in
  let dateB := Date_getTime dateB in
  if Number.neqb dateA dateB then (dateA - dateB)%num
  else (Date_getTime tsA - Date_getTime tsB)%num.

Definition getLoanHistory (employeeId : value) (ss : Spreadsheet)
  : list object :=
  match getSheet "loans" ss with
  | None => []
  | Some sheet =>
      let data := body sheet in
      let headers := header sheet in
      let transactions :=
        List.filter (λ t, strict_eq (get t "Employee ID") employeeId)
                    (row_object headers <$> data) in
      js_sort (λ a b, compare_dates (get a "TransactionDate")
                                    (get a "Timestamp")
                                    (get b "TransactionDate")
                                    (get b "Timestamp"))
              transactions
  end.

Definition getCurrentLoanBalance (employeeId : value) (ss : Spreadsheet)
  : value :=
  let history := getLoanHistory employeeId ss in
  if bool_decide (length history = 0) then VNum Number.zero
  else get (default ∅ (history !! (length history - 1))) "BalanceAfter".

(** An element of [employeeRows]. *)
Record item : Type := mkItem {
  rowIndex : nat;
  rowData : list value
}.

(** The [forEach] that closes [recalculateLoanBalances], with the running
    [currentBalance] as an argument. *)
Fixpoint write_balances (balanceBeforeCol balanceAfterCol loanAmountCol
  : option nat) (employeeRows : list item) (currentBalance : number)
  : script unit :=
  match employeeRows with
  | [] => mret ()
  | item :: rest =>
      let loanAmount := parseFloat (at_index (rowData item) loanAmountCol) in
      _ ← setValue "loans" (rowIndex item) balanceBeforeCol
                   (VNum currentBalance);
      let currentBalance := (currentBalance + loanAmount)%num in
      _ ← setValue "loans" (rowIndex item) balanceAfterCol
                   (VNum currentBalance);
      write_balances balanceBeforeCol balanceAfterCol loanAmountCol
                     rest currentBalance
  end.

Definition recalculateLoanBalances (employeeId : value) : script unit :=
  λ ss,
  match getSheet "loans" ss with
  | None => (Return (), ss)
  | Some sheet =>
      let allData := body sheet in
      let headers := header sheet in
      let idCol := indexOf "Employee ID" headers in
      let transactionDateCol := indexOf "TransactionDate" headers in
      let timestampCol := indexOf "Timestamp" headers in
      let employeeRows :=
        List.filter
          (λ item, strict_eq (at_index (rowData item) idCol) employeeId)
          (imap (λ index row, mkItem (index + 2) row) allData) in
      let employeeRows :=
        js_sort (λ a b,
                  compare_dates (at_index (rowData a) transactionDateCol)
                                (at_index (rowData a) timestampCol)
                                (at_index (rowData b) transactionDateCol)
                                (at_index (rowData b) timestampCol))
                employeeRows in
      let currentBalance := Number.zero in
      let balanceBeforeCol := indexOf "BalanceBefore" headers in
      let balanceAfterCol := indexOf "BalanceAfter" headers in
      let loanAmountCol := indexOf "LoanAmount" headers in
      write_balances balanceBeforeCol balanceAfterCol loanAmountCol
                     employeeRows currentBalance ss
  end.

(** The row that [addLoanTransaction] appends, one cell per header. *)
Definition loan_row (data : object) (headers : list string)
  (uuid : string) (now : number) (employeeId : value) (amount : number)
  (balanceBefore balanceAfter : value) : list value :=
  (λ header,
     if decide (header = "LoanID") then VStr uuid
     else if decide (header = "Employee ID") then employeeId
     else if decide (header = "Timestamp") then VDate now
     else if decide (header = "TransactionDate")
          then Date_new (get data "TransactionDate")
     else if decide (header = "LoanAmount") then VNum amount
     else if decide (header = "BalanceBefore") then balanceBefore
     else if decide (header = "BalanceAfter") then balanceAfter
     else js_or (get data header) VNull) <$> headers.

(** [addLoanTransaction(data)]; [uuid] is what [generateUUID()] draws and
    [now] the time value of [new Date()]. *)
Definition addLoanTransaction (uuid : string) (now : number) (data : object)
  : script response :=
  try_catch
    (let validation := validateLoan data in
     if negb (isValid validation) then mret (Invalid (errors validation))
     else
       employee ← attempts (getEmployeeByName (get data "Employee Name"));
       match employee with
       | None => mret (Failure "Employee not found.")
       | Some employee =>
           let employeeId := get employee "id" in
           _ ← recalculateLoanBalances employeeId;
           sheet ← reads (getSheet "loans");
           match sheet with
           | None => mret (Failure "Loans sheet not found.")
           | Some sheet =>
               headers ← attempts (λ _, header_row sheet);
               balanceBefore ← reads (getCurrentLoanBalance employeeId);
               let amount :=
                 if strict_eq (get data "LoanType") (VStr "Repayment")
                 then Number.neg (Number.abs (ToNumber (get data "LoanAmount")))
                 else Number.abs (ToNumber (get data "LoanAmount")) in
               let balanceAfter := js_add balanceBefore amount in
               let newRow :=
                 loan_row data headers uuid now employeeId amount
                          balanceBefore balanceAfter in
               _ ← appendRow "loans" newRow;
               _ ← recalculateLoanBalances employeeId;
               mret (Success "Loan transaction added successfully." VUndef)
           end
       end)
    (λ e, mret (Failure
                  "An error occurred while adding the loan transaction.")).

(** [syncLoanForPayslip(recordNumber)]: the body is empty. *)
Definition syncLoanForPayslip (recordNumber : value) : script unit :=
  mret ().

(** ** Payroll.js *)

Definition validatePayslip (data : object) : validation :=
  let errors := [] in
  let errors :=
    push_if (negb (truthy (get data "EMPLOYEE NAME")))
            "Employee Name is required" errors in
  let errors :=
    push_if (negb (truthy (get data "WEEKENDING")))
            "Week Ending date is required" errors in
  let hours := parseFloat_or_0 (get data "HOURS") in
  let overtimeHours := parseFloat_or_0 (get data "OVERTIMEHOURS") in
  let errors :=
    push_if (Number.ltb hours Number.zero
             || Number.ltb overtimeHours Number.zero)
            "Hours cannot be negative" errors in
  let errors :=
    push_if (Number.gtb (hours + overtimeHours)%num (of_Z 168))
            "Total hours exceed maximum possible (168 hours/week)" errors in
  mkValidation (bool_decide (length errors = 0)) errors.

(** [calculatePayslip(data)]: throws when the employee is not found; the
    message, which the caller only logs, also names the employee. *)
Definition calculatePayslip (data : object) (ss : Spreadsheet)
  : outcome object :=
  match getEmployeeByName (get data "EMPLOYEE NAME") ss with
  | Throw e => Throw e
  | Return None => Throw "Employee not found"
  | Return (Some employee) =>
      let hourlyRate := parseFloat (get employee "HOURLY RATE") in
      let hours := parseFloat_or_0 (get data "HOURS") in
      let minutes := parseFloat_or_0 (get data "MINUTES") in
      let overtimeHours := parseFloat_or_0 (get data "OVERTIMEHOURS") in
      let overtimeMinutes := parseFloat_or_0 (get data "OVERTIMEMINUTES") in
      let leavePay := parseFloat_or_0 (get data "LEAVE PAY") in
      let bonusPay := parseFloat_or_0 (get data "BONUS PAY") in
      let otherIncome := parseFloat_or_0 (get data "OTHERINCOME") in
      let otherDeductions := parseFloat_or_0 (get data "OTHER DEDUCTIONS") in
      let loanDeduction := parseFloat_or_0 (get data "LoanDeductionThisWeek") in
      let newLoan := parseFloat_or_0 (get data "NewLoanThisWeek") in
      let standardTime :=
        ((hours * hourlyRate) + ((hourlyRate / of_Z 60) * minutes))%num in
      let overtime :=
        ((overtimeHours * hourlyRate * lit 1.5)
         + ((hourlyRate / of_Z 60) * overtimeMinutes * lit 1.5))%num in
      let grossSalary :=
        (standardTime + overtime + leavePay + bonusPay + otherIncome)%num in
      let uif :=
        if strict_eq (get employee "EMPLOYMENT STATUS") (VStr "Permanent")
        then (grossSalary * lit 0.01)%num
        else Number.zero in
      let totalDeductions := (uif + otherDeductions + loanDeduction)%num in
      let netSalary := (grossSalary - totalDeductions)%num in
      let paidToAccount := (netSalary - loanDeduction + newLoan)%num in
      let result := data in
      let result := <["HOURLYRATE" := VNum hourlyRate]> result in
      let result := <["STANDARDTIME" := VNum standardTime]> result in
      let result := <["OVERTIME" := VNum overtime]> result in
      let result := <["GROSSSALARY" := VNum grossSalary]> result in
      let result := <["UIF" := VNum uif]> result in
      let result := <["TOTALDEDUCTIONS" := VNum totalDeductions]> result in
      let result := <["NETTSALARY" := VNum netSalary]> result in
      let result := <["PaidToAccount" := VNum paidToAccount]> result in
      Return result
  end.

(** [sheet.getRange(sheet.getLastRow(), 1).getValue()] *)
Definition last_row_first_cell (sheet : Sheet) : value :=
  default blank (sheet_row sheet (getLastRow sheet) ≫= head).

(** [createPayslip(data)]; [user] is what [getCurrentUser()] returns and
    [now] the time value of [new Date()]. *)
Definition createPayslip (user : string) (now : number) (data : object)
  : script response :=
  try_catch
    (let validation := validatePayslip data in
     if negb (isValid validation) then mret (Invalid (errors validation))
     else
       calculatedData ← attempts (calculatePayslip data);
       sheet ← reads (getSheet "salary");
       match sheet with
       | None =>
           mret (Failure
             "Salary sheet not found. Please check sheet configuration.")
       | Some sheet =>
           headers ← attempts (λ _, header_row sheet);
           let lastRecordNumber :=
             js_or (last_row_first_cell sheet) (VNum (of_Z 7915)) in
           let newRow :=
             mkArray ((λ header,
                         js_or (js_or (get calculatedData header)
                                      (get data header))
                               VNull) <$> headers)
                     VUndef in
           let recordNumberIndex := indexOf "RECORDNUMBER" headers in
           let newRow :=
             array_set recordNumberIndex
                       (js_add lastRecordNumber (of_Z 1)) newRow in
           let newRow :=
             array_set (indexOf "TIMESTAMP" headers) (VDate now) newRow in
           let newRow :=
             array_set (indexOf "USER" headers) (VStr user) newRow in
           _ ← appendRow "salary" (elements newRow);
           mret (Success "Payslip created successfully."
                         (array_get newRow recordNumberIndex))
       end)
    (λ e, mret (Failure "An error occurred while creating the payslip.")).

(** ** Timesheets.js *)

Definition validateTimesheet (data : object) : validation :=
  let errors := [] in
  let errors :=
    push_if (negb (truthy (get data "EMPLOYEE NAME")))
            "Employee name is required" errors in
  let errors :=
    push_if (negb (truthy (get data "WEEKENDING")))
            "Week ending date is required" errors in
  let hours := parseFloat_or_0 (get data "HOURS") in
  let overtimeHours := parseFloat_or_0 (get data "OVERTIMEHOURS") in
  let errors :=
    push_if (Number.ltb hours Number.zero
             || Number.ltb overtimeHours Number.zero)
            "Hours cannot be negative" errors in
  mkValidation (bool_decide (length errors = 0)) errors.

(** ** The change trigger *)

(** [onChange(e)], for an edit of row [editedRow] of the sheet called
    [sheetName]. *)
Definition onChange (sheetName : string) (editedRow : nat) : script unit :=
  if decide (sheetName = "MASTERSALARY") then
    sheet ← reads (getSheet sheetName);
    let recordNumber :=
      match sheet with
      | Some sh => default blank (sheet_row sh editedRow ≫= head)
      | None => blank
      end in
    syncLoanForPayslip recordNumber
  else mret ().

End Scripts.

(** ** A runtime for the examples

    Decimal numerals with an optional sign, fraction and exponent, and
    calendar dates written [YYYY-MM-DD], read as midnight UTC; other
    notations of numbers (hexadecimal, [Infinity]) are not read and give
    [NaN].  Numbers
    are printed in decimal, with at most twenty digits after the point;
    the text of a date, which depends on the time zone of the script, is
    its time value between brackets. *)

Module Reference.

Definition digit (c : ascii) : option Z :=
  let n := Z.of_nat (nat_of_ascii c) in
  if bool_decide (48 ≤ n ≤ 57)%Z then Some (n - 48)%Z else None.

(** Reads a run of digits: its value after [acc], its length, the rest. *)
Fixpoint read_digits (s : string) (acc : Z) (count : nat)
  : Z * nat * string :=
  match s with
  | String c s' =>
      match digit c with
      | Some d => read_digits s' (10 * acc + d)%Z (S count)
      | None => (acc, count, s)
      end
  | EmptyString => (acc, count, s)
  end.

Definition read_sign (s : string) : bool * string :=
  match s with
  | String "-" s' => (true, s')
  | String "+" s' => (false, s')
  | _ => (false, s)
  end.

(** [[eE][+-]?digits], when present and complete. *)
Definition read_exponent (s : string) : Z * string :=
  match s with
  | String c s' =>
      if bool_decide (c = "e"%char ∨ c = "E"%char) then
        let '(negative, s'') := read_sign s' in
        let '(e, count, rest) := read_digits s'' 0%Z 0 in
        if bool_decide (count = 0) then (0%Z, s)
        else ((if negative then - e else e)%Z, rest)
      else (0%Z, s)
  | EmptyString => (0%Z, s)
  end.

Definition pow10 (e : Z) : Q :=
  if bool_decide (0 ≤ e)%Z then inject_Z (10 ^ e)
  else (1 # Z.to_pos (10 ^ (- e)))%Q.

(** The longest decimal numeral that starts [s], with what follows it. *)
Definition read_decimal (s : string) : option (Qc * string) :=
  let '(negative, s1) := read_sign s in
  let '(int_part, int_count, s2) := read_digits s1 0%Z 0 in
  let '(mantissa, frac_count, s3) :=
    match s2 with
    | String "." s2' =>
        let '(m, count, rest) := read_digits s2' int_part 0 in
        if bool_decide (int_count = 0 ∧ count = 0) then (int_part, 0, s2)
        else (m, count, rest)
    | _ => (int_part, 0, s2)
    end in
  if bool_decide (int_count + frac_count = 0) then None
  else
    let '(e, s4) := read_exponent s3 in
    let q := (inject_Z mantissa * pow10 (e - Z.of_nat frac_count))%Q in
    Some (Q2Qc (if negative then - q else q)%Q, s4).

Definition is_space (c : ascii) : bool :=
  bool_decide (c = " "%char ∨ (9 ≤ nat_of_ascii c ≤ 13)%nat).

Fixpoint trim_start (s : string) : string :=
  match s with
  | String c s' => if is_space c then trim_start s' else s
  | EmptyString => s
  end.

Definition parse_float (s : string) : number :=
  match read_decimal (trim_start s) with
  | Some (q, _) => Num q
  | None => NaN
  end.

Definition to_number (s : string) : number :=
  let s := trim_start s in
  if bool_decide (s = EmptyString) then Number.zero
  else
    match read_decimal s with
    | Some (q, rest) =>
        if bool_decide (trim_start rest = EmptyString) then Num q else NaN
    | None => NaN
    end.

Fixpoint fraction_digits (fuel : nat) (r d : Z) : string :=
  match fuel with
  | 0 => EmptyString
  | S fuel' =>
      if bool_decide (r = 0)%Z then EmptyString
      else pretty (10 * r / d)%Z +:+ fraction_digits fuel' (10 * r mod d)%Z d
  end.

Definition number_to_string (n : number) : string :=
  match n with
  | NaN => "NaN"
  | Num x =>
      let p := Z.abs (Qnum (this x)) in
      let d := Zpos (Qden (this x)) in
      let sign :=
        if bool_decide (Qnum (this x) < 0)%Z then "-" else EmptyString in
      let fraction := fraction_digits 20 (p mod d)%Z d in
      sign +:+ pretty (p / d)%Z
           +:+ (if bool_decide (fraction = EmptyString) then EmptyString
                else "." +:+ fraction)
  end.

(** Days between 1970-01-01 and the given day of the civil calendar. *)
Definition days_from_civil (y m d : Z) : Z :=
  let y := (if bool_decide (m ≤ 2) then y - 1 else y)%Z in
  let era := (y / 400)%Z in
  let yoe := (y - era * 400)%Z in
  let mp := (if bool_decide (m ≤ 2) then m + 9 else m - 3)%Z in
  let doy := ((153 * mp + 2) / 5 + d - 1)%Z in
  let doe := (yoe * 365 + yoe / 4 - yoe / 100 + doy)%Z in
  (era * 146097 + doe - 719468)%Z.

Definition date_parse (s : string) : number :=
  let '(y, ny, s1) := read_digits s 0%Z 0 in
  match s1 with
  | String "-" s1' =>
      let '(m, nm, s2) := read_digits s1' 0%Z 0 in
      match s2 with
      | String "-" s2' =>
          let '(d, nd, s3) := read_digits s2' 0%Z 0 in
          if bool_decide (ny = 4 ∧ nm = 2 ∧ nd = 2 ∧ s3 = EmptyString
                          ∧ (1 ≤ m ≤ 12)%Z ∧ (1 ≤ d ≤ 31)%Z)
          then of_Z (days_from_civil y m d * 86400000)
          else NaN
      | _ => NaN
      end
  | _ => NaN
  end.

Definition date_to_string (t : number) : string :=
  "[" +:+ number_to_string t +:+ "]".

Definition runtime : Runtime := {|
  StringToNumber := to_number;
  parseFloat_string := parse_float;
  Number_toString := number_to_string;
  Date_parse := date_parse;
  Date_toString := date_to_string
|}.

End Reference.

(** ** The validation rules of a loan, as the design document words them *)

Inductive loan_rule : Type :=
| EmployeeReferencePresent
| AmountStrictlyPositive
| TransactionDatePresent.

Definition loan_rules : list loan_rule :=
  [EmployeeReferencePresent; AmountStrictlyPositive; TransactionDatePresent].

Definition rule_message (r : loan_rule) : string :=
  match r with
  | EmployeeReferencePresent => "Employee name is required."
  | AmountStrictlyPositive => "Loan amount must be a positive number."
  | TransactionDatePresent => "Transaction date is required."
  end.

(** A field is missing when it is absent, [null], empty, zero or [NaN]. *)
Definition missing (v : value) : Prop := truthy v = false.

#[global] Instance missing_dec v : Decision (missing v).
Proof. unfold missing. apply _. Defined.

(** A number that is zero or negative. *)
Definition non_positive (n : number) : Prop :=
  match n with
  | Num q => (q ≤ 0)%Qc
  | NaN => False
  end.

#[global] Instance non_positive_dec n : Decision (non_positive n).
Proof. destruct n; simpl; apply _. Defined.

Section LoanRules.
Context `{Runtime}.

(** The loan [data] breaks rule [r]: the employee reference is missing,
    the amount is missing or not positive, the transaction date is
    missing. *)
Definition violates (data : object) (r : loan_rule) : Prop :=
  match r with
  | EmployeeReferencePresent => missing (get data "Employee Name")
  | AmountStrictlyPositive =>
      missing (get data "LoanAmount")
      ∨ non_positive (ToNumber (get data "LoanAmount"))
  | TransactionDatePresent => missing (get data "TransactionDate")
  end.

#[global] Instance violates_dec data r : Decision (violates data r).
Proof. destruct r; simpl; apply _. Defined.

End LoanRules.

(** ** Record numbers *)

Section RecordNumbers.
Context `{Runtime}.

(** Payslips created one after the other. *)
Fixpoint create_payslips (inputs : list (string * number * object))
  : script (list response) :=
  match inputs with
  | [] => mret []
  | (user, now, data) :: rest =>
      response ← createPayslip user now data;
      responses ← create_payslips rest;
      mret (response :: responses)
  end.

(** The record numbers of the creations that succeeded. *)
Definition recordNumbers (responses : list response) : list value :=
  omap (λ response,
          match response with
          | Success _ recordNumber => Some recordNumber
          | _ => None
          end)
       responses.

(** The number that the next payslip follows, read from the first cell of
    the last row: the number there when it is positive, the floor 7915
    when the cell is empty or zero. *)
Definition number_to_follow (v : value) : option Qc :=
  match v with
  | VNum (Num q) =>
      if decide (q = 0%Qc) then Some (Q2Qc (inject_Z 7915))
      else if decide (0 < q)%Qc then Some q
      else None
  | VStr EmptyString => Some (Q2Qc (inject_Z 7915))
  | _ => None
  end.

(** [n] numbers, each one more than the one before, the first one more
    than [r]. *)
Fixpoint consecutive (r : Qc) (n : nat) : list Qc :=
  match n with
  | 0 => []
  | S n' => (r + 1)%Qc :: consecutive (r + 1)%Qc n'
  end.

(** The record numbers on file. *)
Definition numbers_on_file (sheet : Sheet) : list Qc :=
  omap (λ row,
          match at_index row (indexOf "RECORDNUMBER" (header sheet)) with
          | VNum (Num q) => Some q
          | _ => None
          end)
       (body sheet).

(** The next record number in the words of the design document: one more
    than the greatest record number on file, or than the floor 7915 when
    there is none. *)
Definition max_existing_plus_one (sheet : Sheet) : Qc :=
  match numbers_on_file sheet with
  | [] => (Q2Qc (inject_Z 7915) + 1)%Qc
  | q :: qs =>
      (foldl (λ m x, if decide (m ≤ x)%Qc then x else m) q qs + 1)%Qc
  end.

End RecordNumbers.

(** ** The fields of a payslip *)

(** The numeric inputs of a payslip or timesheet. *)
Definition numeric_inputs : list string :=
  ["HOURS"; "MINUTES"; "OVERTIMEHOURS"; "OVERTIMEMINUTES"; "LEAVE PAY";
   "BONUS PAY"; "OTHERINCOME"; "OTHER DEDUCTIONS"; "LoanDeductionThisWeek";
   "NewLoanThisWeek"].

(** The fields that [calculatePayslip] derives. *)
Definition derived_fields : list string :=
  ["HOURLYRATE"; "STANDARDTIME"; "OVERTIME"; "GROSSSALARY"; "UIF";
   "TOTALDEDUCTIONS"; "NETTSALARY"; "PaidToAccount"].

(** Two outcomes of [calculatePayslip] that throw alike or return objects
    with the same derived fields. *)
Definition same_derived_fields (a b : outcome object) : Prop :=
  match a, b with
  | Return r, Return r' => Forall (λ k, get r k = get r' k) derived_fields
  | Throw e, Throw e' => e = e'
  | _, _ => False
  end.

(** ** The ledger as cells *)

(** The cell in column [j] of the [i]-th row below the header. *)
Definition cell (sh : Sheet) (i j : nat) : option value :=
  body sh !! i ≫= (λ row, row !! j).

(** One [setValue] of the recomputation. *)
Record write : Type := mkWrite {
  write_row : nat;
  write_col : option nat;
  written : value
}.

Section Ledger.
Context `{Runtime}.

(** The calls of [setValue] that the loop of [recalculateLoanBalances]
    issues, in order. *)
Fixpoint balance_writes (balanceBeforeCol balanceAfterCol loanAmountCol
  : option nat) (employeeRows : list item) (currentBalance : number)
  : list write :=
  match employeeRows with
  | [] => []
  | item :: rest =>
      let loanAmount := parseFloat (at_index (rowData item) loanAmountCol) in
      mkWrite (rowIndex item) balanceBeforeCol (VNum currentBalance)
      :: mkWrite (rowIndex item) balanceAfterCol
                 (VNum (currentBalance + loanAmount)%num)
      :: balance_writes balanceBeforeCol balanceAfterCol loanAmountCol rest
                        (currentBalance + loanAmount)%num
  end.

(** The writes carried out before the first one that throws. *)
Fixpoint carried_out (ws : list write) : list (nat * nat * value) :=
  match ws with
  | [] => []
  | w :: ws' =>
      match write_col w with
      | Some c => (write_row w, c, written w) :: carried_out ws'
      | None => []
      end
  end.

Definition all_carried_out (ws : list write) : bool :=
  forallb (λ w, bool_decide (is_Some (write_col w))) ws.

(** A sequence of cell updates on a sheet. *)
Definition set_cells (ws : list (nat * nat * value)) (sh : Sheet) : Sheet :=
  foldl (λ sh w, set_cell w.1.1 w.1.2 w.2 sh) sh ws.

(** The value that [set_cells ws] leaves in a cell that it writes. *)
Fixpoint last_written (ws : list (nat * nat * value)) (i j : nat)
  : option value :=
  match ws with
  | [] => None
  | w :: ws' =>
      match last_written ws' i j with
      | Some v => Some v
      | None =>
          if decide (w.1.1 = i + 2 ∧ w.1.2 = j) then Some (to_cell w.2)
          else None
      end
  end.

(** The rows of a sheet once every written cell holds the value last
    written to it. *)
Definition patch (ws : list (nat * nat * value)) (i j : nat) (x : value)
  : value :=
  default x (last_written ws i j).

Definition patched (ws : list (nat * nat * value)) (rows : list (list value))
  : list (list value) :=
  imap (λ i row, imap (patch ws i) row) rows.

(** [employeeRows] of [recalculateLoanBalances], before and after the
    sort. *)
Definition employee_items (employeeId : value) (sheet : Sheet) : list item :=
  List.filter
    (λ item,
       strict_eq (at_index (rowData item) (indexOf "Employee ID" (header sheet)))
                 employeeId)
    (imap (λ index row, mkItem (index + 2) row) (body sheet)).

Definition compare_items (headers : list string) (a b : item) : number :=
  compare_dates
    (at_index (rowData a) (indexOf "TransactionDate" headers))
    (at_index (rowData a) (indexOf "Timestamp" headers))
    (at_index (rowData b) (indexOf "TransactionDate" headers))
    (at_index (rowData b) (indexOf "Timestamp" headers)).

Definition employee_rows (employeeId : value) (sheet : Sheet) : list item :=
  js_sort (compare_items (header sheet)) (employee_items employeeId sheet).

(** The writes of [recalculateLoanBalances(employeeId)] on [sheet]. *)
Definition recalculation_writes (employeeId : value) (sheet : Sheet)
  : list write :=
  balance_writes (indexOf "BalanceBefore" (header sheet))
                 (indexOf "BalanceAfter" (header sheet))
                 (indexOf "LoanAmount" (header sheet))
                 (employee_rows employeeId sheet) Number.zero.

(** How the recomputation ends: it throws when one of its writes does. *)
Definition recalculation_outcome (ws : list write) : outcome unit :=
  if all_carried_out ws then Return ()
  else Throw "The starting column of the range is too small.".

(** An item of [employeeRows] read again after the updates [ws]. *)
Definition patched_item (ws : list (nat * nat * value)) (it : item) : item :=
  mkItem (rowIndex it) (imap (patch ws (rowIndex it - 2)) (rowData it)).

(** The updates [ws] write nothing in column [c]. *)
Definition keeps (ws : list (nat * nat * value)) (c : option nat) : Prop :=
  ∀ i j, c = Some j → last_written ws i j = None.

(** The balance that the loop holds when it reaches the [p]-th row. *)
Definition balance_at (loanAmountCol : option nat) (employeeRows : list item)
  (currentBalance : number) (p : nat) : number :=
  foldl (λ balance item,
           (balance + parseFloat (at_index (rowData item) loanAmountCol))%num)
        currentBalance (take p employeeRows).

(** ** Well-formed ledgers and the balance invariant *)

(** The column called [k] is not repeated. *)
Definition column_unique (k : string) (headers : list string) : Prop :=
  ∀ i j, headers !! i = Some k → headers !! j = Some k → i = j.

Definition ledger_columns : list string :=
  ["Employee ID"; "TransactionDate"; "Timestamp"; "LoanAmount";
   "BalanceBefore"; "BalanceAfter"].

(** A loans sheet as the spreadsheet returns it: every row as wide as the
    header, the columns of the ledger not repeated, the two balance
    columns there. *)
Record ledger_sheet (sheet : Sheet) : Prop := {
  ledger_unique :
    Forall (λ k, column_unique k (header sheet)) ledger_columns;
  ledger_before : "BalanceBefore" ∈ header sheet;
  ledger_after : "BalanceAfter" ∈ header sheet;
  ledger_rectangular :
    Forall (λ row, length row = length (header sheet)) (body sheet)
}.

(** The transaction date and the recording time of a transaction, when
    both are valid dates. *)
Definition times (transactionDate timestamp : value) : option (Qc * Qc) :=
  match Date_getTime transactionDate, Date_getTime timestamp with
  | Num d, Num t => Some (d, t)
  | _, _ => None
  end.

Definition transaction_times (t : object) : option (Qc * Qc) :=
  times (get t "TransactionDate") (get t "Timestamp").

(** Every row of the employee carries two valid dates. *)
Definition employee_rows_dated (employeeId : value) (sheet : Sheet) : Prop :=
  ∀ row, row ∈ body sheet →
    strict_eq (at_index row (indexOf "Employee ID" (header sheet)))
              employeeId = true →
    is_Some (times (at_index row (indexOf "TransactionDate" (header sheet)))
                   (at_index row (indexOf "Timestamp" (header sheet)))).

(** [(transactionDate, recordedAt)] in ascending order: by date, and by
    recording time on the same date. *)
Definition earlier_or_same (a b : Qc * Qc) : Prop :=
  (a.1 < b.1)%Qc ∨ (a.1 = b.1 ∧ (a.2 ≤ b.2)%Qc).

Definition chronological (t t' : object) : Prop :=
  match transaction_times t, transaction_times t' with
  | Some a, Some b => earlier_or_same a b
  | _, _ => False
  end.

(** The signed amount of a transaction: its LoanAmount read with
    [parseFloat], as the recomputation reads it; the number itself when
    the cell holds a number. *)
Definition signed_amount (t : object) : number :=
  parseFloat (get t "LoanAmount").

(** Starting from [balance], each transaction of [history] begins at the
    balance the previous one ended at and ends at that plus its amount. *)
Fixpoint balance_chain (balance : number) (history : list object) : Prop :=
  match history with
  | [] => True
  | t :: rest =>
      get t "BalanceBefore" = VNum balance
      ∧ get t "BalanceAfter" = VNum (balance + signed_amount t)%num
      ∧ balance_chain (balance + signed_amount t)%num rest
  end.

(** The transactions of the employee in the order of the sheet. *)
Definition employee_transactions (employeeId : value) (sheet : Sheet)
  : list object :=
  List.filter (λ t, strict_eq (get t "Employee ID") employeeId)
              (row_object (header sheet) <$> body sheet).

(** The transactions of the employee in the spreadsheet. *)
Definition transactions_of (employeeId : value) (ss : Spreadsheet)
  : list object :=
  match getSheet "loans" ss with
  | None => []
  | Some sheet => employee_transactions employeeId sheet
  end.

End Ledger.

(** The messages of the two rules on hours. *)
Definition hours_messages : list string :=
  ["Hours cannot be negative";
   "Total hours exceed maximum possible (168 hours/week)"].

(** The other field of hours, for each of the two. *)
Definition companion (field : string) : option string :=
  if decide (field = "HOURS") then Some "OVERTIMEHOURS"
  else if decide (field = "OVERTIMEHOURS") then Some "HOURS"
  else None.

(** A number of hours between 0 and 168. *)
Definition within_a_week (n : number) : Prop :=
  match n with
  | Num q => (0 ≤ q)%Qc ∧ (q ≤ Q2Qc (inject_Z 168))%Qc
  | NaN => False
  end.

#[global] Instance within_a_week_dec n : Decision (within_a_week n).
Proof. destruct n; simpl; apply _. Defined.

(** ** Sample data *)

Module Sample.

Definition employees : Sheet :=
  mkSheet ["ID"; "EMPLOYEE NAME"; "HOURLY RATE"; "EMPLOYMENT STATUS"]
          [[VStr "100001"; VStr "Thabo"; VNum (of_Z 100); VStr "Permanent"];
           [VStr "100002"; VStr "Lerato"; VNum (of_Z 80); VStr "Contract"]].

Definition loan_header : list string :=
  ["LoanID"; "Employee ID"; "Timestamp"; "TransactionDate"; "LoanType";
   "LoanAmount"; "BalanceBefore"; "BalanceAfter"].

Definition salary_header : list string :=
  ["RECORDNUMBER"; "EMPLOYEE NAME"; "WEEKENDING"; "HOURS"; "OVERTIMEHOURS";
   "GROSSSALARY"; "NETTSALARY"; "LoanDeductionThisWeek"; "NewLoanThisWeek";
   "PaidToAccount"; "TIMESTAMP"; "USER"].

(** A spreadsheet with two employees, no loan and no payslip. *)
Definition fresh : Spreadsheet :=
  {[ EMPLOYEE_SHEET := employees;
     "loans" := mkSheet loan_header [];
     "salary" := mkSheet salary_header [] ]}.

(** A loan form with nothing filled in. *)
Definition empty_form : object := ∅.

(** The same spreadsheet once payslip 7915 has been filed. *)
Definition books : Spreadsheet :=
  <["salary" :=
      mkSheet salary_header
              [[VNum (of_Z 7915); VStr "Lerato"; VStr "2023-12-29";
                VNum (of_Z 40); blank; VNum (of_Z 3200);
                VNum (of_Z 3200); blank; blank; VNum (of_Z 3200);
                VDate (of_Z 1703859000000); VStr "clerk@example.com"]]]>
  fresh.

(** A ledger in which Thabo's loan of 500, dated 1 January, was recorded
    after his loan of 1000, dated 2 January, and still carries the
    balances it was appended with; Lerato has one loan. *)
Definition ledger : Spreadsheet :=
  <["loans" :=
      mkSheet loan_header
        [[VStr "700001"; VStr "100001"; VDate (of_Z 1704182400000);
          VDate (of_Z 1704153600000); VStr "Disbursement";
          VNum (of_Z 1000); VNum (of_Z 0); VNum (of_Z 1000)];
         [VStr "700002"; VStr "100002"; VDate (of_Z 1704186000000);
          VDate (of_Z 1704153600000); VStr "Disbursement";
          VNum (of_Z 300); VNum (of_Z 0); VNum (of_Z 300)];
         [VStr "700003"; VStr "100001"; VDate (of_Z 1704274200000);
          VDate (of_Z 1704067200000); VStr "Disbursement";
          VNum (of_Z 500); VNum (of_Z 1000); VNum (of_Z 1500)]]]>
  fresh.

(** Books whose payslips 7916 and 7917 were sorted latest first. *)
Definition sorted_books : Spreadsheet :=
  <["salary" :=
      mkSheet salary_header
              [[VNum (of_Z 7917); VStr "Thabo"; VStr "2024-01-12";
                VNum (of_Z 40); blank; VNum (of_Z 4000);
                VNum (of_Z 3960); blank; blank; VNum (of_Z 3960);
                VDate (of_Z 1705068000000); VStr "clerk@example.com"];
               [VNum (of_Z 7916); VStr "Thabo"; VStr "2024-01-05";
                VNum (of_Z 40); blank; VNum (of_Z 4000);
                VNum (of_Z 3960); blank; blank; VNum (of_Z 3960);
                VDate (of_Z 1704463200000); VStr "clerk@example.com"]]]>
  fresh.

(** A week of 40 hours and 5 overtime hours. *)
Definition week : object :=
  {[ "EMPLOYEE NAME" := VStr "Thabo";
     "WEEKENDING" := VStr "2024-01-05";
     "HOURS" := VNum (of_Z 40);
     "OVERTIMEHOURS" := VNum (of_Z 5) ]}.

(** The same week with a loan repayment of 200 and a new loan of 500. *)
Definition week_with_loans : object :=
  <["LoanDeductionThisWeek" := VNum (of_Z 200)]>
    (<["NewLoanThisWeek" := VNum (of_Z 500)]> week).

(** A week of [hours] hours and [overtimeHours] overtime hours. *)
Definition long_week (hours overtimeHours : Z) : object :=
  {[ "EMPLOYEE NAME" := VStr "Thabo";
     "WEEKENDING" := VStr "2024-01-05";
     "HOURS" := VNum (of_Z hours);
     "OVERTIMEHOURS" := VNum (of_Z overtimeHours) ]}.

(** A week whose hours were left out and whose minutes are not a number. *)
Definition sparse_week : object :=
  {[ "EMPLOYEE NAME" := VStr "Thabo";
     "WEEKENDING" := VStr "2024-01-05";
     "MINUTES" := VStr "n/a";
     "OVERTIMEHOURS" := VNum (of_Z 5) ]}.

End Sample.

(** ** Loose equality *)

Section LooseEquality.
Context `{Runtime}.

(** [x == v] for a number [x]: text and booleans are turned into numbers,
    a date into its text and then into a number. *)
Definition number_loose_eq (x : number) (v : value) : bool :=
  match v with
  | VNum y => Number.eqb x y
  | VStr s => Number.eqb x (StringToNumber s)
  | VBool b => Number.eqb x (ToNumber (VBool b))
  | VDate t => Number.eqb x (StringToNumber (Date_toString t))
  | VUndef | VNull => false
  end.

(** [a == b] *)
Definition loose_eq (a b : value) : bool :=
  match a, b with
  | VUndef, (VUndef | VNull) | VNull, (VUndef | VNull) => true
  | VBool x, VBool y => bool_decide (x = y)
  | VStr x, VStr y => bool_decide (x = y)
  | VDate _, VDate _ => false
  | VNum x, _ => number_loose_eq x b
  | _, VNum y => number_loose_eq y a
  | VBool x, _ => number_loose_eq (ToNumber (VBool x)) b
  | _, VBool y => number_loose_eq (ToNumber (VBool y)) a
  | VStr s, VDate t | VDate t, VStr s => bool_decide (s = Date_toString t)
  | _, _ => false
  end.

(** [for (const row of data) if (row[col] == key) return ...] *)
Fixpoint find_row_loose (col : option nat) (key : value)
  (data : list (list value)) : option (list value) :=
  match data with
  | [] => None
  | row :: data' =>
      if loose_eq (at_index row col) key then Some row
      else find_row_loose col key data'
  end.

(** ** Loans.js, the lookup by payslip *)

Definition findLoanRecordBySalaryLink (recordNumber : value)
  (ss : Spreadsheet) : option object :=
  match getSheet "loans" ss with
  | None => None
  | Some sheet =>
      let data := body sheet in
      let headers := header sheet in
      let salaryLinkCol := indexOf "SalaryLink" headers in
      row_object headers <$> find_row_loose salaryLinkCol recordNumber data
  end.

(** ** Payroll.js, reading payslips *)

(** [getPayslip(recordNumber)]: the payslip, or [null]. *)
Definition getPayslip (recordNumber : value) (ss : Spreadsheet)
  : option object :=
  match getSheet "salary" ss with
  | None => None
  | Some sheet =>
      let data := body sheet in
      let headers := header sheet in
      match indexOf "RECORDNUMBER" headers with
      | None => None
      | Some recordCol =>
          row_object headers
            <$> find_row_loose (Some recordCol) recordNumber data
      end
  end.

End LooseEquality.

(** A computation that returns or throws without touching the
    spreadsheet. *)
#[global] Instance outcome_ret : MRet outcome := λ A a, Return a.

#[global] Instance outcome_bind : MBind outcome := λ A B f m,
  match m with
  | Return a => f a
  | Throw e => Throw e
  end.

(** [Utilities.formatDate(d, Session.getScriptTimeZone(), "yyyy-MM-dd")]
    for a date [d] with the given time value: the text, or the exception
    of the service. *)
Class Utilities : Type := {
  Utilities_formatDate : number → outcome string
}.

Section Listings.
Context `{Runtime} `{Utilities}.

(** [formatDate(date)] of Utils.js *)
Definition formatDate (date : value) : outcome value :=
  if negb (truthy date) then Return VNull
  else s ← Utilities_formatDate (Date_getTime date); Return (VStr s).

(** The filter of [listPayslips]: [keep] for each record in turn. *)
Fixpoint filter_payslips (filters : object) (records : list object)
  : outcome (list object) :=
  match records with
  | [] => Return []
  | rec :: rest =>
      keep ←
        (if truthy (get filters "weekEnding") then
           week ← formatDate (get rec "WEEKENDING");
           wanted ← formatDate (Date_new (get filters "weekEnding"));
           Return (strict_eq week wanted)
         else Return true);
      kept ← filter_payslips filters rest;
      Return (if keep : bool then rec :: kept else kept)
  end.

(** [listPayslips(filters)]; no filters is the empty object. *)
Definition listPayslips (filters : object) (ss : Spreadsheet)
  : outcome (list object) :=
  match getSheet "salary" ss with
  | None => Return []
  | Some sheet =>
      let data := body sheet in
      let headers := header sheet in
      let records := row_object headers <$> data in
      kept ← filter_payslips filters records;
      Return (js_sort (λ a b, (ToNumber (get b "RECORDNUMBER")
                               - ToNumber (get a "RECORDNUMBER"))%num)
                      kept)
  end.

End Listings.

(** ** Timesheets.js, the approval workflow *)

(** Text is a sequence of 8-bit characters, each standing for the UTF-16
    code unit of the same number; the white space that [trim] removes is,
    among these, the characters 9 to 13, the space and the no-break
    space. *)
Definition is_white_space (c : ascii) : bool :=
  let n := nat_of_ascii c in
  bool_decide ((9 ≤ n ≤ 13)%nat ∨ n = 32%nat ∨ n = 160%nat).

Fixpoint trim_start (s : string) : string :=
  match s with
  | String c s' => if is_white_space c then trim_start s' else s
  | EmptyString => EmptyString
  end.

Fixpoint trim_end (s : string) : string :=
  match s with
  | String c s' =>
      match trim_end s' with
      | EmptyString =>
          if is_white_space c then EmptyString else String c EmptyString
      | t => String c t
      end
  | EmptyString => EmptyString
  end.

(** [s.trim()] *)
Definition trim (s : string) : string := trim_end (trim_start s).

(** [s.split(sep)] for a separator of one character. *)
Fixpoint split (sep : ascii) (s : string) : list string :=
  match s with
  | String c s' =>
      if decide (c = sep) then EmptyString :: split sep s'
      else
        match split sep s' with
        | piece :: pieces => String c piece :: pieces
        | [] => [String c EmptyString]
        end
  | EmptyString => [EmptyString]
  end.

(** What [parseTimesheetCSV] returns. *)
Inductive parsed : Type :=
| ParseFailure (message : string)
| Parsed (data : list object).

#[global] Instance parsed_eq_dec : EqDecision parsed.
Proof. solve_decision. Defined.

(** [parseTimesheetCSV(csvText)] for a text; a record holds, under each
    header, the cell of the same position, or [undefined] when the line
    is too short. *)
Definition parseTimesheetCSV (csvText : string) : parsed :=
  let lines := split "010"%char (trim csvText) in
  if bool_decide (length lines < 2) then
    ParseFailure "CSV file is empty or invalid"
  else
    let headers := trim <$> split ","%char (default EmptyString (head lines)) in
    Parsed ((λ line,
               let values := trim <$> split ","%char line in
               row_object headers (VStr <$> values))
              <$> tail lines).

Section Timesheets.
Context `{Runtime}.

(** The row that [stagePendingTimesheets] appends for a record. *)
Definition timesheet_row (record : object) (headers : list string)
  (uuid : string) (now : number) : list value :=
  (λ header,
     if decide (header = "Status") then VStr "Pending"
     else if decide (header = "ImportDate") then VDate now
     else if decide (header = "RecordID") then VStr uuid
     else js_or (get record header) VNull) <$> headers.

(** The loop of [stagePendingTimesheets] from the [i]-th record on;
    [uuid i] is what [generateUUID()] draws for that record and [now i]
    the time value of its [new Date()]. *)
Fixpoint stage_records (headers : list string) (uuid : nat → string)
  (now : nat → number) (i : nat) (data : list object) (addedCount : nat)
  : script nat :=
  match data with
  | [] => mret addedCount
  | record :: rest =>
      let validation := validateTimesheet record in
      if negb (isValid validation) then
        stage_records headers uuid now (S i) rest addedCount
      else
        let newRow := timesheet_row record headers (uuid i) (now i) in
        _ ← appendRow "PendingTimesheets" newRow;
        stage_records headers uuid now (S i) rest (S addedCount)
  end.

Definition stagePendingTimesheets (uuid : nat → string) (now : nat → number)
  (data : list object) : script response :=
  try_catch
    (sheet ← reads (getSheet "PendingTimesheets");
     match sheet with
     | None =>
         mret (Failure
           "PendingTimesheets sheet not found. Please check sheet configuration.")
     | Some sheet =>
         headers ← attempts (λ _, header_row sheet);
         addedCount ← stage_records headers uuid now 0 data 0;
         mret (Success
                 (Number_toString (of_Z (Z.of_nat addedCount))
                  ++ " timesheet record(s) staged for approval")
                 VUndef)
     end)
    (λ e, mret (Failure ("Error staging timesheets: " ++ e))).

(** [importTimesheetCSV(csvText)] *)
Definition importTimesheetCSV (uuid : nat → string) (now : nat → number)
  (csvText : string) : script response :=
  try_catch
    (match parseTimesheetCSV csvText with
     | ParseFailure message => mret (Failure message)
     | Parsed data => stagePendingTimesheets uuid now data
     end)
    (λ e, mret (Failure ("Error importing timesheet: " ++ e))).

(** [for (var i = 0; i < data.length; i++) if (data[i][col] === key)]:
    the first such row and its index, counted from [i]. *)
Fixpoint find_index (col : option nat) (key : value)
  (data : list (list value)) (i : nat) : option (nat * list value) :=
  match data with
  | [] => None
  | row :: data' =>
      if strict_eq (at_index row col) key then Some (i, row)
      else find_index col key data' (S i)
  end.

(** [approveTimesheet(recordId)]; [user] and [now] are those of the
    payslip that is created. *)
Definition approveTimesheet (user : string) (now : number) (recordId : value)
  : script response :=
  try_catch
    (sheet ← reads (getSheet "PendingTimesheets");
     match sheet with
     | None => mret (Failure "PendingTimesheets sheet not found")
     | Some sheet =>
         let data := body sheet in
         let headers := header sheet in
         let recordIdCol := indexOf "RecordID" headers in
         let statusCol := indexOf "Status" headers in
         match find_index recordIdCol recordId data 0 with
         | Some (i, row) =>
             let payslipData := row_object headers row in
             result ← createPayslip user now payslipData;
             match result with
             | Success _ recordNumber =>
                 _ ← setValue "PendingTimesheets" (i + 2) statusCol
                              (VStr "Approved");
                 mret (Success "Timesheet approved and payslip created"
                               recordNumber)
             | _ => mret result
             end
         | None => mret (Failure "Timesheet record not found")
         end
     end)
    (λ e, mret (Failure ("Error approving timesheet: " ++ e))).

Definition rejectTimesheet (recordId : value) : script response :=
  try_catch
    (sheet ← reads (getSheet "PendingTimesheets");
     match sheet with
     | None => mret (Failure "PendingTimesheets sheet not found")
     | Some sheet =>
         let data := body sheet in
         let headers := header sheet in
         let recordIdCol := indexOf "RecordID" headers in
         let statusCol := indexOf "Status" headers in
         match find_index recordIdCol recordId data 0 with
         | Some (i, row) =>
             _ ← setValue "PendingTimesheets" (i + 2) statusCol
                          (VStr "Rejected");
             mret (Success "Timesheet rejected" VUndef)
         | None => mret (Failure "Timesheet record not found")
         end
     end)
    (λ e, mret (Failure ("Error rejecting timesheet: " ++ e))).

(** [sheet.getRange(2, 1, lastRow - 1, sheet.getLastColumn())
    .clearContent()]: the rows below the header hold nothing any more,
    and the data range ends with the header. *)
Definition clear_rows (sh : Sheet) : Sheet := mkSheet (header sh) [].

Definition clearContent (sheetName : string) : script unit :=
  λ ss, (Return (), alter clear_rows sheetName ss).

Definition clearPendingTimesheets : script response :=
  try_catch
    (sheet ← reads (getSheet "PendingTimesheets");
     match sheet with
     | None => mret (Failure "PendingTimesheets sheet not found")
     | Some sheet =>
         let lastRow := getLastRow sheet in
         _ ← (if decide (1 < lastRow) then clearContent "PendingTimesheets"
              else mret ());
         mret (Success "All pending timesheets cleared" VUndef)
     end)
    (λ e, mret (Failure ("Error clearing timesheets: " ++ e))).

End Timesheets.

Section ApprovedTimesheets.
Context `{Runtime} `{Utilities}.

(** The loop of [getApprovedTimesheets] over the rows. *)
Fixpoint approved_rows (statusCol weekEndingCol : option nat)
  (weekEnding : value) (data : list (list value))
  : outcome (list (list value)) :=
  match data with
  | [] => Return []
  | row :: rest =>
      keep ←
        (if strict_eq (at_index row statusCol) (VStr "Approved") then
           week ← formatDate (at_index row weekEndingCol);
           wanted ← formatDate weekEnding;
           Return (strict_eq week wanted)
         else Return false);
      kept ← approved_rows statusCol weekEndingCol weekEnding rest;
      Return (if keep : bool then row :: kept else kept)
  end.

Definition getApprovedTimesheets (weekEnding : value) (ss : Spreadsheet)
  : outcome (list object) :=
  match getSheet "PendingTimesheets" ss with
  | None => Return []
  | Some sheet =>
      let data := body sheet in
      let headers := header sheet in
      let statusCol := indexOf "Status" headers in
      let weekEndingCol := indexOf "WEEKENDING" headers in
      approved_rows statusCol weekEndingCol weekEnding data
        ≫= λ approved : list (list value),
             Return (row_object headers <$> approved)
  end.

End ApprovedTimesheets.

(** ** The row of a payslip *)

Section Filing.
Context `{Runtime}.

(** [newRow] of [createPayslip] once its three assignments are done. *)
Definition payslip_array (calculatedData data : object)
  (headers : list string) (lastRecordNumber : value) (user : string)
  (now : number) : array :=
  array_set (indexOf "USER" headers) (VStr user)
    (array_set (indexOf "TIMESTAMP" headers) (VDate now)
       (array_set (indexOf "RECORDNUMBER" headers)
                  (js_add lastRecordNumber (of_Z 1))
                  (mkArray ((λ header,
                               js_or (js_or (get calculatedData header)
                                            (get data header))
                                     VNull) <$> headers)
                           VUndef))).

End Filing.

(** ** The rows of staged timesheets *)

Section Staging.
Context `{Runtime}.

(** The rows that the loop of [stagePendingTimesheets] appends, as the
    sheet holds them, from the [i]-th record on. *)
Fixpoint staged_rows (headers : list string) (uuid : nat → string)
  (now : nat → number) (i : nat) (data : list object)
  : list (list value) :=
  match data with
  | [] => []
  | record :: rest =>
      if negb (isValid (validateTimesheet record)) then
        staged_rows headers uuid now (S i) rest
      else
        (to_cell <$> timesheet_row record headers (uuid i) (now i))
        :: staged_rows headers uuid now (S i) rest
  end.

End Staging.

(** ** What an insertion leaves of the ledger *)

(** [sheet'] has the header of [sheet], and each row of [sheet] is still
    there, in its place and with the same cells save for the two
    balances. *)
Definition balances_apart (sheet sheet' : Sheet) : Prop :=
  header sheet' = header sheet
  ∧ ∀ i row, body sheet !! i = Some row →
      ∃ row', body sheet' !! i = Some row'
        ∧ length row' = length row
        ∧ ∀ j, indexOf "BalanceBefore" (header sheet) ≠ Some j →
               indexOf "BalanceAfter" (header sheet) ≠ Some j →
               row' !! j = row !! j.

(** ** Employees.js, reading and changing an employee *)

(** [sheet.getRange(r, 1, 1, row.length).setValues([row])] for a row [r]
    below the header. *)
Definition set_row (r : nat) (row : list value) (sh : Sheet) : Sheet :=
  if decide (r < 2) then sh
  else mkSheet (header sh) (<[r - 2 := to_cell <$> row]> (body sh)).

(** The same on the sheet called [sheetName]; a range of no columns is
    refused. *)
Definition setValues (sheetName : string) (r : nat) (row : list value)
  : script unit :=
  match row with
  | [] => throw "The number of columns in the range must be at least 1."
  | _ => λ ss, (Return (), alter (set_row r row) sheetName ss)
  end.

(** [getSheet(EMPLOYEE_SHEET).getDataRange()]: reading a sheet that does
    not exist throws. *)
Definition employee_sheet (ss : Spreadsheet) : outcome Sheet :=
  match getSheet EMPLOYEE_SHEET ss with
  | Some sheet => Return sheet
  | None => Throw "Cannot read properties of null (reading 'getDataRange')"
  end.

Definition getEmployeeById (id : value) (ss : Spreadsheet)
  : outcome (option object) :=
  match getSheet EMPLOYEE_SHEET ss with
  | None => Throw "Cannot read properties of null (reading 'getDataRange')"
  | Some sheet =>
      let data := body sheet in
      let headers := header sheet in
      let idCol := indexOf "ID" headers in
      Return (row_object headers <$> find_row idCol id data)
  end.

(** [newRow] of [updateEmployee]: a property that [data] has, even with
    the value [undefined], replaces the cell. *)
Definition updated_row (data : object) (headers : list string)
  (old : list value) (user : string) (now : number) : list value :=
  imap (λ index header,
          if decide (header = "MODIFIED_BY") then VStr user
          else if decide (header = "LAST_MODIFIED") then VDate now
          else match data !! header with
               | Some v => v
               | None => default VUndef (old !! index)
               end)
       headers.

(** [updateEmployee(id, data)]; [user] is what [getCurrentUser()] returns
    and [now] the time value of [new Date()]. *)
Definition updateEmployee (user : string) (now : number) (id : value)
  (data : object) : script response :=
  try_catch
    (sheet ← attempts employee_sheet;
     let values := body sheet in
     let headers := header sheet in
     let idColumnIndex := indexOf "ID" headers in
     match find_index idColumnIndex id values 0 with
     | Some (i, row) =>
         let newRow := updated_row data headers row user now in
         _ ← setValues EMPLOYEE_SHEET (i + 2) newRow;
         mret (Success "Employee updated successfully." VUndef)
     | None => mret (Failure "Employee not found.")
     end)
    (λ e, mret (Failure "An error occurred while updating the employee.")).

Definition terminateEmployee (user : string) (now : number) (id : value)
  (terminationDate : value) : script response :=
  updateEmployee user now id
    {[ "TERMINATION DATE" := terminationDate;
       "EMPLOYMENT STATUS" := VStr "Terminated" ]}.

(** ** Reports.js, the weekly payroll summary *)

Module Reports.

(** A line of the weekly report. *)
Record line : Type := mkLine {
  employee : value;
  gross : value;
  net : value;
  paid : value
}.

#[global] Instance line_eq_dec : EqDecision line.
Proof. solve_decision. Defined.

Record totals : Type := mkTotals {
  employees : nat;
  grossTotal : number;
  netTotal : number;
  paidTotal : number
}.

#[global] Instance totals_eq_dec : EqDecision totals.
Proof. solve_decision. Defined.

(** What [generateWeeklyReport] returns. *)
Inductive report : Type :=
| ReportFailure (message : string)
| WeeklyReport (weekEnding : value) (data : list line) (totals : totals).

#[global] Instance report_eq_dec : EqDecision report.
Proof. solve_decision. Defined.

End Reports.

Section WeeklyReport.
Context `{Runtime} `{Utilities}.

(** The loop of [generateWeeklyReport] over the rows, with [weekData] and
    [totals] as they stand. *)
Fixpoint weekly_lines (weekEndingCol employeeCol grossCol netCol paidCol
  : option nat) (weekEnding : value) (data : list (list value))
  (weekData : list Reports.line) (totals : Reports.totals)
  : outcome (list Reports.line * Reports.totals) :=
  match data with
  | [] => Return (weekData, totals)
  | row :: rest =>
      week ← formatDate (at_index row weekEndingCol);
      wanted ← formatDate weekEnding;
      if strict_eq week wanted then
        let weekData :=
          (weekData ++ [Reports.mkLine (at_index row employeeCol)
                                       (at_index row grossCol)
                                       (at_index row netCol)
                                       (at_index row paidCol)])%list in
        let totals :=
          Reports.mkTotals
            (S (Reports.employees totals))
            (Reports.grossTotal totals
             + parseFloat_or_0 (at_index row grossCol))%num
            (Reports.netTotal totals
             + parseFloat_or_0 (at_index row netCol))%num
            (Reports.paidTotal totals
             + parseFloat_or_0 (at_index row paidCol))%num in
        weekly_lines weekEndingCol employeeCol grossCol netCol paidCol
                     weekEnding rest weekData totals
      else
        weekly_lines weekEndingCol employeeCol grossCol netCol paidCol
                     weekEnding rest weekData totals
  end.

Definition generateWeeklyReport (weekEnding : value) (ss : Spreadsheet)
  : Reports.report :=
  match getSheet "MASTERSALARY" ss with
  | None => Reports.ReportFailure "Salary sheet not found"
  | Some sheet =>
      let data := body sheet in
      let headers := header sheet in
      let weekEndingCol := indexOf "WEEKENDING" headers in
      let employeeCol := indexOf "EMPLOYEE NAME" headers in
      let grossCol := indexOf "GROSSSALARY" headers in
      let netCol := indexOf "NETTSALARY" headers in
      let paidCol := indexOf "PaidToAccount" headers in
      let totals :=
        Reports.mkTotals 0 Number.zero Number.zero Number.zero in
      match weekly_lines weekEndingCol employeeCol grossCol netCol paidCol
                         weekEnding data [] totals with
      | Return (weekData, totals) =>
          Reports.WeeklyReport weekEnding weekData totals
      | Throw e => Reports.ReportFailure ("Error generating report: " ++ e)
      end
  end.

End WeeklyReport.

(** ** A formatter for the examples

    The day of a date in the civil calendar, for a script whose time zone
    is UTC. *)

Module Calendar.

(** The year, month and day of the day that is [z] days after
    1970-01-01. *)
Definition civil_from_days (z : Z) : Z * Z * Z :=
  let z := (z + 719468)%Z in
  let era := (z / 146097)%Z in
  let doe := (z - era * 146097)%Z in
  let yoe := ((doe - doe / 1460 + doe / 36524 - doe / 146096) / 365)%Z in
  let y := (yoe + era * 400)%Z in
  let doy := (doe - (365 * yoe + yoe / 4 - yoe / 100))%Z in
  let mp := ((5 * doy + 2) / 153)%Z in
  let d := (doy - (153 * mp + 2) / 5 + 1)%Z in
  let m := (if bool_decide (mp < 10)%Z then mp + 3 else mp - 9)%Z in
  ((if bool_decide (m ≤ 2)%Z then y + 1 else y)%Z, m, d).

(** [n] in decimal, with zeros in front up to [width] digits. *)
Definition padded (width : nat) (n : Z) : string :=
  let digits := pretty n in
  String.concat EmptyString
                (replicate (width - String.length digits) "0")
  +:+ digits.

Definition format_date (t : number) : outcome string :=
  match t with
  | NaN => Throw "Invalid argument: date"
  | Num x =>
      let day := (Qnum (this x) / Zpos (Qden (this x)) / 86400000)%Z in
      let '(y, m, d) := civil_from_days day in
      Return (padded 4 y +:+ "-" +:+ padded 2 m +:+ "-" +:+ padded 2 d)
  end.

Definition utilities : Utilities := {|
  Utilities_formatDate := format_date
|}.

End Calendar.

(** ** More sample data *)

Module Cases.

(** A salary sheet with a column for the UIF, holding payslip 7915. *)
Definition payroll_header : list string :=
  ["RECORDNUMBER"; "EMPLOYEE NAME"; "WEEKENDING"; "HOURS"; "GROSSSALARY";
   "UIF"; "NETTSALARY"; "TIMESTAMP"; "USER"].

Definition payroll : Spreadsheet :=
  <["salary" :=
      mkSheet payroll_header
              [[VNum (of_Z 7915); VStr "Lerato"; VStr "2023-12-29";
                VNum (of_Z 40); VNum (of_Z 3200); blank; VNum (of_Z 3200);
                VDate (of_Z 1703859000000); VStr "clerk@example.com"]]]>
  Sample.fresh.

(** A week of Lerato, who is on contract, with a UIF of the caller's
    own. *)
Definition week_with_uif : object :=
  {[ "EMPLOYEE NAME" := VStr "Lerato";
     "WEEKENDING" := VStr "2024-01-05";
     "HOURS" := VNum (of_Z 40);
     "UIF" := VNum (of_Z 999) ]}.

(** Timesheets waiting for approval: a week of Thabo, and a week of 100
    hours and 70 overtime hours of Lerato. *)
Definition pending_header : list string :=
  ["RecordID"; "EMPLOYEE NAME"; "WEEKENDING"; "HOURS"; "OVERTIMEHOURS";
   "Status"; "ImportDate"].

Definition pending : Spreadsheet :=
  <["PendingTimesheets" :=
      mkSheet pending_header
              [[VStr "310001"; VStr "Thabo"; VStr "2024-01-05";
                VStr "40"; VStr "5"; VStr "Pending";
                VDate (of_Z 1704700000000)];
               [VStr "310002"; VStr "Lerato"; VStr "2024-01-05";
                VStr "100"; VStr "70"; VStr "Pending";
                VDate (of_Z 1704700000000)]]]>
  Sample.books.

(** Two records of a timesheet file, the second without a name. *)
Definition records : list object :=
  [ {[ "EMPLOYEE NAME" := VStr "Thabo"; "WEEKENDING" := VStr "2024-01-12";
       "HOURS" := VStr "38" ]};
    {[ "WEEKENDING" := VStr "2024-01-12"; "HOURS" := VStr "12" ]} ].

Definition uuids (i : nat) : string :=
  if decide (i = 0) then "310003" else "310004".

Definition clock (i : nat) : number := of_Z 1705300000000.

(** An employee sheet whose identifier column is called [id], and the
    sample ledger with a column for the link to a payslip. *)
Definition staff : Sheet :=
  mkSheet ["id"; "EMPLOYEE NAME"; "HOURLY RATE"; "EMPLOYMENT STATUS"]
          [[VStr "100001"; VStr "Thabo"; VNum (of_Z 100); VStr "Permanent"];
           [VStr "100002"; VStr "Lerato"; VNum (of_Z 80); VStr "Contract"]].

Definition linked_header : list string :=
  ["LoanID"; "Employee ID"; "Timestamp"; "TransactionDate"; "LoanType";
   "LoanAmount"; "BalanceBefore"; "BalanceAfter"; "SalaryLink"].

Definition linked_ledger : Spreadsheet :=
  {[ EMPLOYEE_SHEET := staff;
     "loans" :=
       mkSheet linked_header
         [[VStr "700001"; VStr "100001"; VDate (of_Z 1704182400000);
           VDate (of_Z 1704153600000); VStr "Disbursement";
           VNum (of_Z 1000); VNum (of_Z 0); VNum (of_Z 1000); blank];
          [VStr "700002"; VStr "100002"; VDate (of_Z 1704186000000);
           VDate (of_Z 1704153600000); VStr "Disbursement";
           VNum (of_Z 300); VNum (of_Z 0); VNum (of_Z 300); blank]] ]}.

(** A repayment of 250 by Thabo, dated 1 January and deducted on payslip
    7916. *)
Definition repayment : object :=
  {[ "Employee Name" := VStr "Thabo"; "LoanType" := VStr "Repayment";
     "LoanAmount" := VNum (of_Z 250);
     "TransactionDate" := VDate (of_Z 1704067200000);
     "SalaryLink" := VNum (of_Z 7916) ]}.

(** A timesheet file of three lines, the last one without a name. *)
Definition newline : string := String "010"%char EmptyString.

Definition csv : string :=
  "EMPLOYEE NAME, WEEKENDING ,HOURS" +:+ newline
  +:+ "Thabo,2024-01-12, 38" +:+ newline
  +:+ ",2024-01-12,12" +:+ newline.

(** A timesheet file whose second line ends after the hours. *)
Definition short_csv : string :=
  "EMPLOYEE NAME,HOURS,WEEKENDING" +:+ newline
  +:+ " Thabo , 38" +:+ newline.

(** A rise of Thabo's hourly rate to 120. *)
Definition rise : object := {[ "HOURLY RATE" := VNum (of_Z 120) ]}.

(** The payslips of the sorted books in a sheet called MASTERSALARY. *)
Definition master : Spreadsheet :=
  <["MASTERSALARY" :=
      default (mkSheet [] []) (Sample.sorted_books !! "salary")]>
  Sample.fresh.

End Cases.

(** * Properties *)

(** ** Validation of a loan *)

Section LoanValidation.
Context `{Runtime}.

Lemma leb_zero_non_positive (n : number) :
  Number.leb n Number.zero = true ↔ non_positive n.
Proof.
  destruct n as [|q]; simpl; [by split|].
  by rewrite bool_decide_eq_true.
Qed.

Lemma amount_check_violates (data : object) :
  negb (truthy (get data "LoanAmount"))
  || Number.leb (ToNumber (get data "LoanAmount")) Number.zero = true
  ↔ violates data AmountStrictlyPositive.
Proof.
  rewrite orb_true_iff, negb_true_iff, leb_zero_non_positive. done.
Qed.

(** The validator reports the message of every rule that is broken, in
    the order of the rules, and nothing else. *)
Lemma validateLoan_errors (data : object) :
  errors (validateLoan data)
  = rule_message <$> filter (violates data) loan_rules.
Proof.
  unfold validateLoan, loan_rules, push_if. cbn [errors].
  rewrite !filter_cons, filter_nil.
  pose proof (amount_check_violates data) as Ha.
  destruct (negb (truthy (get data "LoanAmount"))
            || Number.leb (ToNumber (get data "LoanAmount")) Number.zero);
    (destruct (decide (violates data AmountStrictlyPositive)) as [?|Hn];
     [|try (exfalso; apply Hn; by apply Ha)]);
    try (exfalso; by assert (false = true) by (by apply Ha));
    (destruct (decide (violates data EmployeeReferencePresent)) as [He|He];
     cbn in He; unfold missing in He;
     destruct (truthy (get data "Employee Name")); try done);
    (destruct (decide (violates data TransactionDatePresent)) as [Hd|Hd];
     cbn in Hd; unfold missing in Hd;
     destruct (truthy (get data "TransactionDate")); try done).
Qed.

Lemma validateLoan_isValid (data : object) :
  isValid (validateLoan data) = bool_decide (errors (validateLoan data) = []).
Proof.
  unfold validateLoan. cbn [isValid errors].
  apply bool_decide_ext. by rewrite length_zero_iff_nil.
Qed.

(** C7. A loan input that fails validation is answered with the messages
    of all the rules it breaks (employee reference missing, amount missing
    or not positive, transaction date missing), there is at least one, and
    the spreadsheet is left exactly as it was. *)
Theorem invalid_loan_reports_every_rule_and_writes_nothing
  (uuid : string) (now : number) (data : object) (ss : Spreadsheet) :
  isValid (validateLoan data) = false →
  addLoanTransaction uuid now data ss
  = (Return (Invalid (rule_message <$> filter (violates data) loan_rules)),
     ss)
  ∧ filter (violates data) loan_rules ≠ [].
Proof.
  intros Hinvalid. split.
  - rewrite <- validateLoan_errors.
    unfold addLoanTransaction, try_catch. by rewrite Hinvalid.
  - rewrite validateLoan_isValid, bool_decide_eq_false in Hinvalid.
    rewrite validateLoan_errors in Hinvalid.
    intros Hnil. apply Hinvalid. by rewrite Hnil.
Qed.

End LoanValidation.

(** The empty form breaks the three rules; the three messages come back
    and the spreadsheet is unchanged. *)
Lemma invalid_loan_witness :
  addLoanTransaction (H := Reference.runtime) "481516" (of_Z 0)
                     Sample.empty_form Sample.fresh
  = (Return (Invalid ["Employee name is required.";
                      "Loan amount must be a positive number.";
                      "Transaction date is required."]),
     Sample.fresh).
Proof.
  refine (proj1 (invalid_loan_reports_every_rule_and_writes_nothing
                   (H := Reference.runtime) _ _ _ _ _)).
  reflexivity.
Defined.

(** ** Payslip calculation *)

(** Closes a goal that is an equation or an order between numerals. *)
Ltac by_evaluation := apply (bool_decide_unpack _); vm_compute; exact I.

Section Payroll.
Context `{Runtime}.

Lemma get_insert (o : object) (k k' : string) (v : value) :
  get (<[k := v]> o) k' = if decide (k = k') then v else get o k'.
Proof.
  unfold get. case_decide as Hk.
  - subst. by rewrite lookup_insert_eq.
  - by rewrite lookup_insert_ne.
Qed.

(** C5. For an employee that is found, [calculatePayslip] returns the
    derived fields given by the formulas of the payroll engine, computed
    from the inputs read with [parseFloat(x) || 0] and the employee's
    hourly rate and status; at 100 an hour, 40 hours, 5 overtime hours,
    nothing else and a permanent employee they are 4000, 750, 4750, 47.50,
    47.50, 4702.50 and 4702.50. *)
Theorem calculatePayslip_formulas (data : object) (ss : Spreadsheet)
  (employee : object) :
  getEmployeeByName (get data "EMPLOYEE NAME") ss = Return (Some employee) →
  let hourlyRate := parseFloat (get employee "HOURLY RATE") in
  let permanent :=
    strict_eq (get employee "EMPLOYMENT STATUS") (VStr "Permanent") in
  let hours := parseFloat_or_0 (get data "HOURS") in
  let minutes := parseFloat_or_0 (get data "MINUTES") in
  let overtimeHours := parseFloat_or_0 (get data "OVERTIMEHOURS") in
  let overtimeMinutes := parseFloat_or_0 (get data "OVERTIMEMINUTES") in
  let leavePay := parseFloat_or_0 (get data "LEAVE PAY") in
  let bonusPay := parseFloat_or_0 (get data "BONUS PAY") in
  let otherIncome := parseFloat_or_0 (get data "OTHERINCOME") in
  let otherDeductions := parseFloat_or_0 (get data "OTHER DEDUCTIONS") in
  let loanDeductionThisWeek :=
    parseFloat_or_0 (get data "LoanDeductionThisWeek") in
  let newLoanThisWeek := parseFloat_or_0 (get data "NewLoanThisWeek") in
  ∃ (result : object)
    (standardTime overtime grossSalary uif totalDeductions netSalary
     paidToAccount : number),
    calculatePayslip data ss = Return result
    ∧ get result "STANDARDTIME" = VNum standardTime
    ∧ get result "OVERTIME" = VNum overtime
    ∧ get result "GROSSSALARY" = VNum grossSalary
    ∧ get result "UIF" = VNum uif
    ∧ get result "TOTALDEDUCTIONS" = VNum totalDeductions
    ∧ get result "NETTSALARY" = VNum netSalary
    ∧ get result "PaidToAccount" = VNum paidToAccount
    ∧ standardTime
      = (hours * hourlyRate + (hourlyRate / of_Z 60) * minutes)%num
    ∧ overtime
      = (overtimeHours * hourlyRate * lit 1.5
         + (hourlyRate / of_Z 60) * overtimeMinutes * lit 1.5)%num
    ∧ grossSalary
      = (standardTime + overtime + leavePay + bonusPay + otherIncome)%num
    ∧ uif = (if permanent then grossSalary * lit 0.01 else Number.zero)%num
    ∧ totalDeductions = (uif + otherDeductions + loanDeductionThisWeek)%num
    ∧ netSalary = (grossSalary - totalDeductions)%num
    ∧ paidToAccount = (netSalary - loanDeductionThisWeek + newLoanThisWeek)%num
    ∧ (hourlyRate = of_Z 100 → permanent = true →
       hours = of_Z 40 → minutes = Number.zero →
       overtimeHours = of_Z 5 → overtimeMinutes = Number.zero →
       leavePay = Number.zero → bonusPay = Number.zero →
       otherIncome = Number.zero → otherDeductions = Number.zero →
       loanDeductionThisWeek = Number.zero → newLoanThisWeek = Number.zero →
       standardTime = of_Z 4000 ∧ overtime = of_Z 750
       ∧ grossSalary = of_Z 4750 ∧ uif = lit 47.50
       ∧ totalDeductions = lit 47.50 ∧ netSalary = lit 4702.50
       ∧ paidToAccount = lit 4702.50).
Proof.
  intros Hfound. cbv zeta. unfold calculatePayslip. rewrite Hfound.
  eexists _, _, _, _, _, _, _, _.
  split; [reflexivity|].
  repeat (split; [rewrite !get_insert; reflexivity|]).
  repeat (split; [reflexivity|]).
  intros -> -> -> -> -> -> -> -> -> -> -> ->.
  repeat split; by_evaluation.
Qed.

End Payroll.

(** The sample week of Thabo, who is paid 100 an hour and is permanent. *)
Lemma calculatePayslip_witness :
  ∃ result : object,
    calculatePayslip (H := Reference.runtime) Sample.week Sample.fresh
    = Return result
    ∧ get result "STANDARDTIME" = VNum (of_Z 4000)
    ∧ get result "OVERTIME" = VNum (of_Z 750)
    ∧ get result "GROSSSALARY" = VNum (of_Z 4750)
    ∧ get result "UIF" = VNum (lit 47.50)
    ∧ get result "TOTALDEDUCTIONS" = VNum (lit 47.50)
    ∧ get result "NETTSALARY" = VNum (lit 4702.50)
    ∧ get result "PaidToAccount" = VNum (lit 4702.50).
Proof.
  destruct (calculatePayslip_formulas (H := Reference.runtime)
              Sample.week Sample.fresh
              (row_object (header Sample.employees)
                 [VStr "100001"; VStr "Thabo"; VNum (of_Z 100);
                  VStr "Permanent"])
              eq_refl)
    as (result & st & ot & gs & uif & td & ns & pa & Hresult
        & Hst & Hot & Hgs & Huif & Htd & Hns & Hpa
        & _ & _ & _ & _ & _ & _ & _ & Hexample).
  destruct Hexample as (-> & -> & -> & -> & -> & -> & ->);
    try reflexivity.
  by exists result.
Defined.

(** ** Validation of payslips and timesheets *)

Section HoursValidation.
Context `{Runtime}.

(** The weekly limit of [validatePayslip]: the message is reported exactly
    when the hours and the overtime hours add up to more than 168. *)
Lemma validatePayslip_weekly_limit (data : object) :
  "Total hours exceed maximum possible (168 hours/week)"
    ∈ errors (validatePayslip data)
  ↔ Number.gtb (parseFloat_or_0 (get data "HOURS")
                + parseFloat_or_0 (get data "OVERTIMEHOURS"))%num
               (of_Z 168) = true.
Proof.
  unfold validatePayslip, push_if. cbn [errors].
  destruct (negb (truthy (get data "EMPLOYEE NAME")));
    destruct (negb (truthy (get data "WEEKENDING")));
    destruct (Number.ltb _ Number.zero || Number.ltb _ Number.zero);
    destruct (Number.gtb _ (of_Z 168)); cbn;
    rewrite ?elem_of_cons, ?elem_of_nil; intuition (discriminate || auto).
Qed.

(** C6. A timesheet of 100 hours and 70 overtime hours, 170 in all, passes
    [validateTimesheet], which has no weekly limit; [validatePayslip]
    rejects the same input and accepts 100 hours with 68 overtime hours. *)
Theorem validateTimesheet_accepts_170_hours :
  validateTimesheet (Sample.long_week 100 70) = mkValidation true []
  ∧ validatePayslip (Sample.long_week 100 70)
    = mkValidation false
        ["Total hours exceed maximum possible (168 hours/week)"]
  ∧ validatePayslip (Sample.long_week 100 68) = mkValidation true []
  ∧ validateTimesheet (Sample.long_week 100 68) = mkValidation true [].
Proof. repeat split; by vm_compute. Qed.

End HoursValidation.

(** ** Inputs that are absent or not numbers *)

Section MissingInputs.
Context `{Runtime}.

Lemma parseFloat_or_0_NaN (v : value) :
  parseFloat v = NaN → parseFloat_or_0 v = Number.zero.
Proof. unfold parseFloat_or_0. by intros ->. Qed.

Lemma parseFloat_or_0_insert (data : object) (field k : string) :
  parseFloat (get data field) = NaN →
  parseFloat_or_0 (get (<[field := VNum Number.zero]> data) k)
  = parseFloat_or_0 (get data k).
Proof.
  intros Hnan. rewrite get_insert. case_decide as Hk; [|done].
  subst k. rewrite (parseFloat_or_0_NaN (get data field)) by done.
  by vm_compute.
Qed.

Lemma get_insert_other (data : object) (field k : string) (v : value) :
  field ∈ numeric_inputs → k ∉ numeric_inputs →
  get (<[field := v]> data) k = get data k.
Proof.
  intros Hin Hout. rewrite get_insert. case_decide; [by subst|done].
Qed.

Lemma not_a_numeric_input (k : string) :
  bool_decide (k ∈ numeric_inputs) = false → k ∉ numeric_inputs.
Proof. by rewrite bool_decide_eq_false. Qed.

Lemma validatePayslip_insert (data : object) (field : string) :
  field ∈ numeric_inputs → parseFloat (get data field) = NaN →
  validatePayslip (<[field := VNum Number.zero]> data) = validatePayslip data.
Proof.
  intros Hin Hnan. unfold validatePayslip.
  rewrite !parseFloat_or_0_insert by done.
  by rewrite !(get_insert_other data field) by
    (done || by apply not_a_numeric_input).
Qed.

Lemma validateTimesheet_insert (data : object) (field : string) :
  field ∈ numeric_inputs → parseFloat (get data field) = NaN →
  validateTimesheet (<[field := VNum Number.zero]> data)
  = validateTimesheet data.
Proof.
  intros Hin Hnan. unfold validateTimesheet.
  rewrite !parseFloat_or_0_insert by done.
  by rewrite !(get_insert_other data field) by
    (done || by apply not_a_numeric_input).
Qed.

Lemma calculatePayslip_insert (data : object) (field : string)
  (ss : Spreadsheet) :
  field ∈ numeric_inputs → parseFloat (get data field) = NaN →
  same_derived_fields
    (calculatePayslip data ss)
    (calculatePayslip (<[field := VNum Number.zero]> data) ss).
Proof.
  intros Hin Hnan. unfold calculatePayslip.
  rewrite !parseFloat_or_0_insert by done.
  rewrite (get_insert_other data field) by
    (done || by apply not_a_numeric_input).
  destruct (getEmployeeByName _ ss) as [[employee|]|e]; cbn; try done.
  unfold derived_fields. repeat constructor; by rewrite !get_insert.
Qed.

(** When neither number of hours is negative and their sum is at most 168
    there is nothing to report about hours. *)
Lemma hours_rules_pass (data : object) :
  let hours := parseFloat_or_0 (get data "HOURS") in
  let overtimeHours := parseFloat_or_0 (get data "OVERTIMEHOURS") in
  Number.ltb hours Number.zero = false →
  Number.ltb overtimeHours Number.zero = false →
  Number.gtb (hours + overtimeHours)%num (of_Z 168) = false →
  Forall (λ msg, (msg ∉ errors (validatePayslip data))
                 ∧ (msg ∉ errors (validateTimesheet data)))
         hours_messages.
Proof.
  cbv zeta. intros Hh Ho Hsum.
  unfold validatePayslip, validateTimesheet, push_if, hours_messages.
  rewrite Hh, Ho, Hsum. cbn [errors orb].
  destruct (negb (truthy (get data "EMPLOYEE NAME")));
    destruct (negb (truthy (get data "WEEKENDING")));
    repeat constructor; cbn;
    rewrite ?elem_of_cons, ?elem_of_nil; intuition discriminate.
Qed.

Lemma within_a_week_checks (n : number) :
  within_a_week n →
  Number.ltb n Number.zero = false
  ∧ Number.gtb (Number.zero + n)%num (of_Z 168) = false
  ∧ Number.gtb (n + Number.zero)%num (of_Z 168) = false.
Proof.
  destruct n as [|q]; [done|]. intros [Hlow Hhigh]. cbn.
  rewrite Qcplus_0_l, Qcplus_0_r.
  rewrite !bool_decide_eq_false. split; [|split]; by apply Qcle_not_lt.
Qed.

(** With one number of hours read as zero and the other between 0 and 168
    there is nothing to report about hours. *)
Lemma absent_hours_pass (data : object) (field other : string) :
  parseFloat (get data field) = NaN →
  companion field = Some other →
  within_a_week (parseFloat_or_0 (get data other)) →
  Forall (λ msg, (msg ∉ errors (validatePayslip data))
                 ∧ (msg ∉ errors (validateTimesheet data)))
         hours_messages.
Proof.
  intros Hnan Hother (Hlow & Hsum & Hsum')%within_a_week_checks.
  unfold companion in Hother. repeat case_decide; simplify_eq;
    apply hours_rules_pass; rewrite ?(parseFloat_or_0_NaN _ Hnan);
    done || by_evaluation.
Qed.

(** What [parseFloat(x) || 0] reads from the inputs when [field] counts as
    zero. *)
Lemma read_with_zero (data : object) (field : string) (k : string) :
  parseFloat (get data field) = NaN →
  parseFloat_or_0 (get data k)
  = if decide (k = field) then Number.zero else parseFloat_or_0 (get data k).
Proof.
  intros Hnan. case_decide as Hk; [|done].
  subst k. by apply parseFloat_or_0_NaN.
Qed.

(** C10. A numeric input that is absent, or that [parseFloat] cannot read
    (null, a boolean, a date, text that does not begin with a number), is
    read as 0: validation of the payslip and of the timesheet answers as
    if the field were 0; the calculation throws or returns as it does
    with the field set to 0, and for an employee that is found it returns
    the derived fields given by the formulas of the payroll engine with 0
    in the place of the field; and when the field is one of the two
    numbers of hours and the other one lies between 0 and 168, no
    violation of the rules on hours is reported. *)
Theorem absent_input_counts_as_zero (data : object) (field : string)
  (ss : Spreadsheet) :
  field ∈ numeric_inputs →
  parseFloat (get data field) = NaN →
  let data0 := <[field := VNum Number.zero]> data in
  let read := λ k : string,
    if decide (k = field) then Number.zero
    else parseFloat_or_0 (get data k) in
  validatePayslip data = validatePayslip data0
  ∧ validateTimesheet data = validateTimesheet data0
  ∧ same_derived_fields (calculatePayslip data ss) (calculatePayslip data0 ss)
  ∧ (∀ employee : object,
       getEmployeeByName (get data "EMPLOYEE NAME") ss
       = Return (Some employee) →
       let hourlyRate := parseFloat (get employee "HOURLY RATE") in
       let standardTime :=
         (read "HOURS" * hourlyRate
          + (hourlyRate / of_Z 60) * read "MINUTES")%num in
       let overtime :=
         (read "OVERTIMEHOURS" * hourlyRate * lit 1.5
          + (hourlyRate / of_Z 60) * read "OVERTIMEMINUTES" * lit 1.5)%num in
       let grossSalary :=
         (standardTime + overtime + read "LEAVE PAY" + read "BONUS PAY"
          + read "OTHERINCOME")%num in
       let uif :=
         if strict_eq (get employee "EMPLOYMENT STATUS") (VStr "Permanent")
         then (grossSalary * lit 0.01)%num
         else Number.zero in
       let totalDeductions :=
         (uif + read "OTHER DEDUCTIONS"
          + read "LoanDeductionThisWeek")%num in
       let netSalary := (grossSalary - totalDeductions)%num in
       let paidToAccount :=
         (netSalary - read "LoanDeductionThisWeek"
          + read "NewLoanThisWeek")%num in
       ∃ result : object,
         calculatePayslip data ss = Return result
         ∧ get result "HOURLYRATE" = VNum hourlyRate
         ∧ get result "STANDARDTIME" = VNum standardTime
         ∧ get result "OVERTIME" = VNum overtime
         ∧ get result "GROSSSALARY" = VNum grossSalary
         ∧ get result "UIF" = VNum uif
         ∧ get result "TOTALDEDUCTIONS" = VNum totalDeductions
         ∧ get result "NETTSALARY" = VNum netSalary
         ∧ get result "PaidToAccount" = VNum paidToAccount)
  ∧ ∀ other, companion field = Some other →
      within_a_week (parseFloat_or_0 (get data other)) →
      Forall (λ msg, (msg ∉ errors (validatePayslip data))
                     ∧ (msg ∉ errors (validateTimesheet data)))
             hours_messages.
Proof.
  intros Hin Hnan data0 read. subst data0.
  rewrite validatePayslip_insert, validateTimesheet_insert by done.
  split; [done|]. split; [done|].
  split; [by apply calculatePayslip_insert|]. split.
  - intros employee Hfound. cbv zeta.
    assert (∀ k, read k = parseFloat_or_0 (get data k)) as Hread.
    { intros k. symmetry. by apply read_with_zero. }
    rewrite !Hread. unfold calculatePayslip. rewrite Hfound.
    eexists. split; [reflexivity|].
    repeat split; rewrite !get_insert; reflexivity.
  - intros other. by apply absent_hours_pass.
Qed.

End MissingInputs.

(** A week without hours: it is valid, nothing is reported about hours,
    and it is paid as a week of 0 hours: nothing for the standard time,
    750 for the 5 hours of overtime at 100 an hour, 7.50 of UIF. *)
Lemma absent_input_witness :
  validatePayslip (H := Reference.runtime) Sample.sparse_week
  = mkValidation true []
  ∧ same_derived_fields
      (calculatePayslip (H := Reference.runtime) Sample.sparse_week
                        Sample.fresh)
      (calculatePayslip (H := Reference.runtime)
                        (<["HOURS" := VNum Number.zero]> Sample.sparse_week)
                        Sample.fresh)
  ∧ (∃ result : object,
       calculatePayslip (H := Reference.runtime) Sample.sparse_week
                        Sample.fresh
       = Return result
       ∧ get result "STANDARDTIME" = VNum Number.zero
       ∧ get result "OVERTIME" = VNum (of_Z 750)
       ∧ get result "GROSSSALARY" = VNum (of_Z 750)
       ∧ get result "UIF" = VNum (lit 7.5)
       ∧ get result "TOTALDEDUCTIONS" = VNum (lit 7.5)
       ∧ get result "NETTSALARY" = VNum (lit 742.5)
       ∧ get result "PaidToAccount" = VNum (lit 742.5))
  ∧ Forall (λ msg,
              (msg ∉ errors (validatePayslip (H := Reference.runtime)
                                             Sample.sparse_week))
              ∧ (msg ∉ errors (validateTimesheet (H := Reference.runtime)
                                                 Sample.sparse_week)))
           hours_messages.
Proof.
  destruct (absent_input_counts_as_zero (H := Reference.runtime)
              Sample.sparse_week "HOURS" Sample.fresh)
    as (_ & _ & Hsame & Hderived & Hhours).
  - by_evaluation.
  - reflexivity.
  - split; [reflexivity|]. split; [exact Hsame|]. split.
    + destruct (Hderived
                  (row_object (header Sample.employees)
                     [VStr "100001"; VStr "Thabo"; VNum (of_Z 100);
                      VStr "Permanent"])
                  eq_refl)
        as (result & Hresult & _ & Hst & Hot & Hgs & Huif & Htd & Hns & Hpa).
      exists result. split; [exact Hresult|].
      rewrite Hst, Hot, Hgs, Huif, Htd, Hns, Hpa.
      repeat split; by_evaluation.
    + apply (Hhours "OVERTIMEHOURS"); [reflexivity|by_evaluation].
Defined.

(** Text that begins with a number is not read as 0, although it is not
    a number: [parseFloat] reads the number it begins with.  Hours of
    '200abc' are 200, over the weekly limit and paid as 200 hours; hours
    of '-3 hours' are -3 and reported as negative by both validations.
    With 0 hours the same week passes both. *)
Lemma text_that_begins_with_a_number_is_not_read_as_zero :
  let long := <["HOURS" := VStr "200abc"]> Sample.week in
  let negative := <["HOURS" := VStr "-3 hours"]> Sample.week in
  let none := <["HOURS" := VNum Number.zero]> Sample.week in
  ToNumber (H := Reference.runtime) (VStr "200abc") = NaN
  ∧ ToNumber (H := Reference.runtime) (VStr "-3 hours") = NaN
  ∧ validatePayslip (H := Reference.runtime) long
    = mkValidation false
        ["Total hours exceed maximum possible (168 hours/week)"]
  ∧ validatePayslip (H := Reference.runtime) negative
    = mkValidation false ["Hours cannot be negative"]
  ∧ validateTimesheet (H := Reference.runtime) negative
    = mkValidation false ["Hours cannot be negative"]
  ∧ validatePayslip (H := Reference.runtime) none = mkValidation true []
  ∧ validateTimesheet (H := Reference.runtime) none = mkValidation true []
  ∧ match calculatePayslip (H := Reference.runtime) long Sample.fresh with
    | Return result => get result "STANDARDTIME"
    | Throw _ => VUndef
    end
    = VNum (of_Z 20000)
  ∧ match calculatePayslip (H := Reference.runtime) none Sample.fresh with
    | Return result => get result "STANDARDTIME"
    | Throw _ => VUndef
    end
    = VNum Number.zero.
Proof. cbv zeta. repeat split; by_evaluation. Qed.

(** ** Payslips and the ledger *)

Section PayslipLedger.
Context `{Runtime}.

(** [createPayslip] writes to the salary sheet only. *)
Lemma createPayslip_other_sheets (user : string) (now : number)
  (data : object) (ss : Spreadsheet) (name : string) :
  name ≠ "salary" →
  (createPayslip user now data ss).2 !! name = ss !! name.
Proof.
  intros Hname.
  unfold createPayslip, try_catch, mbind, script_bind, mret, script_ret,
    attempts, reads, appendRow.
  destruct (negb (isValid (validatePayslip data))); [done|].
  destruct (calculatePayslip data ss); [|done].
  destruct (getSheet "salary" ss) as [sheet|]; [|done].
  destruct (header_row sheet); [|done].
  cbn. by rewrite lookup_alter_ne.
Qed.

(** The change trigger does nothing. *)
Lemma onChange_does_nothing (sheetName : string) (editedRow : nat)
  (ss : Spreadsheet) :
  onChange sheetName editedRow ss = (Return (), ss).
Proof. unfold onChange. by case_decide. Qed.

(** C2. A payslip with a loan deduction of 200 and a new loan of 500 is
    created as number 7916 and filed in the salary sheet, yet the ledger
    has no transaction afterwards: [createPayslip] never writes to the
    loans sheet, and neither does the change trigger, whose
    [syncLoanForPayslip] has an empty body. *)
Theorem createPayslip_records_no_loan_transaction :
  let filed :=
    createPayslip "clerk@example.com" (of_Z 1704463200000)
                  Sample.week_with_loans Sample.books in
  filed.1 = Return (Success "Payslip created successfully." (VNum (of_Z 7916)))
  ∧ (length ∘ body <$> filed.2 !! "salary") = Some 2
  ∧ filed.2 !! "loans" = Some (mkSheet Sample.loan_header [])
  ∧ getLoanHistory (VStr "100001") filed.2 = []
  ∧ onChange "MASTERSALARY" 3 filed.2 = (Return (), filed.2)
  ∧ ∀ user now data ss,
      (createPayslip user now data ss).2 !! "loans" = ss !! "loans".
Proof.
  cbv zeta. split; [by_evaluation|]. split; [by vm_compute|].
  assert (∀ user now data ss,
            (createPayslip user now data ss).2 !! "loans" = ss !! "loans")
    as Hloans by (intros; by apply createPayslip_other_sheets).
  split; [by rewrite Hloans|].
  split; [unfold getLoanHistory, getSheet; by rewrite Hloans|].
  split; [apply onChange_does_nothing | exact Hloans].
Qed.

End PayslipLedger.

(** ** Columns and row objects *)

Section Columns.

Lemma indexOf_Some (k : string) (l : list string) (i : nat) :
  indexOf k l = Some i → l !! i = Some k.
Proof.
  revert i. induction l as [|h l IH]; intros i; simpl; [done|].
  case_decide as Hh.
  - intros [= <-]. by subst.
  - destruct (indexOf k l) as [n|]; simpl; [|done].
    intros [= <-]. by apply IH.
Qed.

Lemma indexOf_None (k : string) (l : list string) :
  indexOf k l = None ↔ k ∉ l.
Proof.
  induction l as [|h l IH]; simpl.
  - split; [intros _; apply not_elem_of_nil|done].
  - rewrite not_elem_of_cons. case_decide as Hh.
    + split; [done|]. intros [Hne _]. by subst.
    + destruct (indexOf k l); simpl.
      * split; [done|]. intros [_ Hn]. by apply IH in Hn.
      * split; [|done]. intros _. split; [done|]. by apply IH.
Qed.

Lemma indexOf_elem_of (k : string) (l : list string) :
  k ∈ l → is_Some (indexOf k l).
Proof.
  intros Hin. destruct (indexOf k l) eqn:E; [by eexists|].
  by apply indexOf_None in E.
Qed.

(** Columns found under different names are different columns. *)
Lemma indexOf_inj (k k' : string) (l : list string) (i : nat) :
  indexOf k l = Some i → indexOf k' l = Some i → k = k'.
Proof.
  intros Hk Hk'. apply indexOf_Some in Hk, Hk'. congruence.
Qed.

Lemma indexOf_lt (k : string) (l : list string) (i : nat) :
  indexOf k l = Some i → i < length l.
Proof. intros Hk. apply indexOf_Some in Hk. by eapply lookup_lt_Some. Qed.

Lemma column_unique_tail (k h : string) (hs : list string) :
  column_unique k (h :: hs) → column_unique k hs.
Proof.
  intros Hu i j Hi Hj. by assert (S i = S j) as [= ->] by by apply Hu.
Qed.

Lemma column_unique_head (k : string) (hs : list string) :
  column_unique k (k :: hs) → k ∉ hs.
Proof.
  intros Hu [i Hi]%list_elem_of_lookup.
  by assert (0 = S i) by by apply Hu.
Qed.

Lemma NoDup_column_unique (k : string) (hs : list string) :
  NoDup hs → column_unique k hs.
Proof. intros Hnd i j Hi Hj. by eapply NoDup_lookup. Qed.

Lemma row_object_from_get (o : object) (hs : list string) (row : list value)
  (k : string) :
  column_unique k hs →
  get (row_object_from o hs row) k
  = match indexOf k hs with
    | Some i => default VUndef (row !! i)
    | None => get o k
    end.
Proof.
  revert o row. induction hs as [|h hs IH]; intros o row Hu; simpl; [done|].
  case_decide as Hh.
  - subst h. rewrite IH by by eapply column_unique_tail.
    apply column_unique_head, indexOf_None in Hu. rewrite Hu.
    unfold get. rewrite lookup_insert_eq. by destruct row.
  - rewrite IH by by eapply column_unique_tail.
    destruct (indexOf k hs) as [i|]; simpl.
    + by destruct row.
    + unfold get. by rewrite lookup_insert_ne.
Qed.

(** Reading a column of a row object is reading the cell under the header
    of that name. *)
Lemma row_object_get (hs : list string) (row : list value) (k : string) :
  column_unique k hs →
  get (row_object hs row) k = at_index row (indexOf k hs).
Proof.
  intros Hu. unfold row_object. rewrite row_object_from_get by done.
  unfold at_index. by destruct (indexOf k hs).
Qed.

End Columns.

(** ** The sort *)

Section SortFacts.
Context {A : Type} (compare : A → A → number).

Lemma sort_insert_perm (x : A) (l : list A) :
  sort_insert compare x l ≡ₚ x :: l.
Proof.
  induction l as [|y l IH]; cbn [sort_insert]; [done|].
  destruct (Number.gtb (compare x y) Number.zero); [|done].
  rewrite IH. apply Permutation_swap.
Qed.

Lemma js_sort_perm (l : list A) : js_sort compare l ≡ₚ l.
Proof.
  induction l as [|x l IH]; cbn [js_sort]; [done|].
  by rewrite sort_insert_perm, IH.
Qed.

Lemma elem_of_js_sort (x : A) (l : list A) : x ∈ js_sort compare l ↔ x ∈ l.
Proof. by rewrite js_sort_perm. Qed.

Lemma length_js_sort (l : list A) : length (js_sort compare l) = length l.
Proof. by rewrite js_sort_perm. Qed.

End SortFacts.

Section SortMap.
Context {A B : Type} (compare : A → A → number) (compare' : B → B → number)
  (f : B → A).

Lemma sort_insert_fmap (x : B) (l : list B) :
  (∀ y, y ∈ l →
     Number.gtb (compare (f x) (f y)) Number.zero
     = Number.gtb (compare' x y) Number.zero) →
  sort_insert compare (f x) (f <$> l) = f <$> sort_insert compare' x l.
Proof.
  induction l as [|y l IH]; intros Hcmp; cbn [sort_insert fmap list_fmap];
    [done|].
  rewrite Hcmp by apply list_elem_of_here.
  destruct (Number.gtb (compare' x y) Number.zero); [|done].
  cbn. f_equal. apply IH. intros z Hz. apply Hcmp.
  by apply list_elem_of_further.
Qed.

(** Sorting commutes with a map that keeps the comparisons. *)
Lemma js_sort_fmap (l : list B) :
  (∀ x y, x ∈ l → y ∈ l →
     Number.gtb (compare (f x) (f y)) Number.zero
     = Number.gtb (compare' x y) Number.zero) →
  js_sort compare (f <$> l) = f <$> js_sort compare' l.
Proof.
  induction l as [|x l IH]; intros Hcmp; cbn [js_sort fmap list_fmap];
    [done|].
  rewrite IH.
  - apply sort_insert_fmap. intros y Hy%elem_of_js_sort.
    apply Hcmp; [apply list_elem_of_here | by apply list_elem_of_further].
  - intros y z Hy Hz. apply Hcmp; by apply list_elem_of_further.
Qed.

End SortMap.

Section Sorted.
Context {A : Type} (compare : A → A → number).
Context (P : A → Prop) (R : A → A → Prop).
Hypothesis R_trans : ∀ x y z, P x → P y → P z → R x y → R y z → R x z.
Hypothesis compare_R :
  ∀ x y, P x → P y →
    if Number.gtb (compare x y) Number.zero then R y x else R x y.

Lemma sort_insert_sorted (x : A) (l : list A) :
  P x → Forall P l → StronglySorted R l →
  StronglySorted R (sort_insert compare x l).
Proof.
  intros Hx. induction l as [|y l IH]; intros HP Hs; cbn [sort_insert].
  - repeat constructor.
  - apply Forall_cons in HP as [Hy HP].
    apply StronglySorted_inv in Hs as [Hs Hyl].
    pose proof (compare_R x y Hx Hy) as Hxy.
    destruct (Number.gtb (compare x y) Number.zero).
    + constructor; [by apply IH|].
      rewrite sort_insert_perm. by constructor.
    + constructor; [by constructor|]. constructor; [done|].
      rewrite Forall_forall in Hyl, HP |- *. intros z Hz.
      apply (R_trans x y z); auto.
Qed.

Lemma js_sort_sorted (l : list A) :
  Forall P l → StronglySorted R (js_sort compare l).
Proof.
  induction l as [|x l IH]; intros HP; cbn [js_sort]; [constructor|].
  apply Forall_cons in HP as [Hx HP].
  apply sort_insert_sorted; [done| |by apply IH].
  by rewrite js_sort_perm.
Qed.

End Sorted.

(** ** The chronological order *)

Section Chronology.
Context `{Runtime}.

Lemma earlier_or_same_trans (a b c : Qc * Qc) :
  earlier_or_same a b → earlier_or_same b c → earlier_or_same a c.
Proof.
  unfold earlier_or_same. intros [Hab|[Hab Hab']] [Hbc|[Hbc Hbc']].
  - left. by etrans.
  - left. by rewrite <- Hbc.
  - left. by rewrite Hab.
  - right. split; [congruence|]. by etrans.
Qed.

(** What the comparator says about two pairs of valid dates. *)
Lemma compare_dates_order (dateA tsA dateB tsB : value) (a b : Qc * Qc) :
  times dateA tsA = Some a → times dateB tsB = Some b →
  if Number.gtb (compare_dates dateA tsA dateB tsB) Number.zero
  then earlier_or_same b a else earlier_or_same a b.
Proof.
  unfold times, compare_dates, earlier_or_same.
  destruct (Date_getTime dateA) as [|d]; [done|].
  destruct (Date_getTime tsA) as [|t]; [done|].
  destruct (Date_getTime dateB) as [|d']; [done|].
  destruct (Date_getTime tsB) as [|t']; [done|].
  intros [= <-] [= <-]. cbn.
  unfold Number.neqb, Number.eqb, Number.gtb, Number.ltb, Number.zero.
  change (Q2Qc 0) with 0%Qc.
  destruct (decide (d = d')) as [->|Hd].
  - rewrite (bool_decide_eq_true_2 (d' = d')) by done. cbn [negb].
    case_bool_decide as Ht.
    + right. split; [done|]. apply Qclt_le_weak.
      by apply Qclt_minus_iff.
    + right. split; [done|]. apply Qcnot_lt_le. intros Hlt. apply Ht.
      by apply Qclt_minus_iff in Hlt.
  - rewrite (bool_decide_eq_false_2 (d = d')) by done. cbn [negb].
    case_bool_decide as Ht.
    + left. by apply Qclt_minus_iff.
    + destruct (Qclt_le_dec d d') as [Hlt|Hle]; [by left|].
      exfalso. apply Ht.
      apply Qcle_lt_or_eq in Hle as [Hlt|Heq]; [|by subst].
      by apply Qclt_minus_iff in Hlt.
Qed.

End Chronology.

(** ** The history and the current balance *)

Section History.
Context `{Runtime}.

Lemma chronological_trans (a b c : object) :
  chronological a b → chronological b c → chronological a c.
Proof.
  unfold chronological.
  destruct (transaction_times a), (transaction_times b),
    (transaction_times c); try done.
  apply earlier_or_same_trans.
Qed.

Lemma getLoanHistory_unfold (employeeId : value) (ss : Spreadsheet) :
  getLoanHistory employeeId ss
  = js_sort (λ a b, compare_dates (get a "TransactionDate")
                                  (get a "Timestamp")
                                  (get b "TransactionDate")
                                  (get b "Timestamp"))
            (transactions_of employeeId ss).
Proof.
  unfold getLoanHistory, transactions_of. by destruct (getSheet "loans" ss).
Qed.

(** The history holds the transactions of the employee, each once. *)
Lemma getLoanHistory_perm (employeeId : value) (ss : Spreadsheet) :
  getLoanHistory employeeId ss ≡ₚ transactions_of employeeId ss.
Proof. rewrite getLoanHistory_unfold. apply js_sort_perm. Qed.

(** The history is in chronological order when its dates are valid. *)
Lemma getLoanHistory_sorted (employeeId : value) (ss : Spreadsheet) :
  Forall (λ t, is_Some (transaction_times t)) (transactions_of employeeId ss) →
  StronglySorted chronological (getLoanHistory employeeId ss).
Proof.
  intros Hdated. rewrite getLoanHistory_unfold.
  eapply (js_sort_sorted _ (λ t, is_Some (transaction_times t)));
    [| |done].
  - intros x y z _ _ _. apply chronological_trans.
  - intros x y [a Ha] [b Hb]. unfold chronological. rewrite Ha, Hb.
    by apply compare_dates_order.
Qed.

Lemma getCurrentLoanBalance_last (employeeId : value) (ss : Spreadsheet) :
  getCurrentLoanBalance employeeId ss
  = match last (getLoanHistory employeeId ss) with
    | Some t => get t "BalanceAfter"
    | None => VNum Number.zero
    end.
Proof.
  unfold getCurrentLoanBalance. rewrite last_lookup.
  destruct (getLoanHistory employeeId ss) as [|t history]; [done|].
  rewrite bool_decide_eq_false_2 by done.
  cbn [length Nat.pred]. rewrite Nat.sub_1_r. cbn [Nat.pred].
  destruct (lookup_lt_is_Some_2 (t :: history) (length history)) as [x ->];
    [cbn; lia|done].
Qed.

(** C8. The current balance of an employee is the closing balance of the
    last transaction of the history, and zero when there is none; the
    history holds the transactions of the employee in ascending order of
    transaction date, the recording time deciding between transactions of
    the same date, so that no transaction of the employee comes after the
    one whose balance is returned. *)
Theorem current_balance_is_that_of_the_last_transaction
  (employeeId : value) (ss : Spreadsheet) :
  Forall (λ t, is_Some (transaction_times t)) (transactions_of employeeId ss) →
  let history := getLoanHistory employeeId ss in
  history ≡ₚ transactions_of employeeId ss
  ∧ StronglySorted chronological history
  ∧ getCurrentLoanBalance employeeId ss
    = match last history with
      | Some t => get t "BalanceAfter"
      | None => VNum Number.zero
      end
  ∧ (transactions_of employeeId ss = [] →
     getCurrentLoanBalance employeeId ss = VNum Number.zero)
  ∧ ∀ t latest, t ∈ transactions_of employeeId ss →
      last history = Some latest → chronological t latest.
Proof.
  intros Hdated history. subst history.
  split; [apply getLoanHistory_perm|].
  split; [by apply getLoanHistory_sorted|].
  split; [apply getCurrentLoanBalance_last|].
  split.
  - intros Hnone. rewrite getCurrentLoanBalance_last, getLoanHistory_unfold.
    by rewrite Hnone.
  - intros t latest Ht Hlast.
    assert (Forall (λ t, chronological t t) (getLoanHistory employeeId ss))
      as Hrefl.
    { rewrite getLoanHistory_perm. eapply Forall_impl; [done|].
      intros x [a Ha]. unfold chronological. rewrite Ha.
      right. split; [done|]. apply Qcle_refl. }
    rewrite <- getLoanHistory_perm in Ht.
    pose proof (getLoanHistory_sorted _ _ Hdated) as Hs.
    revert Hs Hrefl t Ht Hlast.
    generalize (getLoanHistory employeeId ss). clear.
    intros l Hs. induction Hs as [|z l Hs IH Hz]; intros Hrefl x Hx Hl.
    + by apply elem_of_nil in Hx.
    + apply Forall_cons in Hrefl as [Hzz Hrefl].
      destruct l as [|z' l'].
      * apply list_elem_of_singleton in Hx as ->.
        cbn in Hl. by injection Hl as <-.
      * change (last (z :: z' :: l')) with (last (z' :: l')) in Hl.
        apply elem_of_cons in Hx as [->|Hx]; [|by apply IH].
        rewrite Forall_forall in Hz. apply Hz.
        rewrite last_lookup in Hl. by eapply list_elem_of_lookup_2.
Qed.

End History.

(** Thabo's two loans: the one dated 2 January closes the history. *)
Lemma current_balance_witness :
  getCurrentLoanBalance (H := Reference.runtime) (VStr "100001")
                        Sample.ledger
  = VNum (of_Z 1000)
  ∧ StronglySorted (chronological (H := Reference.runtime))
      (getLoanHistory (H := Reference.runtime) (VStr "100001")
                      Sample.ledger).
Proof.
  destruct (current_balance_is_that_of_the_last_transaction
              (H := Reference.runtime) (VStr "100001") Sample.ledger)
    as (_ & Hsorted & Hbalance & _).
  - by_evaluation.
  - split; [|exact Hsorted]. rewrite Hbalance. by_evaluation.
Defined.

(** ** Cell updates *)

Section CellUpdates.

Lemma imap_imap {A B C : Type} (f : nat → B → C) (g : nat → A → B)
  (l : list A) :
  imap f (imap g l) = imap (λ i x, f i (g i x)) l.
Proof.
  apply list_eq. intros i. rewrite !list_lookup_imap.
  by destruct (l !! i).
Qed.

Lemma imap_id {A : Type} (f : nat → A → A) (l : list A) :
  (∀ i x, l !! i = Some x → f i x = x) → imap f l = l.
Proof.
  intros Hf. apply list_eq. intros i. rewrite list_lookup_imap.
  destruct (l !! i) eqn:E; [|done]. cbn. f_equal. by apply Hf.
Qed.

(** One update, cell by cell. *)
Lemma set_cell_body (r c : nat) (v : value) (sh : Sheet) :
  body (set_cell r c v sh)
  = imap (λ i row,
            imap (λ j x, if decide (r = i + 2 ∧ c = j) then to_cell v else x)
                 row)
         (body sh).
Proof.
  unfold set_cell. case_decide as Hr.
  - symmetry. apply imap_id. intros i row _. apply imap_id. intros j x _.
    rewrite decide_False; [done|lia].
  - cbn [body]. apply list_eq. intros i. rewrite list_lookup_imap.
    destruct (decide (i = r - 2)) as [->|Hi].
    + rewrite list_lookup_alter_eq. destruct (body sh !! (r - 2)); [|done].
      cbn. f_equal. apply list_eq. intros j. rewrite list_lookup_imap.
      destruct (decide (c = j)) as [->|Hj].
      * destruct (l !! j) eqn:E.
        -- rewrite list_lookup_insert_eq by by eapply lookup_lt_Some.
           cbn. rewrite decide_True; [done|lia].
        -- rewrite list_insert_ge by by apply lookup_ge_None.
           by rewrite E.
      * rewrite list_lookup_insert_ne by done.
        destruct (l !! j); [|done]. cbn. rewrite decide_False; [done|tauto].
    + rewrite list_lookup_alter_ne by done.
      destruct (body sh !! i); [|done]. cbn. f_equal. symmetry.
      apply imap_id. intros j x _. rewrite decide_False; [done|lia].
Qed.

Lemma set_cell_header (r c : nat) (v : value) (sh : Sheet) :
  header (set_cell r c v sh) = header sh.
Proof. unfold set_cell. by case_decide. Qed.

(** A sequence of updates leaves in every cell the value last written to
    it, and the header as it was. *)
Lemma set_cells_patched (ws : list (nat * nat * value)) (sh : Sheet) :
  set_cells ws sh = mkSheet (header sh) (patched ws (body sh)).
Proof.
  revert sh. induction ws as [|[[r c] v] ws IH]; intros sh.
  - cbn. destruct sh as [hs rows]. cbn. f_equal. symmetry.
    apply imap_id. intros i row _. by apply imap_id.
  - change (set_cells ((r, c, v) :: ws) sh)
      with (set_cells ws (set_cell r c v sh)).
    rewrite IH, set_cell_header, set_cell_body. f_equal.
    unfold patched. rewrite imap_imap. apply imap_ext. intros i row _.
    rewrite imap_imap. apply imap_ext. intros j x _.
    unfold patch. cbn.
    destruct (last_written ws i j); [done|]. by case_decide.
Qed.

Lemma patched_lookup (ws : list (nat * nat * value))
  (rows : list (list value)) (i : nat) :
  patched ws rows !! i = imap (patch ws i) <$> rows !! i.
Proof. unfold patched. by rewrite list_lookup_imap. Qed.

Lemma patch_patch (ws : list (nat * nat * value)) (i j : nat) (x : value) :
  patch ws i j (patch ws i j x) = patch ws i j x.
Proof. unfold patch. by destruct (last_written ws i j). Qed.

(** Carrying out the same updates again changes nothing. *)
Lemma patched_idemp (ws : list (nat * nat * value))
  (rows : list (list value)) :
  patched ws (patched ws rows) = patched ws rows.
Proof.
  unfold patched. rewrite imap_imap. apply imap_ext. intros i row _.
  rewrite imap_imap. apply imap_ext. intros j x _. apply patch_patch.
Qed.

Lemma at_index_patch (ws : list (nat * nat * value)) (i : nat)
  (row : list value) (c : option nat) :
  (∀ j, c = Some j → last_written ws i j = None) →
  at_index (imap (patch ws i) row) c = at_index row c.
Proof.
  intros Hc. destruct c as [j|]; [|done]. cbn.
  rewrite list_lookup_imap. destruct (row !! j); [|done].
  cbn. unfold patch. by rewrite Hc.
Qed.

End CellUpdates.

(** ** The recomputation as a sequence of cell updates *)

Section Recomputation.
Context `{Runtime}.

Lemma alter_loans (f : Sheet → Sheet) (ss : Spreadsheet) (sh : Sheet) :
  ss !! "loans" = Some sh → alter f "loans" ss = <["loans" := f sh]> ss.
Proof.
  intros Hsh. apply map_eq. intros k.
  destruct (decide (k = "loans")) as [->|Hk].
  - by rewrite lookup_alter_eq, lookup_insert_eq, Hsh.
  - by rewrite lookup_alter_ne, lookup_insert_ne.
Qed.

(** The loop of the recomputation carries out its writes in order, up to
    the first that throws. *)
Lemma write_balances_run (bb ba amt : option nat) (items : list item)
  (cur : number) (ss : Spreadsheet) (sh : Sheet) :
  ss !! "loans" = Some sh →
  let ws := balance_writes bb ba amt items cur in
  write_balances bb ba amt items cur ss
  = (recalculation_outcome ws,
     <["loans" := set_cells (carried_out ws) sh]> ss).
Proof.
  revert cur ss sh. induction items as [|it items IH]; intros cur ss sh Hsh.
  - cbn. by rewrite insert_id.
  - cbn [write_balances balance_writes]. cbv zeta.
    unfold mbind, script_bind, setValue.
    destruct bb as [b|]; [|cbn; by rewrite insert_id].
    rewrite (alter_loans _ ss sh) by done.
    destruct ba as [a|].
    + erewrite alter_loans by apply lookup_insert_eq.
      rewrite insert_insert_eq.
      erewrite IH by apply lookup_insert_eq.
      by rewrite insert_insert_eq.
    + cbn. done.
Qed.

Lemma recalculateLoanBalances_run (employeeId : value) (ss : Spreadsheet) :
  recalculateLoanBalances employeeId ss
  = match ss !! "loans" with
    | None => (Return (), ss)
    | Some sh =>
        let ws := recalculation_writes employeeId sh in
        (recalculation_outcome ws,
         <["loans" := mkSheet (header sh) (patched (carried_out ws) (body sh))]>
           ss)
    end.
Proof.
  unfold recalculateLoanBalances, getSheet.
  destruct (ss !! "loans") as [sh|] eqn:Hsh; [|done].
  cbv zeta. erewrite write_balances_run by done.
  by rewrite set_cells_patched.
Qed.

(** Every write of the recomputation goes to a row of the list and to one
    of the two balance columns. *)
Lemma balance_writes_last_written (bb ba amt : option nat)
  (items : list item) (cur : number) (i j : nat) (v : value) :
  last_written (carried_out (balance_writes bb ba amt items cur)) i j
  = Some v →
  i + 2 ∈ rowIndex <$> items ∧ (bb = Some j ∨ ba = Some j).
Proof.
  revert cur v. induction items as [|it items IH]; intros cur v; [done|].
  cbn [balance_writes carried_out write_col write_row written].
  destruct bb as [b|]; [|done].
  destruct ba as [a|]; cbn [last_written].
  - destruct (last_written _ i j) eqn:E.
    + intros _. apply IH in E as [Hin Hcol].
      split; [|done]. cbn. by apply list_elem_of_further.
    + cbn. repeat case_decide; intros [= <-];
        match goal with
        | Hd : _ = i + 2 ∧ _ = j |- _ => destruct Hd as [Hr <-]
        end;
        (split; [cbn in Hr |- *; rewrite <- Hr; apply list_elem_of_here|auto]).
  - cbn. case_decide as Hd; intros [= <-]. destruct Hd as [Hr <-].
    split; [cbn in Hr |- *; rewrite <- Hr; apply list_elem_of_here|auto].
Qed.

End Recomputation.

(** ** The rows of the employee after the updates *)

Section PatchedRows.
Context `{Runtime}.

Lemma filter_fmap {A B : Type} (p : A → bool) (f : B → A) (l : list B) :
  List.filter p (f <$> l) = f <$> List.filter (λ x, p (f x)) l.
Proof.
  induction l as [|x l IH]; [done|]. cbn.
  destruct (p (f x)); cbn; by rewrite IH.
Qed.

Lemma filter_ext_all {A : Type} (p q : A → bool) (l : list A) :
  (∀ x, p x = q x) → List.filter p l = List.filter q l.
Proof.
  intros Hpq. induction l as [|x l IH]; [done|]. cbn.
  rewrite Hpq, IH. done.
Qed.

Lemma elem_of_filter_bool {A : Type} (p : A → bool) (l : list A) (x : A) :
  x ∈ List.filter p l ↔ x ∈ l ∧ p x = true.
Proof. rewrite !list_elem_of_In. apply filter_In. Qed.

Lemma at_index_patched_item (ws : list (nat * nat * value)) (it : item)
  (c : option nat) :
  keeps ws c →
  at_index (rowData (patched_item ws it)) c = at_index (rowData it) c.
Proof. intros Hc. apply at_index_patch. intros j. apply Hc. Qed.

Lemma items_patched (ws : list (nat * nat * value))
  (rows : list (list value)) :
  imap (λ index row, mkItem (index + 2) row) (patched ws rows)
  = patched_item ws <$> imap (λ index row, mkItem (index + 2) row) rows.
Proof.
  unfold patched. rewrite imap_imap, fmap_imap. apply imap_ext.
  intros i row _. unfold patched_item. cbn.
  by replace (i + 2 - 2) with i by lia.
Qed.

Lemma employee_items_patched (employeeId : value) (hs : list string)
  (rows : list (list value)) (ws : list (nat * nat * value)) :
  keeps ws (indexOf "Employee ID" hs) →
  employee_items employeeId (mkSheet hs (patched ws rows))
  = patched_item ws <$> employee_items employeeId (mkSheet hs rows).
Proof.
  intros Hid. unfold employee_items. cbn [header body].
  rewrite items_patched, filter_fmap. f_equal.
  apply filter_ext_all. intros it. by rewrite at_index_patched_item.
Qed.

Lemma compare_items_patched (hs : list string)
  (ws : list (nat * nat * value)) (a b : item) :
  keeps ws (indexOf "TransactionDate" hs) →
  keeps ws (indexOf "Timestamp" hs) →
  compare_items hs (patched_item ws a) (patched_item ws b)
  = compare_items hs a b.
Proof.
  intros Hd Ht. unfold compare_items.
  by rewrite !at_index_patched_item.
Qed.

Lemma employee_rows_patched (employeeId : value) (hs : list string)
  (rows : list (list value)) (ws : list (nat * nat * value)) :
  keeps ws (indexOf "Employee ID" hs) →
  keeps ws (indexOf "TransactionDate" hs) →
  keeps ws (indexOf "Timestamp" hs) →
  employee_rows employeeId (mkSheet hs (patched ws rows))
  = patched_item ws <$> employee_rows employeeId (mkSheet hs rows).
Proof.
  intros Hid Hd Ht. unfold employee_rows. cbn [header].
  rewrite employee_items_patched by done.
  apply js_sort_fmap. intros x y _ _. by rewrite compare_items_patched.
Qed.

Lemma balance_writes_patched (bb ba amt : option nat)
  (ws : list (nat * nat * value)) (items : list item) (cur : number) :
  keeps ws amt →
  balance_writes bb ba amt (patched_item ws <$> items) cur
  = balance_writes bb ba amt items cur.
Proof.
  intros Hamt. revert cur. induction items as [|it items IH]; intros cur;
    [done|].
  cbn [fmap list_fmap balance_writes]. cbv zeta.
  rewrite at_index_patched_item by done. cbn [rowIndex patched_item].
  by rewrite IH.
Qed.

(** The recomputation writes in the two balance columns only. *)
Lemma recalculation_keeps (employeeId : value) (sh : Sheet) (k : string) :
  k ≠ "BalanceBefore" → k ≠ "BalanceAfter" →
  keeps (carried_out (recalculation_writes employeeId sh))
        (indexOf k (header sh)).
Proof.
  intros Hb Ha i j Hk.
  destruct (last_written _ i j) as [v|] eqn:E; [|done].
  apply balance_writes_last_written in E as [_ [Hj|Hj]].
  - by destruct Hb; eapply indexOf_inj.
  - by destruct Ha; eapply indexOf_inj.
Qed.

(** After a recomputation the same rows are recomputed, with the same
    amounts. *)
Lemma recalculation_writes_patched (employeeId : value) (sh : Sheet) :
  let ws := carried_out (recalculation_writes employeeId sh) in
  recalculation_writes employeeId (mkSheet (header sh) (patched ws (body sh)))
  = recalculation_writes employeeId sh.
Proof.
  cbv zeta. unfold recalculation_writes at 1. cbn [header].
  destruct sh as [hs rows]. cbn [header body].
  rewrite employee_rows_patched
    by (by apply (recalculation_keeps employeeId (mkSheet hs rows))).
  rewrite balance_writes_patched
    by (by apply (recalculation_keeps employeeId (mkSheet hs rows))).
  done.
Qed.

(** C4. Recomputing the balances of an employee a second time right after
    the first leaves the spreadsheet as the first left it and ends the same
    way: every stored balance is the same. *)
Theorem recalculateLoanBalances_idempotent (employeeId : value)
  (ss : Spreadsheet) :
  recalculateLoanBalances employeeId (recalculateLoanBalances employeeId ss).2
  = recalculateLoanBalances employeeId ss.
Proof.
  rewrite !recalculateLoanBalances_run.
  destruct (ss !! "loans") as [sh|] eqn:Hsh; cbn [snd]; [|by rewrite Hsh].
  rewrite lookup_insert_eq. cbv zeta. cbn [header body].
  rewrite recalculation_writes_patched, patched_idemp.
  by rewrite insert_insert_eq.
Qed.

End PatchedRows.

(** ** The rows of an employee *)

Section EmployeeRows.
Context `{Runtime}.

Lemma elem_of_employee_items (employeeId : value) (sh : Sheet) (it : item) :
  it ∈ employee_items employeeId sh
  ↔ body sh !! (rowIndex it - 2) = Some (rowData it)
    ∧ (2 ≤ rowIndex it)%nat
    ∧ strict_eq (at_index (rowData it) (indexOf "Employee ID" (header sh)))
                employeeId = true.
Proof.
  unfold employee_items. rewrite elem_of_filter_bool, elem_of_lookup_imap.
  split.
  - intros [(i & row & -> & Hrow) Hid]. cbn in *.
    replace (i + 2 - 2) with i by lia. repeat split; [done|lia|done].
  - intros (Hrow & Hge & Hid). split; [|done].
    exists (rowIndex it - 2), (rowData it). split; [|done].
    destruct it as [r row]. cbn in *. f_equal. lia.
Qed.

Lemma elem_of_employee_rows (employeeId : value) (sh : Sheet) (it : item) :
  it ∈ employee_rows employeeId sh
  ↔ body sh !! (rowIndex it - 2) = Some (rowData it)
    ∧ (2 ≤ rowIndex it)%nat
    ∧ strict_eq (at_index (rowData it) (indexOf "Employee ID" (header sh)))
                employeeId = true.
Proof.
  unfold employee_rows. rewrite elem_of_js_sort.
  apply elem_of_employee_items.
Qed.

Lemma NoDup_fmap_filter {A B : Type} (f : A → B) (p : A → bool)
  (l : list A) :
  NoDup (f <$> l) → NoDup (f <$> List.filter p l).
Proof.
  induction l as [|x l IH]; [done|]. cbn. intros [Hx Hl]%NoDup_cons.
  destruct (p x); [|by apply IH]. cbn. apply NoDup_cons. split; [|by apply IH].
  intros (y & Hy & [Hyl _]%elem_of_filter_bool)%list_elem_of_fmap.
  apply Hx. rewrite Hy. by apply list_elem_of_fmap_2.
Qed.

(** No row is recomputed twice. *)
Lemma employee_rows_NoDup (employeeId : value) (sh : Sheet) :
  NoDup (rowIndex <$> employee_rows employeeId sh).
Proof.
  unfold employee_rows. rewrite js_sort_perm. unfold employee_items.
  apply NoDup_fmap_filter. rewrite fmap_imap. apply NoDup_alt.
  intros i j x. rewrite !list_lookup_imap.
  destruct (body sh !! i), (body sh !! j); cbn; try done.
  intros [= <-] [= Hij]. lia.
Qed.

(** A row that does not belong to the employee is not written to. *)
Lemma recalculation_skips_row (employeeId : value) (sh : Sheet) (i j : nat)
  (row : list value) :
  body sh !! i = Some row →
  strict_eq (at_index row (indexOf "Employee ID" (header sh))) employeeId
  = false →
  last_written (carried_out (recalculation_writes employeeId sh)) i j = None.
Proof.
  intros Hrow Hid. destruct (last_written _ i j) as [v|] eqn:E; [|done].
  apply balance_writes_last_written in E as [Hin _].
  apply list_elem_of_fmap in Hin as (it & Hit & Hin).
  apply elem_of_employee_rows in Hin as (Hrow' & _ & Hid').
  rewrite <- Hit in Hrow'. replace (i + 2 - 2) with i in Hrow' by lia.
  congruence.
Qed.

(** The recomputation writes nothing outside the balance columns. *)
Lemma recalculation_skips_column (employeeId : value) (sh : Sheet)
  (i j : nat) :
  indexOf "BalanceBefore" (header sh) ≠ Some j →
  indexOf "BalanceAfter" (header sh) ≠ Some j →
  last_written (carried_out (recalculation_writes employeeId sh)) i j = None.
Proof.
  intros Hb Ha. destruct (last_written _ i j) as [v|] eqn:E; [|done].
  by apply balance_writes_last_written in E as [_ [Hj|Hj]].
Qed.

(** C9. A recomputation for an employee leaves every other sheet, the
    header of the loans sheet, the number of its rows and their width as
    they were; a row of another employee is unchanged, and in a row of
    this employee every cell outside the BalanceBefore and BalanceAfter
    columns is unchanged. *)
Theorem recalculation_rewrites_balances_only (employeeId : value)
  (ss : Spreadsheet) :
  let ss' := (recalculateLoanBalances employeeId ss).2 in
  (∀ name, name ≠ "loans" → ss' !! name = ss !! name)
  ∧ (ss !! "loans" = None → ss' !! "loans" = None)
  ∧ ∀ sheet, ss !! "loans" = Some sheet →
      ∃ sheet', ss' !! "loans" = Some sheet'
        ∧ header sheet' = header sheet
        ∧ length (body sheet') = length (body sheet)
        ∧ ∀ i row, body sheet !! i = Some row →
            ∃ row', body sheet' !! i = Some row'
              ∧ length row' = length row
              ∧ (strict_eq (at_index row (indexOf "Employee ID"
                                                   (header sheet)))
                           employeeId = false → row' = row)
              ∧ ∀ j, indexOf "BalanceBefore" (header sheet) ≠ Some j →
                     indexOf "BalanceAfter" (header sheet) ≠ Some j →
                     row' !! j = row !! j.
Proof.
  cbv zeta. rewrite recalculateLoanBalances_run.
  destruct (ss !! "loans") as [sh|] eqn:Hsh; cbn [snd].
  - split; [intros name Hname; by rewrite lookup_insert_ne|].
    split; [done|].
    intros sheet [= <-]. eexists. split; [apply lookup_insert_eq|].
    cbn [header body]. split; [done|].
    split; [unfold patched; by rewrite length_imap|].
    intros i row Hrow. eexists. rewrite patched_lookup, Hrow.
    split; [done|]. split; [by rewrite length_imap|]. split.
    + intros Hid. apply imap_id. intros j x _. unfold patch.
      by erewrite recalculation_skips_row.
    + intros j Hb Ha. rewrite list_lookup_imap.
      destruct (row !! j); [|done]. cbn. unfold patch.
      by rewrite recalculation_skips_column.
  - split; [done|]. split; [done|]. intros sheet. by rewrite Hsh.
Qed.

End EmployeeRows.

(** ** The balance invariant *)

Section BalanceInvariant.
Context `{Runtime}.

Lemma balance_writes_skips (bb ba amt : option nat) (items : list item)
  (cur : number) (r j : nat) :
  r ∉ rowIndex <$> items → (2 ≤ r)%nat →
  last_written (carried_out (balance_writes bb ba amt items cur)) (r - 2) j
  = None.
Proof.
  intros Hr Hge. destruct (last_written _ (r - 2) j) as [v|] eqn:E; [|done].
  apply balance_writes_last_written in E as [Hin _].
  by replace (r - 2 + 2) with r in Hin by lia.
Qed.

(** What the loop leaves in the two balance cells of its [p]-th row. *)
Lemma balance_writes_before (b a : nat) (amt : option nat)
  (items : list item) (cur : number) (p : nat) (it : item) :
  NoDup (rowIndex <$> items) → b ≠ a →
  items !! p = Some it → (2 ≤ rowIndex it)%nat →
  last_written (carried_out (balance_writes (Some b) (Some a) amt items cur))
               (rowIndex it - 2) b
  = Some (VNum (balance_at amt items cur p)).
Proof.
  intros Hnd Hba. revert cur p.
  induction items as [|it0 items IH]; intros cur p Hp Hge; [done|].
  apply NoDup_cons in Hnd as [Hit0 Hnd].
  cbn [balance_writes carried_out write_col write_row written last_written].
  destruct p as [|p].
  - injection Hp as ->. rewrite balance_writes_skips by done. cbn.
    rewrite decide_False by (intros [_ ?]; congruence).
    rewrite decide_True by (split; [lia|done]). done.
  - cbn in Hp. rewrite (IH Hnd _ p) by done. done.
Qed.

Lemma balance_writes_after (b a : nat) (amt : option nat)
  (items : list item) (cur : number) (p : nat) (it : item) :
  NoDup (rowIndex <$> items) →
  items !! p = Some it → (2 ≤ rowIndex it)%nat →
  last_written (carried_out (balance_writes (Some b) (Some a) amt items cur))
               (rowIndex it - 2) a
  = Some (VNum (balance_at amt items cur p
                + parseFloat (at_index (rowData it) amt))%num).
Proof.
  intros Hnd. revert cur p.
  induction items as [|it0 items IH]; intros cur p Hp Hge; [done|].
  apply NoDup_cons in Hnd as [Hit0 Hnd].
  cbn [balance_writes carried_out write_col write_row written last_written].
  destruct p as [|p].
  - injection Hp as ->. rewrite balance_writes_skips by done. cbn.
    rewrite decide_True by (split; [lia|done]). done.
  - cbn in Hp. rewrite (IH Hnd _ p) by done. done.
Qed.

Lemma balance_writes_all_carried_out (b a : nat) (amt : option nat)
  (items : list item) (cur : number) :
  all_carried_out (balance_writes (Some b) (Some a) amt items cur) = true.
Proof.
  revert cur. induction items as [|it items IH]; intros cur; [done|].
  cbn. apply IH.
Qed.

Lemma employee_transactions_items (employeeId : value) (sh : Sheet) :
  column_unique "Employee ID" (header sh) →
  employee_transactions employeeId sh
  = (λ it, row_object (header sh) (rowData it))
      <$> employee_items employeeId sh.
Proof.
  intros Hid. unfold employee_transactions, employee_items.
  transitivity
    (List.filter (λ t, strict_eq (get t "Employee ID") employeeId)
       ((λ it, row_object (header sh) (rowData it))
          <$> imap (λ index row, mkItem (index + 2) row) (body sh))).
  - f_equal. rewrite fmap_imap. by rewrite <- imap_const.
  - rewrite filter_fmap. f_equal. apply filter_ext_all. intros it.
    by rewrite row_object_get.
Qed.

(** The history lists the rows of the employee in the order in which the
    recomputation visits them. *)
Lemma getLoanHistory_rows (employeeId : value) (ss : Spreadsheet)
  (sh : Sheet) :
  ss !! "loans" = Some sh →
  column_unique "Employee ID" (header sh) →
  column_unique "TransactionDate" (header sh) →
  column_unique "Timestamp" (header sh) →
  getLoanHistory employeeId ss
  = (λ it, row_object (header sh) (rowData it))
      <$> employee_rows employeeId sh.
Proof.
  intros Hsh Hid Hd Ht. unfold getLoanHistory, getSheet. rewrite Hsh.
  fold (employee_transactions employeeId sh). unfold employee_rows.
  rewrite <- (js_sort_fmap
                (λ a b, compare_dates (get a "TransactionDate")
                                      (get a "Timestamp")
                                      (get b "TransactionDate")
                                      (get b "Timestamp"))
                (compare_items (header sh))
                (λ it, row_object (header sh) (rowData it))).
  - f_equal. by apply employee_transactions_items.
  - intros x y _ _. unfold compare_items. by rewrite !row_object_get.
Qed.

Lemma balance_chain_intro (history : list object) (balance : number) :
  (∀ p t, history !! p = Some t →
     let before :=
       foldl (λ bal t, bal + signed_amount t)%num balance (take p history) in
     get t "BalanceBefore" = VNum before
     ∧ get t "BalanceAfter" = VNum (before + signed_amount t)%num) →
  balance_chain balance history.
Proof.
  revert balance. induction history as [|t history IH]; intros balance Hh;
    [done|].
  destruct (Hh 0 t eq_refl) as [Hb Ha]. cbn in Hb, Ha.
  cbn [balance_chain]. split; [done|]. split; [done|].
  apply IH. intros p t' Hp. apply (Hh (S p) t' Hp).
Qed.

(** The three clauses of the invariant, read off a balance chain. *)
Lemma balance_chain_first (history : list object) (balance : number)
  (t : object) :
  balance_chain balance history → head history = Some t →
  get t "BalanceBefore" = VNum balance.
Proof. destruct history; [done|]. intros (Hb & _) [= <-]. done. Qed.

Lemma balance_chain_step (history : list object) (balance : number)
  (i : nat) (t : object) :
  balance_chain balance history → history !! i = Some t →
  ∃ before, get t "BalanceBefore" = VNum before
    ∧ get t "BalanceAfter" = VNum (before + signed_amount t)%num.
Proof.
  revert balance i. induction history as [|t0 history IH];
    intros balance i Hc Hi; [done|].
  destruct Hc as (Hb & Ha & Hc). destruct i as [|i].
  - injection Hi as <-. by eexists.
  - by eapply IH.
Qed.

Lemma balance_chain_next (history : list object) (balance : number)
  (i : nat) (t t' : object) :
  balance_chain balance history →
  history !! i = Some t → history !! S i = Some t' →
  get t' "BalanceBefore" = get t "BalanceAfter".
Proof.
  revert balance i. induction history as [|t0 history IH];
    intros balance i Hc Hi Hi'; [done|].
  destruct Hc as (Hb & Ha & Hc). destruct i as [|i].
  - injection Hi as <-. cbn in Hi'.
    destruct history as [|t1 history]; [done|].
    injection Hi' as <-. destruct Hc as (Hb' & _). by rewrite Hb', Ha.
  - by eapply IH.
Qed.

Lemma foldl_ext {A B : Type} (f g : A → B → A) (x : A) (l : list B) :
  (∀ a b, f a b = g a b) → foldl f x l = foldl g x l.
Proof.
  intros Hfg. revert x. induction l as [|b l IH]; intros x; [done|].
  cbn. by rewrite Hfg, IH.
Qed.

(** C1. On a well-formed loans sheet whose rows for the employee carry
    valid dates, the recomputation returns, and the history read
    afterwards holds the employee's transactions in ascending order of
    (transaction date, recording time) with the balance before the first
    one 0, the balance after each one its balance before plus its signed
    amount, and the balance before each next one the balance after the
    one it follows. *)
Theorem recalculation_restores_balance_invariant (employeeId : value)
  (ss : Spreadsheet) (sheet : Sheet) :
  ss !! "loans" = Some sheet →
  ledger_sheet sheet →
  employee_rows_dated employeeId sheet →
  ∃ ss', recalculateLoanBalances employeeId ss = (Return (), ss')
    ∧ let history := getLoanHistory employeeId ss' in
      history ≡ₚ transactions_of employeeId ss'
      ∧ length history = length (transactions_of employeeId ss)
      ∧ StronglySorted chronological history
      ∧ (∀ t, head history = Some t →
           get t "BalanceBefore" = VNum Number.zero)
      ∧ (∀ i t, history !! i = Some t →
           ∃ before, get t "BalanceBefore" = VNum before
             ∧ get t "BalanceAfter" = VNum (before + signed_amount t)%num)
      ∧ (∀ i t t', history !! i = Some t → history !! S i = Some t' →
           get t' "BalanceBefore" = get t "BalanceAfter").
Proof.
  intros Hsh [Hu Hb Ha Hrect] Hdated.
  destruct (indexOf_elem_of _ _ Hb) as [b Hbcol].
  destruct (indexOf_elem_of _ _ Ha) as [a Hacol].
  assert (b ≠ a) as Hba.
  { intros ->. pose proof (indexOf_inj _ _ _ _ Hbcol Hacol) as Heq.
    discriminate Heq. }
  unfold ledger_columns in Hu.
  apply Forall_cons in Hu as [Huid Hu]. apply Forall_cons in Hu as [Hud Hu].
  apply Forall_cons in Hu as [Hut Hu]. apply Forall_cons in Hu as [Hum Hu].
  apply Forall_cons in Hu as [Hub Hu]. apply Forall_cons in Hu as [Hua _].
  rewrite recalculateLoanBalances_run, Hsh. cbv zeta.
  set (ws := carried_out (recalculation_writes employeeId sheet)).
  set (ss' := <["loans" := _]> ss).
  exists ss'. split.
  { f_equal. unfold recalculation_outcome, recalculation_writes.
    by rewrite Hbcol, Hacol, balance_writes_all_carried_out. }
  set (F := λ it, row_object (header sheet) (rowData (patched_item ws it))).
  assert (getLoanHistory employeeId ss'
          = F <$> employee_rows employeeId sheet) as Hhistory.
  { erewrite getLoanHistory_rows; [|apply lookup_insert_eq|done..].
    cbn [header]. destruct sheet as [hs rows]. cbn [header body] in *.
    rewrite employee_rows_patched
      by (by apply (recalculation_keeps employeeId (mkSheet hs rows))).
    by rewrite <- list_fmap_compose. }
  assert (∀ it, signed_amount (F it)
                = parseFloat (at_index (rowData it)
                                       (indexOf "LoanAmount" (header sheet))))
    as Hamount.
  { intros it. unfold signed_amount, F. rewrite row_object_get by done.
    by rewrite at_index_patched_item by by apply recalculation_keeps. }
  assert (∀ it, it ∈ employee_rows employeeId sheet →
            transaction_times (F it)
            = times (at_index (rowData it)
                              (indexOf "TransactionDate" (header sheet)))
                    (at_index (rowData it)
                              (indexOf "Timestamp" (header sheet))))
    as Htimes.
  { intros it _. unfold transaction_times, F. rewrite !row_object_get by done.
    by rewrite !at_index_patched_item by by apply recalculation_keeps. }
  assert (balance_chain Number.zero (F <$> employee_rows employeeId sheet))
    as Hchain.
  { apply balance_chain_intro. intros p t Hp. cbv zeta.
    rewrite list_lookup_fmap in Hp.
    destruct (employee_rows employeeId sheet !! p) as [it|] eqn:Hit;
      [|done].
    injection Hp as <-.
    rewrite <- fmap_take, foldl_fmap.
    rewrite (foldl_ext _ (λ bal it,
               (bal + parseFloat (at_index (rowData it)
                                   (indexOf "LoanAmount" (header sheet))))%num))
      by (intros; by rewrite Hamount).
    fold (balance_at (indexOf "LoanAmount" (header sheet))
                     (employee_rows employeeId sheet) Number.zero p).
    rewrite Hamount.
    pose proof (list_elem_of_lookup_2 _ _ _ Hit) as Hin.
    apply elem_of_employee_rows in Hin as (Hrow & Hge & _).
    pose proof (Forall_lookup_1 _ _ _ _ Hrect Hrow) as Hlen. cbn beta in Hlen.
    pose proof (indexOf_lt _ _ _ Hbcol) as Hblt.
    pose proof (indexOf_lt _ _ _ Hacol) as Halt.
    destruct (lookup_lt_is_Some_2 (rowData it) b) as [xb Hxb]; [lia|].
    destruct (lookup_lt_is_Some_2 (rowData it) a) as [xa Hxa]; [lia|].
    unfold F. rewrite !row_object_get by done. rewrite Hbcol, Hacol.
    cbn [at_index patched_item rowData rowIndex].
    rewrite !list_lookup_imap, Hxb, Hxa.
    cbn [fmap option_fmap option_map default].
    unfold patch, ws, recalculation_writes. rewrite Hbcol, Hacol.
    rewrite (balance_writes_before b a _ _ _ p it)
      by (done || apply employee_rows_NoDup).
    rewrite (balance_writes_after b a _ _ _ p it)
      by (done || apply employee_rows_NoDup).
    done. }
  rewrite Hhistory. cbv zeta.
  split; [rewrite <- Hhistory; apply getLoanHistory_perm|].
  split.
  { rewrite length_fmap. unfold employee_rows. rewrite length_js_sort.
    unfold transactions_of, getSheet. rewrite Hsh.
    by rewrite employee_transactions_items, length_fmap. }
  split.
  { rewrite <- Hhistory. apply getLoanHistory_sorted.
    rewrite <- getLoanHistory_perm, Hhistory.
    apply Forall_fmap, Forall_forall. intros it Hit. cbn.
    rewrite Htimes by done.
    apply elem_of_employee_rows in Hit as (Hrow & _ & Hid).
    apply (Hdated (rowData it)); [|done]. by eapply list_elem_of_lookup_2. }
  split; [intros t; apply (balance_chain_first _ _ _ Hchain)|].
  split; [intros i t; apply (balance_chain_step _ _ _ _ Hchain)|].
  intros i t t'. apply (balance_chain_next _ _ _ _ _ Hchain).
Qed.

End BalanceInvariant.

(** ** Record numbers *)

Section RecordNumberFacts.
Context `{Runtime}.

Lemma consecutive_above (r : Qc) (n : nat) :
  Forall (λ q, (r < q)%Qc) (consecutive r n).
Proof.
  revert r. induction n as [|n IH]; intros r; [constructor|].
  assert (r < r + 1)%Qc as Hlt.
  { rewrite <- (Qcplus_0_r r) at 1. by apply Qcplus_lt_mono_l. }
  cbn. constructor; [done|].
  eapply Forall_impl; [apply IH|]. intros q Hq. by etrans.
Qed.

(** Consecutive numbers increase strictly; in particular no two are the
    same. *)
Lemma consecutive_increasing (r : Qc) (n : nat) :
  StronglySorted Qclt (consecutive r n).
Proof.
  revert r. induction n as [|n IH]; intros r; cbn; constructor; [apply IH|].
  apply consecutive_above.
Qed.

Lemma number_to_follow_positive (v : value) (r : Qc) :
  number_to_follow v = Some r → (0 < r)%Qc.
Proof.
  destruct v as [| | |[|q]|s|]; try done; cbn.
  - repeat case_decide; intros [= <-]; [by_evaluation|done].
  - destruct s; [|done]. intros [= <-]. by_evaluation.
Qed.

(** The number that follows the first cell of the last row. *)
Lemma number_to_follow_next (v : value) (r : Qc) :
  number_to_follow v = Some r →
  js_add (js_or v (VNum (of_Z 7915))) (of_Z 1) = VNum (Num (r + 1)%Qc).
Proof.
  destruct v as [| | |[|q]|s|]; try done; cbn.
  - unfold js_or. cbn. case_decide as Hq.
    + intros [= <-]. subst q. by rewrite bool_decide_eq_false_2 by tauto.
    + case_decide; [|done]. intros [= <-].
      by rewrite bool_decide_eq_true_2 by done.
  - destruct s; [|done]. by intros [= <-].
Qed.

Lemma last_row_first_cell_append (row : list value) (sheet : Sheet) :
  header sheet ≠ [] →
  last_row_first_cell (append_row row sheet)
  = default blank (head (to_cell <$> row)).
Proof.
  intros Hheader. unfold last_row_first_cell, getLastRow, append_row.
  cbn [header body]. destruct (header sheet); [done|].
  rewrite length_app. cbn [length]. rewrite Nat.add_1_r.
  cbn [sheet_row body]. by rewrite list_lookup_middle.
Qed.

(** The row that is filed starts with the record number when that is the
    first column. *)
Lemma payslip_row_head (hs : list string) (f : string → value)
  (recordNumber timestamp user : value) :
  let headers := "RECORDNUMBER" :: hs in
  head (elements
          (array_set (indexOf "USER" headers) user
             (array_set (indexOf "TIMESTAMP" headers) timestamp
                (array_set (Some 0) recordNumber
                           (mkArray (f <$> headers) VUndef)))))
  = Some recordNumber
  ∧ array_get
      (array_set (indexOf "USER" headers) user
         (array_set (indexOf "TIMESTAMP" headers) timestamp
            (array_set (Some 0) recordNumber
                       (mkArray (f <$> headers) VUndef))))
      (Some 0)
    = recordNumber.
Proof.
  cbv zeta.
  assert (∀ k, k ≠ "RECORDNUMBER" →
            indexOf k ("RECORDNUMBER" :: hs) ≠ Some 0) as Hother.
  { intros k Hk Hk0. apply indexOf_Some in Hk0. by injection Hk0. }
  destruct (indexOf "TIMESTAMP" ("RECORDNUMBER" :: hs)) as [[|t]|] eqn:Ht;
    [by destruct (Hother "TIMESTAMP")| |];
    (destruct (indexOf "USER" ("RECORDNUMBER" :: hs)) as [[|u]|] eqn:Hu;
     [by destruct (Hother "USER")| |]); done.
Qed.

(** One creation: either it succeeds, the payslip gets the number that
    follows the first cell of the last row and is filed as the new last
    row, or it fails and the spreadsheet is as it was. *)
Lemma createPayslip_step (user : string) (now : number) (data : object)
  (ss : Spreadsheet) (sheet : Sheet) :
  ss !! "salary" = Some sheet →
  indexOf "RECORDNUMBER" (header sheet) = Some 0 →
  let next :=
    js_add (js_or (last_row_first_cell sheet) (VNum (of_Z 7915))) (of_Z 1) in
  match createPayslip user now data ss with
  | (Return (Success _ recordNumber), ss') =>
      recordNumber = next
      ∧ ∃ sheet', ss' !! "salary" = Some sheet'
          ∧ header sheet' = header sheet
          ∧ last_row_first_cell sheet' = to_cell next
  | (Return _, ss') => ss' = ss
  | (Throw _, _) => False
  end.
Proof.
  intros Hsheet Hcol. cbv zeta.
  unfold createPayslip, try_catch, mbind, script_bind, mret, script_ret,
    attempts, reads, appendRow, getSheet.
  destruct (negb (isValid (validatePayslip data))); [done|].
  destruct (calculatePayslip data ss) as [calculatedData|]; [|done].
  rewrite Hsheet. unfold header_row.
  destruct (header sheet) as [|h hs] eqn:Hheader; [done|].
  assert (h = "RECORDNUMBER") as ->.
  { apply indexOf_Some in Hcol. by injection Hcol. }
  rewrite Hcol.
  set (next := js_add _ _).
  set (f := λ header : string, js_or (js_or _ _) VNull).
  destruct (payslip_row_head hs f next (VDate now) (VStr user))
    as [Hhead Hget].
  cbv zeta in Hhead, Hget.
  split; [exact Hget|].
  eexists. split; [by rewrite lookup_alter_eq, Hsheet|].
  split; [done|].
  rewrite last_row_first_cell_append by by rewrite Hheader.
  destruct (elements _) as [|x row]; [done|].
  by injection Hhead as ->.
Qed.

Lemma consecutive_NoDup (r : Qc) (n : nat) : NoDup (consecutive r n).
Proof.
  revert r. induction n as [|n IH]; intros r; cbn; constructor; [|apply IH].
  intros Hin. pose proof (consecutive_above (r + 1) n) as Habove.
  rewrite Forall_forall in Habove. apply Habove in Hin.
  by apply Qclt_not_eq in Hin.
Qed.

Lemma number_to_follow_successor (r : Qc) :
  (0 < r)%Qc → number_to_follow (VNum (Num (r + 1)%Qc)) = Some (r + 1)%Qc.
Proof.
  intros Hr. assert (0 < r + 1)%Qc as Hpos.
  { etrans; [done|]. rewrite <- (Qcplus_0_r r) at 1.
    by apply Qcplus_lt_mono_l. }
  cbn. rewrite decide_False.
  - by rewrite decide_True.
  - intros Hz. rewrite Hz in Hpos. by apply Qclt_not_eq in Hpos.
Qed.

(** X26. On a salary sheet whose first column is RECORDNUMBER and whose
    last row starts with a positive whole number [r], or with an empty or
    zero cell, for which [r] is the floor 7915, payslips created one after
    the other all return, and those that succeed are numbered [r + 1],
    [r + 2], ... in the order of their creation: each number is one more
    than the first cell of the last row at that time, the numbers
    increase strictly, none is repeated and none is skipped.  The numbers
    stay at or below 2^53, the range in which the additions of the
    script, carried out on binary64 numbers, are exact. *)
Theorem payslip_numbers_follow_the_last_row
  (inputs : list (string * number * object)) (ss : Spreadsheet)
  (sheet : Sheet) (z : Z) :
  ss !! "salary" = Some sheet →
  indexOf "RECORDNUMBER" (header sheet) = Some 0 →
  number_to_follow (last_row_first_cell sheet) = Some (Q2Qc (inject_Z z)) →
  (z + Z.of_nat (length inputs) ≤ 2 ^ 53)%Z →
  ∃ (responses : list response) (ss' : Spreadsheet) (numbers : list Qc),
    create_payslips inputs ss = (Return responses, ss')
    ∧ length responses = length inputs
    ∧ recordNumbers responses = (λ q, VNum (Num q)) <$> numbers
    ∧ numbers = consecutive (Q2Qc (inject_Z z)) (length numbers)
    ∧ StronglySorted Qclt numbers
    ∧ NoDup numbers.
Proof.
  intros Hsheet Hcol Hr _. revert Hr.
  generalize (Q2Qc (inject_Z z)). intros r Hr.
  revert Hsheet Hcol Hr.
  revert ss sheet r.
  induction inputs as [|[[user now] data] inputs IH];
    intros ss sheet r Hsheet Hcol Hr.
  - exists [], ss, []. repeat split; constructor.
  - pose proof (createPayslip_step user now data ss sheet Hsheet Hcol) as Hstep.
    cbv zeta in Hstep. cbn [create_payslips].
    unfold mbind, script_bind, mret, script_ret.
    destruct (createPayslip user now data ss) as [[response|e] ss1];
      [|done].
    assert (∃ sheet1 r1 (first : list Qc),
              ss1 !! "salary" = Some sheet1
              ∧ indexOf "RECORDNUMBER" (header sheet1) = Some 0
              ∧ number_to_follow (last_row_first_cell sheet1) = Some r1
              ∧ recordNumbers [response] = (λ q, VNum (Num q)) <$> first
              ∧ ∀ n, (first ++ consecutive r1 n)%list
                     = consecutive r (length first + n))
      as (sheet1 & r1 & first & Hsheet1 & Hcol1 & Hr1 & Hfirst & Hnumbers).
    { pose proof (number_to_follow_positive _ _ Hr) as Hpos.
      destruct response as [errs|msg|msg recordNumber].
      - subst ss1. by exists sheet, r, [].
      - subst ss1. by exists sheet, r, [].
      - destruct Hstep as (-> & sheet1 & Hsheet1 & Hheader1 & Hlast1).
        rewrite (number_to_follow_next _ r) in Hlast1 |- * by done.
        exists sheet1, (r + 1)%Qc, [(r + 1)%Qc].
        rewrite Hheader1, Hlast1. cbn [to_cell].
        by rewrite number_to_follow_successor. }
    destruct (IH ss1 sheet1 r1 Hsheet1 Hcol1 Hr1)
      as (responses & ss' & numbers & -> & Hlen & Hrest & Hcons & _ & _).
    exists (response :: responses), ss', (first ++ numbers)%list.
    split; [done|]. split; [cbn; by rewrite Hlen|].
    split.
    { change (response :: responses) with ([response] ++ responses)%list.
      unfold recordNumbers in *. by rewrite omap_app, Hfirst, Hrest, fmap_app. }
    assert ((first ++ numbers)%list
            = consecutive r (length (first ++ numbers)%list)) as Hall.
    { rewrite length_app, <- Hnumbers. by rewrite <- Hcons. }
    split; [done|]. rewrite Hall.
    split; [apply consecutive_increasing|apply consecutive_NoDup].
Qed.

End RecordNumberFacts.


(** Two payslips after number 7915 are numbered 7916 and 7917. *)
Lemma payslip_numbers_witness :
  ∃ (responses : list response) (ss' : Spreadsheet),
    create_payslips (H := Reference.runtime)
      [("clerk@example.com", of_Z 1704463200000, Sample.week);
       ("clerk@example.com", of_Z 1705068000000, Sample.week_with_loans)]
      Sample.books
    = (Return responses, ss')
    ∧ recordNumbers responses = [VNum (of_Z 7916); VNum (of_Z 7917)].
Proof.
  destruct (payslip_numbers_follow_the_last_row (H := Reference.runtime)
              [("clerk@example.com", of_Z 1704463200000, Sample.week);
               ("clerk@example.com", of_Z 1705068000000,
                Sample.week_with_loans)]
              Sample.books
              (mkSheet Sample.salary_header
                 [[VNum (of_Z 7915); VStr "Lerato"; VStr "2023-12-29";
                   VNum (of_Z 40); blank; VNum (of_Z 3200);
                   VNum (of_Z 3200); blank; blank; VNum (of_Z 3200);
                   VDate (of_Z 1703859000000); VStr "clerk@example.com"]])
              7915%Z)
    as (responses & ss' & numbers & Hrun & _).
  - by_evaluation.
  - reflexivity.
  - by_evaluation.
  - by_evaluation.
  - exists responses, ss'. split; [exact Hrun|].
    assert (responses = match (create_payslips (H := Reference.runtime)
      [("clerk@example.com", of_Z 1704463200000, Sample.week);
       ("clerk@example.com", of_Z 1705068000000, Sample.week_with_loans)]
      Sample.books).1 with Return rs => rs | Throw _ => [] end) as ->
      by by rewrite Hrun.
    by_evaluation.
Defined.

(** C3. With payslips 7917 and 7916 on file, latest first, the next
    payslip is numbered 7917 again, a number that is already on file: one
    more than the first cell of the last row, not one more than the
    greatest number on file, which would be 7918. *)
Lemma payslip_number_repeats_after_sorting :
  let sheet :=
    default (mkSheet [] []) (Sample.sorted_books !! "salary") in
  numbers_on_file sheet = [Q2Qc (inject_Z 7917); Q2Qc (inject_Z 7916)]
  ∧ (createPayslip (H := Reference.runtime) "clerk@example.com"
                   (of_Z 1705672800000) Sample.week Sample.sorted_books).1
    = Return (Success "Payslip created successfully." (VNum (of_Z 7917)))
  ∧ max_existing_plus_one sheet = Q2Qc (inject_Z 7918)
  ∧ VNum (of_Z 7917) ≠ VNum (Num (max_existing_plus_one sheet))
  ∧ Q2Qc (inject_Z 7917) ∈ numbers_on_file sheet.
Proof. cbv zeta. repeat split; by_evaluation. Qed.

(** ** The sample ledger *)

Lemma ledger_sheet_intro (sheet : Sheet) :
  NoDup (header sheet) →
  "BalanceBefore" ∈ header sheet → "BalanceAfter" ∈ header sheet →
  Forall (λ row, length row = length (header sheet)) (body sheet) →
  ledger_sheet sheet.
Proof.
  intros Hnd Hb Ha Hrect. split; try done.
  apply Forall_forall. intros k _. by apply NoDup_column_unique.
Qed.

Lemma employee_rows_dated_intro `{Runtime} (employeeId : value)
  (sheet : Sheet) :
  Forall (λ row,
            strict_eq (at_index row (indexOf "Employee ID" (header sheet)))
                      employeeId = true →
            is_Some (times (at_index row (indexOf "TransactionDate"
                                                  (header sheet)))
                           (at_index row (indexOf "Timestamp"
                                                  (header sheet)))))
         (body sheet) →
  employee_rows_dated employeeId sheet.
Proof. intros Hall row Hrow. by apply (proj1 (Forall_forall _ _) Hall). Qed.

(** After the recomputation Thabo's loan of 500, dated 1 January, opens
    his history at 0 and the loan of 1000 follows from 500 to 1500. *)
Lemma balance_invariant_witness :
  ∃ ss' : Spreadsheet,
    recalculateLoanBalances (H := Reference.runtime) (VStr "100001")
                            Sample.ledger
    = (Return (), ss')
    ∧ (λ t, (get t "LoanID", get t "BalanceBefore", get t "BalanceAfter"))
        <$> getLoanHistory (H := Reference.runtime) (VStr "100001") ss'
      = [(VStr "700003", VNum (of_Z 0), VNum (of_Z 500));
         (VStr "700001", VNum (of_Z 500), VNum (of_Z 1500))].
Proof.
  destruct (recalculation_restores_balance_invariant
              (H := Reference.runtime) (VStr "100001") Sample.ledger
              (default (mkSheet [] []) (Sample.ledger !! "loans")))
    as (ss' & Hrun & _).
  - reflexivity.
  - apply ledger_sheet_intro; by_evaluation.
  - apply employee_rows_dated_intro. by_evaluation.
  - exists ss'. split; [exact Hrun|].
    assert (ss' = (recalculateLoanBalances (H := Reference.runtime)
                     (VStr "100001") Sample.ledger).2) as ->
      by by rewrite Hrun.
    by_evaluation.
Defined.

(** ** Two more runs of the scripts *)

(** On a salary sheet that holds its header row only, the first cell of
    the last row is the header text, which is not replaced by 7915. *)
Example first_payslip_of_a_new_sheet :
  (createPayslip (H := Reference.runtime) "clerk@example.com"
                 (of_Z 1704463200000) Sample.week Sample.fresh).1
  = Return (Success "Payslip created successfully." (VStr "RECORDNUMBER1")).
Proof. by_evaluation. Qed.

(** The employee sheet names its identifier column ID, as [addEmployee]
    fills it, while [addLoanTransaction] reads [employee.id]: the loan is
    filed with an empty employee and with the balances 0 and 250, and the
    history of employee 100001 does not list it. *)
Example loan_of_an_employee_without_id :
  let form : object :=
    {[ "Employee Name" := VStr "Thabo"; "LoanType" := VStr "Disbursement";
       "LoanAmount" := VNum (of_Z 250);
       "TransactionDate" := VDate (of_Z 1704240000000) ]} in
  let filed :=
    addLoanTransaction (H := Reference.runtime) "700004"
                       (of_Z 1704300000000) form Sample.ledger in
  filed.1 = Return (Success "Loan transaction added successfully." VUndef)
  ∧ (filed.2 !! "loans" ≫= λ sheet, body sheet !! 3)
    = Some [VStr "700004"; blank; VDate (of_Z 1704300000000);
            VDate (of_Z 1704240000000); VStr "Disbursement";
            VNum (of_Z 250); VNum (of_Z 0); VNum (of_Z 250)]
  ∧ length (getLoanHistory (H := Reference.runtime) (VStr "100001") filed.2)
    = 2.
Proof. cbv zeta. repeat split; by_evaluation. Qed.
(** * Further properties of the scripts *)

(** ** Filing a payslip *)

Section PayslipRuns.
Context `{Runtime}.

(** [createPayslip] step by step. *)
Lemma createPayslip_run (user : string) (now : number) (data : object)
  (ss : Spreadsheet) :
  createPayslip user now data ss
  = if negb (isValid (validatePayslip data))
    then (Return (Invalid (errors (validatePayslip data))), ss)
    else
      match calculatePayslip data ss with
      | Throw _ =>
          (Return (Failure "An error occurred while creating the payslip."),
           ss)
      | Return calculatedData =>
          match ss !! "salary" with
          | None =>
              (Return (Failure
                 "Salary sheet not found. Please check sheet configuration."),
               ss)
          | Some sheet =>
              match header sheet with
              | [] =>
                  (Return (Failure
                     "An error occurred while creating the payslip."), ss)
              | _ =>
                  let newRow :=
                    payslip_array calculatedData data (header sheet)
                      (js_or (last_row_first_cell sheet) (VNum (of_Z 7915)))
                      user now in
                  (Return (Success "Payslip created successfully."
                             (array_get newRow
                                (indexOf "RECORDNUMBER" (header sheet)))),
                   <["salary" := append_row (elements newRow) sheet]> ss)
              end
          end
      end.
Proof.
  unfold createPayslip, try_catch, mbind, script_bind, mret, script_ret,
    attempts, reads, appendRow, getSheet, header_row.
  destruct (negb (isValid (validatePayslip data))); [done|].
  destruct (calculatePayslip data ss) as [calculatedData|e]; [|done].
  destruct (ss !! "salary") as [sheet|] eqn:Hsheet; [|done].
  destruct (header sheet) as [|h hs] eqn:Hheader; [done|].
  cbv zeta. f_equal.
  apply map_eq. intros name. destruct (decide (name = "salary")) as [->|Hn].
  - by rewrite lookup_alter_eq, lookup_insert_eq, Hsheet.
  - by rewrite lookup_alter_ne, lookup_insert_ne.
Qed.

Lemma length_array_set (i : option nat) (v : value) (a : array) :
  length (elements (array_set i v a)) = length (elements a).
Proof. destruct i; cbn; [by rewrite length_insert|done]. Qed.

Lemma length_payslip_array (calculatedData data : object)
  (headers : list string) (lastRecordNumber : value) (user : string)
  (now : number) :
  length (elements (payslip_array calculatedData data headers
                                  lastRecordNumber user now))
  = length headers.
Proof.
  unfold payslip_array. rewrite !length_array_set. cbn.
  by rewrite length_fmap.
Qed.

End PayslipRuns.

Section PayslipRows.
Context `{Runtime}.

Lemma array_set_lookup (i : option nat) (v : value) (a : array) (j : nat) :
  j < length (elements a) →
  elements (array_set i v a) !! j
  = if decide (i = Some j) then Some v else elements a !! j.
Proof.
  intros Hj. destruct i as [i|]; cbn.
  - case_decide as Hi.
    + injection Hi as ->. by rewrite list_lookup_insert_eq.
    + rewrite list_lookup_insert_ne; [done|congruence].
  - by rewrite decide_False.
Qed.

(** The cell of a new payslip under each header. *)
Lemma payslip_array_lookup (calculatedData data : object)
  (headers : list string) (lastRecordNumber : value) (user : string)
  (now : number) (j : nat) (h : string) :
  headers !! j = Some h →
  elements (payslip_array calculatedData data headers lastRecordNumber
                          user now) !! j
  = Some (if decide (indexOf "USER" headers = Some j) then VStr user
          else if decide (indexOf "TIMESTAMP" headers = Some j)
          then VDate now
          else if decide (indexOf "RECORDNUMBER" headers = Some j)
          then js_add lastRecordNumber (of_Z 1)
          else js_or (js_or (get calculatedData h) (get data h)) VNull).
Proof.
  intros Hj. pose proof (lookup_lt_Some _ _ _ Hj) as Hlt.
  unfold payslip_array.
  rewrite !array_set_lookup
    by (rewrite ?length_array_set; cbn; by rewrite length_fmap).
  cbn [elements]. rewrite list_lookup_fmap, Hj. cbn.
  by repeat case_decide.
Qed.

(** What [createPayslip] answers as the record number when the sheet has
    a RECORDNUMBER column. *)
Lemma payslip_array_recordNumber (calculatedData data : object)
  (headers : list string) (lastRecordNumber : value) (user : string)
  (now : number) :
  "RECORDNUMBER" ∈ headers →
  array_get (payslip_array calculatedData data headers lastRecordNumber
                           user now)
            (indexOf "RECORDNUMBER" headers)
  = js_add lastRecordNumber (of_Z 1).
Proof.
  intros [j Hj]%indexOf_elem_of. rewrite Hj. cbn [array_get].
  rewrite (payslip_array_lookup _ _ _ _ _ _ j "RECORDNUMBER")
    by by apply indexOf_Some.
  cbn.
  rewrite decide_False
    by (intros Hk; by pose proof (indexOf_inj _ _ _ _ Hk Hj)).
  rewrite decide_False
    by (intros Hk; by pose proof (indexOf_inj _ _ _ _ Hk Hj)).
  by rewrite decide_True.
Qed.

End PayslipRows.

Section PayslipFiling.
Context `{Runtime}.

(** X1. [createPayslip] never throws.  Unless it answers with a success
    it leaves the spreadsheet exactly as it was; when it does, the salary
    sheet has gained one row, as wide as its header, and nothing else has
    changed. *)
Theorem createPayslip_files_one_row_or_nothing (user : string)
  (now : number) (data : object) (ss : Spreadsheet) :
  let filed := createPayslip user now data ss in
  match filed.1 with
  | Return (Success _ _) =>
      ∃ sheet row,
        ss !! "salary" = Some sheet
        ∧ length row = length (header sheet)
        ∧ filed.2
          = <["salary" := mkSheet (header sheet) (body sheet ++ [row])]> ss
  | Return _ => filed.2 = ss
  | Throw _ => False
  end.
Proof.
  cbv zeta. rewrite createPayslip_run.
  destruct (negb (isValid (validatePayslip data))); [done|].
  destruct (calculatePayslip data ss) as [calculatedData|e]; [|done].
  destruct (ss !! "salary") as [sheet|] eqn:Hsheet; [|done].
  destruct (header sheet) as [|h hs] eqn:Hheader; [done|].
  cbv zeta. cbn [fst snd]. eexists sheet, _. split; [done|].
  split; [|unfold append_row; by rewrite Hheader].
  by rewrite length_fmap, length_payslip_array, Hheader.
Qed.

Lemma calculatePayslip_derived (data : object) (ss : Spreadsheet)
  (calculatedData : object) (h : string) :
  calculatePayslip data ss = Return calculatedData →
  h ∈ derived_fields →
  ∃ n, get calculatedData h = VNum n.
Proof.
  unfold calculatePayslip.
  destruct (getEmployeeByName _ ss) as [[employee|]|e]; try done.
  intros [= <-] Hh. unfold derived_fields in Hh.
  repeat (apply elem_of_cons in Hh as [->|Hh];
          [rewrite !get_insert; cbn; by eexists|]).
  by apply elem_of_nil in Hh.
Qed.

(** What a successful [createPayslip] did. *)
Lemma createPayslip_success (user : string) (now : number) (data : object)
  (ss ss' : Spreadsheet) (message : string) (recordNumber : value) :
  createPayslip user now data ss
  = (Return (Success message recordNumber), ss') →
  ∃ calculatedData sheet,
    isValid (validatePayslip data) = true
    ∧ calculatePayslip data ss = Return calculatedData
    ∧ ss !! "salary" = Some sheet
    ∧ header sheet ≠ []
    ∧ let newRow :=
        payslip_array calculatedData data (header sheet)
          (js_or (last_row_first_cell sheet) (VNum (of_Z 7915))) user now in
      message = "Payslip created successfully."
      ∧ recordNumber
        = array_get newRow (indexOf "RECORDNUMBER" (header sheet))
      ∧ ss' = <["salary" := append_row (elements newRow) sheet]> ss.
Proof.
  rewrite createPayslip_run.
  destruct (isValid (validatePayslip data)); [|done]. cbn [negb].
  destruct (calculatePayslip data ss) as [calculatedData|e]; [|done].
  destruct (ss !! "salary") as [sheet|] eqn:Hsheet; [|done].
  destruct (header sheet) as [|h hs] eqn:Hheader; [done|].
  cbv zeta. intros [= <- <- <-]. exists calculatedData, sheet.
  rewrite Hheader. by repeat split.
Qed.

(** And when it succeeds. *)
Lemma createPayslip_succeeds (user : string) (now : number) (data : object)
  (ss : Spreadsheet) (calculatedData : object) (sheet : Sheet) :
  isValid (validatePayslip data) = true →
  calculatePayslip data ss = Return calculatedData →
  ss !! "salary" = Some sheet →
  header sheet ≠ [] →
  let newRow :=
    payslip_array calculatedData data (header sheet)
      (js_or (last_row_first_cell sheet) (VNum (of_Z 7915))) user now in
  createPayslip user now data ss
  = (Return (Success "Payslip created successfully."
               (array_get newRow (indexOf "RECORDNUMBER" (header sheet)))),
     <["salary" := append_row (elements newRow) sheet]> ss).
Proof.
  intros Hvalid Hcalc Hsheet Hheader. rewrite createPayslip_run.
  rewrite Hvalid, Hcalc, Hsheet. cbn [negb].
  by destruct (header sheet).
Qed.

(** X2. In the row that [createPayslip] files, the cell under a derived
    field holds the computed value when that is a number other than zero;
    when the computed value is zero or not a number, the cell holds what
    the caller's data gives for that field, or nothing. *)
Theorem zero_derived_field_yields_to_the_input (user : string)
  (now : number) (data : object) (ss ss' : Spreadsheet) (message : string)
  (recordNumber : value) (sheet : Sheet) (h : string) (j : nat) :
  ss !! "salary" = Some sheet →
  createPayslip user now data ss
  = (Return (Success message recordNumber), ss') →
  h ∈ derived_fields →
  header sheet !! j = Some h →
  ∃ calculatedData n sheet' row,
    calculatePayslip data ss = Return calculatedData
    ∧ get calculatedData h = VNum n
    ∧ ss' !! "salary" = Some sheet'
    ∧ last (body sheet') = Some row
    ∧ row !! j
      = Some (if Number.truthy n then VNum n
              else to_cell (js_or (get data h) VNull)).
Proof.
  intros Hsheet Hfiled Hh Hj.
  apply createPayslip_success in Hfiled
    as (calculatedData & sheet0 & _ & Hcalc & Hsheet0 & _ & _ & _ & ->).
  rewrite Hsheet in Hsheet0. injection Hsheet0 as <-.
  destruct (calculatePayslip_derived _ _ _ _ Hcalc Hh) as [n Hn].
  eexists calculatedData, n, _, _. split; [done|]. split; [done|].
  split; [apply lookup_insert_eq|].
  unfold append_row. cbn [body]. split; [apply last_snoc|].
  rewrite list_lookup_fmap, (payslip_array_lookup _ _ _ _ _ _ j h) by done.
  assert (∀ k, k ∉ derived_fields → indexOf k (header sheet) ≠ Some j)
    as Hother.
  { intros k Hk Hkj. apply indexOf_Some in Hkj. congruence. }
  rewrite !decide_False
    by (apply Hother; unfold derived_fields;
        rewrite !not_elem_of_cons; repeat split; (done || apply not_elem_of_nil)).
  cbn. rewrite Hn. unfold js_or at 2. cbn [truthy].
  destruct (Number.truthy n) eqn:Hn0.
  - unfold js_or. cbn [truthy]. by rewrite Hn0.
  - done.
Qed.

End PayslipFiling.

(** ** Reading payslips back *)

Section PayslipLookup.
Context `{Runtime}.

Lemma find_row_loose_app (col : option nat) (key : value)
  (rows : list (list value)) (row : list value) :
  Forall (λ row, loose_eq (at_index row col) key = false) rows →
  find_row_loose col key (rows ++ [row])
  = if loose_eq (at_index row col) key then Some row else None.
Proof.
  induction 1 as [|r rows Hr _ IH]; [done|]. cbn. by rewrite Hr.
Qed.

(** A value other than [NaN] that a cell holds as it is equals itself. *)
Lemma loose_eq_refl (v : value) :
  v ≠ VNum NaN → (∀ t, v ≠ VDate t) →
  loose_eq v v = true.
Proof.
  destruct v as [| |b|[|q]|s|t]; intros Hnan Hdate; cbn; try done.
  - by apply bool_decide_eq_true.
  - by apply bool_decide_eq_true.
  - by apply bool_decide_eq_true.
  - by destruct (Hdate t).
Qed.

Lemma js_add_cell (v : value) (n : number) : to_cell (js_add v n) = js_add v n.
Proof. by destruct v. Qed.

Lemma js_add_not_date (v : value) (n : number) (t : number) :
  js_add v n ≠ VDate t.
Proof. by destruct v. Qed.

(** X3. A payslip that was just created is read back by its record
    number: when the salary sheet has a RECORDNUMBER column and no
    payslip already on file carries the number that [createPayslip]
    returned, [getPayslip] of that number is the row that was filed, and
    its record number cell holds that number. *)
Theorem getPayslip_returns_the_new_payslip (user : string) (now : number)
  (data : object) (ss ss' : Spreadsheet) (message : string)
  (recordNumber : value) (sheet : Sheet) :
  ss !! "salary" = Some sheet →
  "RECORDNUMBER" ∈ header sheet →
  createPayslip user now data ss
  = (Return (Success message recordNumber), ss') →
  recordNumber ≠ VNum NaN →
  Forall (λ row,
            loose_eq (at_index row (indexOf "RECORDNUMBER" (header sheet)))
                     recordNumber = false)
         (body sheet) →
  ∃ sheet' row,
    ss' !! "salary" = Some sheet'
    ∧ last (body sheet') = Some row
    ∧ at_index row (indexOf "RECORDNUMBER" (header sheet)) = recordNumber
    ∧ getPayslip recordNumber ss' = Some (row_object (header sheet) row).
Proof.
  intros Hsheet Hcol Hfiled Hnan Hfresh.
  apply createPayslip_success in Hfiled
    as (calculatedData & sheet0 & _ & Hcalc & Hsheet0 & _ & _ & Hnumber & ->).
  rewrite Hsheet in Hsheet0. injection Hsheet0 as <-.
  rewrite payslip_array_recordNumber in Hnumber by done.
  set (newRow := payslip_array _ _ _ _ _ _) in *.
  assert (at_index (to_cell <$> elements newRow)
                   (indexOf "RECORDNUMBER" (header sheet)) = recordNumber)
    as Hcell.
  { destruct (indexOf_elem_of _ _ Hcol) as [j Hj]. rewrite Hj. cbn.
    rewrite list_lookup_fmap. unfold newRow.
    rewrite (payslip_array_lookup _ _ _ _ _ _ j "RECORDNUMBER")
      by by apply indexOf_Some.
    rewrite !decide_False
      by (intros Hk; by pose proof (indexOf_inj _ _ _ _ Hk Hj)).
    rewrite decide_True by done. cbn. by rewrite js_add_cell, Hnumber. }
  eexists _, _. split; [apply lookup_insert_eq|].
  unfold append_row. cbn [body]. split; [apply last_snoc|].
  split; [done|].
  unfold getPayslip, getSheet. rewrite lookup_insert_eq. cbn [header body].
  destruct (indexOf_elem_of _ _ Hcol) as [j Hj]. rewrite Hj in *.
  rewrite find_row_loose_app by done. rewrite Hcell.
  rewrite loose_eq_refl; [done|done|].
  intros t. rewrite Hnumber. apply js_add_not_date.
Qed.

End PayslipLookup.

Section PayslipListing.
Context `{Runtime} `{Utilities}.

Lemma filter_payslips_all (filters : object) (records : list object) :
  truthy (get filters "weekEnding") = false →
  filter_payslips filters records = Return records.
Proof.
  intros Hno. induction records as [|rec records IH]; [done|].
  cbn [filter_payslips]. rewrite Hno, IH. done.
Qed.

Lemma Date_getTime_new (v : value) : Date_getTime (Date_new v) = Date_getTime v.
Proof. done. Qed.

(** X4. Without a week to select, [listPayslips] returns every payslip
    of the salary sheet once; and when every record number is a number,
    they come latest first: no payslip is followed by one with a greater
    record number. *)
Theorem listPayslips_lists_all_latest_first (filters : object)
  (ss : Spreadsheet) (sheet : Sheet) :
  ss !! "salary" = Some sheet →
  truthy (get filters "weekEnding") = false →
  ∃ payslips,
    listPayslips filters ss = Return payslips
    ∧ payslips ≡ₚ row_object (header sheet) <$> body sheet
    ∧ (Forall (λ p, ToNumber (get p "RECORDNUMBER") ≠ NaN) payslips →
       StronglySorted
         (λ a b, Number.leb (ToNumber (get b "RECORDNUMBER"))
                            (ToNumber (get a "RECORDNUMBER")) = true)
         payslips).
Proof.
  intros Hsheet Hno. unfold listPayslips, getSheet. rewrite Hsheet.
  rewrite filter_payslips_all by done. eexists. split; [done|].
  split; [apply js_sort_perm|]. intros Hnum.
  apply (js_sort_sorted _ (λ p, ToNumber (get p "RECORDNUMBER") ≠ NaN)).
  - intros x y z _ _ _.
    destruct (ToNumber (get x "RECORDNUMBER")) as [|nx],
             (ToNumber (get y "RECORDNUMBER")) as [|ny],
             (ToNumber (get z "RECORDNUMBER")) as [|nz]; cbn; try done.
    rewrite !bool_decide_eq_true. intros Hyx Hzy. by etrans.
  - intros x y Hx Hy.
    destruct (ToNumber (get x "RECORDNUMBER")) as [|nx]; [done|].
    destruct (ToNumber (get y "RECORDNUMBER")) as [|ny]; [done|].
    cbn. change (Q2Qc 0) with 0%Qc. case_bool_decide as Hlt.
    + apply bool_decide_eq_true. apply Qclt_le_weak.
      by apply Qclt_minus_iff.
    + apply bool_decide_eq_true. apply Qcnot_lt_le. intros Hxy.
      apply Hlt. by apply Qclt_minus_iff in Hxy.
  - by rewrite js_sort_perm in Hnum.
Qed.

End PayslipListing.

Section PayslipWeeks.
Context `{Runtime} `{Utilities}.

Lemma strict_eq_text (v : value) (s : string) :
  strict_eq v (VStr s) = true → v = VStr s.
Proof.
  destruct v; cbn; try done. by intros ->%bool_decide_eq_true.
Qed.

Lemma formatDate_new (v : value) :
  formatDate (Date_new v)
  = Utilities_formatDate (Date_getTime v) ≫= λ s, Return (VStr s).
Proof. done. Qed.

Lemma filter_payslips_week (filters : object) (records kept : list object) :
  truthy (get filters "weekEnding") = true →
  filter_payslips filters records = Return kept →
  Forall (λ p,
            p ∈ records
            ∧ ∃ week,
                formatDate (get p "WEEKENDING") = Return (VStr week)
                ∧ Utilities_formatDate
                    (Date_getTime (get filters "weekEnding"))
                  = Return week)
         kept.
Proof.
  intros Hweek. revert kept.
  induction records as [|rec records IH]; intros kept.
  - intros [= <-]. constructor.
  - cbn [filter_payslips]. rewrite Hweek, formatDate_new.
    destruct (formatDate (get rec "WEEKENDING")) as [week|e] eqn:Hrec;
      [|done].
    destruct (Utilities_formatDate _) as [wanted|e] eqn:Hwanted; [|done].
    cbn. destruct (filter_payslips filters records) as [kept'|e]; [|done].
    specialize (IH kept' eq_refl).
    assert (Forall (λ p,
              p ∈ rec :: records
              ∧ ∃ week,
                  formatDate (get p "WEEKENDING") = Return (VStr week)
                  ∧ Return wanted = Return week) kept') as IH'.
    { eapply Forall_impl; [exact IH|]. intros p [Hp Hw]. split; [|done].
      by apply list_elem_of_further. }
    cbn. destruct (strict_eq week (VStr wanted)) eqn:Heq; intros [= <-];
      [|done].
    constructor; [|done]. split; [apply list_elem_of_here|].
    apply strict_eq_text in Heq as ->. by exists wanted.
Qed.

(** X5. With a week to select, every payslip that [listPayslips] returns
    is a payslip of the salary sheet whose week-ending date is formatted
    to the same day as the week asked for; a payslip without a
    week-ending date is not among them. *)
Theorem listPayslips_selects_the_week (filters : object) (ss : Spreadsheet)
  (sheet : Sheet) (payslips : list object) :
  ss !! "salary" = Some sheet →
  truthy (get filters "weekEnding") = true →
  listPayslips filters ss = Return payslips →
  Forall (λ p,
            p ∈ row_object (header sheet) <$> body sheet
            ∧ truthy (get p "WEEKENDING") = true
            ∧ ∃ week,
                formatDate (get p "WEEKENDING") = Return (VStr week)
                ∧ Utilities_formatDate
                    (Date_getTime (get filters "weekEnding"))
                  = Return week)
         payslips.
Proof.
  intros Hsheet Hweek. unfold listPayslips, getSheet. rewrite Hsheet.
  destruct (filter_payslips filters _) as [kept|e] eqn:Hkept; [|done].
  cbn. intros [= <-]. rewrite js_sort_perm.
  eapply Forall_impl; [by eapply filter_payslips_week|].
  intros p (Hp & week & Hformat & Hwanted). split; [done|].
  split; [|by exists week].
  unfold formatDate in Hformat.
  by destruct (truthy (get p "WEEKENDING")).
Qed.

End PayslipWeeks.

(** ** The approval of timesheets *)

Section TimesheetRuns.
Context `{Runtime}.

Lemma alter_sheet (f : Sheet → Sheet) (name : string) (ss : Spreadsheet)
  (sh : Sheet) :
  ss !! name = Some sh → alter f name ss = <[name := f sh]> ss.
Proof.
  intros Hsh. apply map_eq. intros k. destruct (decide (k = name)) as [->|Hk].
  - by rewrite lookup_alter_eq, lookup_insert_eq, Hsh.
  - by rewrite lookup_alter_ne, lookup_insert_ne.
Qed.

Lemma stage_records_run (headers : list string) (uuid : nat → string)
  (now : nat → number) (i : nat) (data : list object) (addedCount : nat)
  (ss : Spreadsheet) (sh : Sheet) :
  ss !! "PendingTimesheets" = Some sh →
  let rows := staged_rows headers uuid now i data in
  stage_records headers uuid now i data addedCount ss
  = (Return (addedCount + length rows),
     <["PendingTimesheets" := mkSheet (header sh) (body sh ++ rows)]> ss).
Proof.
  cbv zeta. revert i addedCount ss sh.
  induction data as [|record rest IH]; intros i addedCount ss sh Hsh.
  - cbn. rewrite Nat.add_0_r, app_nil_r. f_equal.
    rewrite insert_id; [done|]. rewrite Hsh. by destruct sh.
  - cbn [stage_records staged_rows].
    destruct (negb (isValid (validateTimesheet record))); [by apply IH|].
    unfold mbind, script_bind, appendRow.
    rewrite (alter_sheet _ _ _ _ Hsh).
    rewrite (IH _ _ _ (append_row _ sh)) by apply lookup_insert_eq.
    cbn [length header body append_row]. f_equal; [f_equal; lia|].
    rewrite insert_insert_eq. by rewrite <- app_assoc.
Qed.

Lemma stagePendingTimesheets_run (uuid : nat → string) (now : nat → number)
  (data : list object) (ss : Spreadsheet) :
  stagePendingTimesheets uuid now data ss
  = match ss !! "PendingTimesheets" with
    | None =>
        (Return (Failure
           "PendingTimesheets sheet not found. Please check sheet configuration."),
         ss)
    | Some sheet =>
        match header sheet with
        | [] =>
            (Return (Failure
               ("Error staging timesheets: "
                ++ "The number of columns in the range must be at least 1.")),
             ss)
        | _ =>
            let rows := staged_rows (header sheet) uuid now 0 data in
            (Return (Success
                       (Number_toString (of_Z (Z.of_nat (length rows)))
                        ++ " timesheet record(s) staged for approval")
                       VUndef),
             <["PendingTimesheets" :=
                 mkSheet (header sheet) (body sheet ++ rows)]> ss)
        end
    end.
Proof.
  unfold stagePendingTimesheets, try_catch, mbind, script_bind, mret,
    script_ret, attempts, reads, getSheet, header_row.
  destruct (ss !! "PendingTimesheets") as [sheet|] eqn:Hsheet; [|done].
  destruct (header sheet) as [|h hs] eqn:Hheader; [done|].
  rewrite (stage_records_run _ _ _ _ _ _ _ _ Hsheet). cbv zeta.
  by rewrite Hheader.
Qed.

Lemma approveTimesheet_run (user : string) (now : number) (recordId : value)
  (ss : Spreadsheet) :
  approveTimesheet user now recordId ss
  = match ss !! "PendingTimesheets" with
    | None => (Return (Failure "PendingTimesheets sheet not found"), ss)
    | Some sheet =>
        match find_index (indexOf "RecordID" (header sheet)) recordId
                         (body sheet) 0 with
        | None => (Return (Failure "Timesheet record not found"), ss)
        | Some (i, row) =>
            let filed :=
              createPayslip user now (row_object (header sheet) row) ss in
            match filed.1 with
            | Return (Success _ recordNumber) =>
                match indexOf "Status" (header sheet) with
                | None =>
                    (Return (Failure
                       ("Error approving timesheet: "
                        ++ "The starting column of the range is too small.")),
                     filed.2)
                | Some c =>
                    (Return (Success "Timesheet approved and payslip created"
                                     recordNumber),
                     alter (set_cell (i + 2) c (VStr "Approved"))
                           "PendingTimesheets" filed.2)
                end
            | Return result => (Return result, filed.2)
            | Throw e =>
                (Return (Failure ("Error approving timesheet: " ++ e)),
                 filed.2)
            end
        end
    end.
Proof.
  unfold approveTimesheet, try_catch, mbind, script_bind, mret, script_ret,
    reads, getSheet.
  destruct (ss !! "PendingTimesheets") as [sheet|]; [|done].
  destruct (find_index _ recordId (body sheet) 0) as [[i row]|]; [|done].
  cbv zeta.
  destruct (createPayslip user now _ ss) as [[[errs|msg|msg rn]|e] ss'];
    try done.
  cbn [fst snd]. unfold setValue.
  by destruct (indexOf "Status" (header sheet)).
Qed.

Lemma rejectTimesheet_run (recordId : value) (ss : Spreadsheet) :
  rejectTimesheet recordId ss
  = match ss !! "PendingTimesheets" with
    | None => (Return (Failure "PendingTimesheets sheet not found"), ss)
    | Some sheet =>
        match find_index (indexOf "RecordID" (header sheet)) recordId
                         (body sheet) 0 with
        | None => (Return (Failure "Timesheet record not found"), ss)
        | Some (i, row) =>
            match indexOf "Status" (header sheet) with
            | None =>
                (Return (Failure
                   ("Error rejecting timesheet: "
                    ++ "The starting column of the range is too small.")),
                 ss)
            | Some c =>
                (Return (Success "Timesheet rejected" VUndef),
                 alter (set_cell (i + 2) c (VStr "Rejected"))
                       "PendingTimesheets" ss)
            end
        end
    end.
Proof.
  unfold rejectTimesheet, try_catch, mbind, script_bind, mret, script_ret,
    reads, getSheet.
  destruct (ss !! "PendingTimesheets") as [sheet|]; [|done].
  destruct (find_index _ recordId (body sheet) 0) as [[i row]|]; [|done].
  unfold setValue. by destruct (indexOf "Status" (header sheet)).
Qed.

Lemma find_index_None (col : option nat) (key : value)
  (data : list (list value)) (i : nat) :
  find_index col key data i = None
  ↔ Forall (λ row, strict_eq (at_index row col) key = false) data.
Proof.
  revert i. induction data as [|row data IH]; intros i; cbn.
  - split; [constructor|done].
  - destruct (strict_eq (at_index row col) key) eqn:Hrow.
    + split; [done|]. intros Hall. apply Forall_cons in Hall as [? _].
      congruence.
    + rewrite IH. split; [by constructor|].
      by intros [_ ?]%Forall_cons.
Qed.

(** The row found is the first one with the key. *)
Lemma find_index_Some (col : option nat) (key : value)
  (data : list (list value)) (i0 i : nat) (row : list value) :
  find_index col key data i0 = Some (i, row)
  ↔ ∃ p, i = i0 + p
      ∧ data !! p = Some row
      ∧ strict_eq (at_index row col) key = true
      ∧ Forall (λ row, strict_eq (at_index row col) key = false)
               (take p data).
Proof.
  revert i0. induction data as [|r data IH]; intros i0; cbn.
  - split; [done|]. by intros (p & _ & Hp & _).
  - destruct (strict_eq (at_index r col) key) eqn:Hr.
    + split.
      * intros [= <- <-]. exists 0. rewrite Nat.add_0_r.
        by repeat split.
      * intros (p & -> & Hp & Hrow & Hbefore). destruct p as [|p].
        -- injection Hp as ->. by rewrite Nat.add_0_r.
        -- cbn in Hbefore. apply Forall_cons in Hbefore as [? _].
           congruence.
    + rewrite IH. split.
      * intros (p & -> & Hp & Hrow & Hbefore). exists (S p).
        split; [lia|]. split; [done|]. split; [done|].
        cbn. by constructor.
      * intros (p & -> & Hp & Hrow & Hbefore). destruct p as [|p].
        -- injection Hp as ->. congruence.
        -- exists p. split; [lia|]. split; [done|]. split; [done|].
           cbn in Hbefore. by apply Forall_cons in Hbefore as [_ ?].
Qed.

End TimesheetRuns.

Section Approval.
Context `{Runtime}.

Lemma createPayslip_unchanged (user : string) (now : number) (data : object)
  (ss : Spreadsheet) :
  (∀ m v, (createPayslip user now data ss).1 ≠ Return (Success m v)) →
  (createPayslip user now data ss).2 = ss.
Proof.
  rewrite createPayslip_run.
  destruct (negb (isValid (validatePayslip data))); [done|].
  destruct (calculatePayslip data ss) as [calculatedData|e]; [|done].
  destruct (ss !! "salary") as [sheet|] eqn:Hsheet; [|done].
  destruct (header sheet) as [|h hs] eqn:Hheader; [done|].
  cbv zeta. cbn [fst snd]. intros Hno. by edestruct Hno.
Qed.

Lemma createPayslip_returns (user : string) (now : number) (data : object)
  (ss : Spreadsheet) :
  ∃ result, (createPayslip user now data ss).1 = Return result.
Proof.
  rewrite createPayslip_run.
  destruct (negb (isValid (validatePayslip data))); [by eexists|].
  destruct (calculatePayslip data ss) as [calculatedData|e]; [|by eexists].
  destruct (ss !! "salary") as [sheet|] eqn:Hsheet; [|by eexists].
  destruct (header sheet) as [|h hs] eqn:Hheader; by eexists.
Qed.

(** X6. A record id that no row of the PendingTimesheets sheet carries is
    answered by [approveTimesheet] and by [rejectTimesheet] with
    'Timesheet record not found', and nothing is written. *)
Theorem unknown_timesheet_is_reported (user : string) (now : number)
  (recordId : value) (ss : Spreadsheet) (sheet : Sheet) :
  ss !! "PendingTimesheets" = Some sheet →
  Forall (λ row,
            strict_eq (at_index row (indexOf "RecordID" (header sheet)))
                      recordId = false)
         (body sheet) →
  approveTimesheet user now recordId ss
  = (Return (Failure "Timesheet record not found"), ss)
  ∧ rejectTimesheet recordId ss
    = (Return (Failure "Timesheet record not found"), ss).
Proof.
  intros Hsheet Hnone%(find_index_None _ _ _ 0).
  rewrite approveTimesheet_run, rejectTimesheet_run, Hsheet, Hnone. done.
Qed.

(** X7. When the payslip of a timesheet is refused, [approveTimesheet]
    passes the refusal on as it is and leaves the spreadsheet, the status
    of the timesheet included, exactly as it was. *)
Theorem refused_timesheet_stays_as_it_was (user : string) (now : number)
  (recordId : value) (ss : Spreadsheet) (sheet : Sheet) (i : nat)
  (row : list value) (result : response) :
  ss !! "PendingTimesheets" = Some sheet →
  find_index (indexOf "RecordID" (header sheet)) recordId (body sheet) 0
  = Some (i, row) →
  (createPayslip user now (row_object (header sheet) row) ss).1
  = Return result →
  (∀ message recordNumber, result ≠ Success message recordNumber) →
  approveTimesheet user now recordId ss = (Return result, ss).
Proof.
  intros Hsheet Hfound Hresult Hrefused.
  rewrite approveTimesheet_run, Hsheet, Hfound. cbv zeta.
  rewrite createPayslip_unchanged
    by (intros m v; rewrite Hresult; intros [= ->]; by eapply Hrefused).
  rewrite Hresult. destruct result; try done. by edestruct Hrefused.
Qed.

(** X8. A pending timesheet whose hours and overtime hours add up to more
    than 168 is never approved: [approveTimesheet] answers with the
    validation errors of the payslip, the weekly limit among them, and
    changes nothing, although [validateTimesheet] reports no such error
    for the same data. *)
Theorem timesheet_over_168_hours_is_not_approved (user : string)
  (now : number) (recordId : value) (ss : Spreadsheet) (sheet : Sheet)
  (i : nat) (row : list value) :
  ss !! "PendingTimesheets" = Some sheet →
  find_index (indexOf "RecordID" (header sheet)) recordId (body sheet) 0
  = Some (i, row) →
  let data := row_object (header sheet) row in
  Number.gtb (parseFloat_or_0 (get data "HOURS")
              + parseFloat_or_0 (get data "OVERTIMEHOURS"))%num
             (of_Z 168) = true →
  ∃ messages,
    approveTimesheet user now recordId ss = (Return (Invalid messages), ss)
    ∧ "Total hours exceed maximum possible (168 hours/week)" ∈ messages
    ∧ "Total hours exceed maximum possible (168 hours/week)"
        ∉ errors (validateTimesheet data).
Proof.
  intros Hsheet Hfound data Hover.
  pose proof (proj2 (validatePayslip_weekly_limit data) Hover) as Hmsg.
  assert (isValid (validatePayslip data) = false) as Hinvalid.
  { unfold validatePayslip in *. cbn [isValid errors] in *.
    apply bool_decide_eq_false. intros Hlen%length_zero_iff_nil.
    rewrite Hlen in Hmsg. by apply elem_of_nil in Hmsg. }
  exists (errors (validatePayslip data)).
  rewrite approveTimesheet_run, Hsheet, Hfound. cbv zeta. fold data.
  rewrite createPayslip_run, Hinvalid. cbn [negb fst snd].
  split; [done|]. split; [done|].
  unfold validateTimesheet, push_if. cbn [errors].
  destruct (negb (truthy (get data "EMPLOYEE NAME")));
    destruct (negb (truthy (get data "WEEKENDING")));
    destruct (Number.ltb _ Number.zero || Number.ltb _ Number.zero); cbn;
    rewrite ?not_elem_of_cons; repeat split; (done || apply not_elem_of_nil).
Qed.

Lemma set_cell_below (i c : nat) (v : value) (sh : Sheet) :
  set_cell (i + 2) c v sh
  = mkSheet (header sh) (alter (λ row, <[c := to_cell v]> row) i (body sh)).
Proof.
  unfold set_cell. rewrite decide_False by lia.
  by replace (i + 2 - 2) with i by lia.
Qed.

(** X9. An approval that succeeds has done two things and no more: the
    salary sheet has gained the payslip of the timesheet's row, whose
    record number is the one answered, and the Status cell of that row
    reads Approved. *)
Theorem approveTimesheet_files_and_marks (user : string) (now : number)
  (recordId : value) (ss ss' : Spreadsheet) (message : string)
  (recordNumber : value) (sheet : Sheet) :
  ss !! "PendingTimesheets" = Some sheet →
  approveTimesheet user now recordId ss
  = (Return (Success message recordNumber), ss') →
  ∃ i row c salary payslip,
    find_index (indexOf "RecordID" (header sheet)) recordId (body sheet) 0
    = Some (i, row)
    ∧ indexOf "Status" (header sheet) = Some c
    ∧ ss !! "salary" = Some salary
    ∧ length payslip = length (header salary)
    ∧ createPayslip user now (row_object (header sheet) row) ss
      = (Return (Success "Payslip created successfully." recordNumber),
         <["salary" := mkSheet (header salary) (body salary ++ [payslip])]>
           ss)
    ∧ ss'
      = <["PendingTimesheets" :=
            mkSheet (header sheet)
                    (alter (λ r, <[c := VStr "Approved"]> r) i
                           (body sheet))]>
          (<["salary" :=
               mkSheet (header salary) (body salary ++ [payslip])]> ss).
Proof.
  intros Hsheet. rewrite approveTimesheet_run, Hsheet.
  destruct (find_index _ recordId (body sheet) 0) as [[i row]|]; [|done].
  cbv zeta.
  destruct (createPayslip user now _ ss) as [[[errs|msg|msg rn]|e] ss1]
    eqn:Hfiled; try done.
  cbn [fst snd].
  destruct (indexOf "Status" (header sheet)) as [c|]; [|done].
  intros [= <- <- <-].
  destruct (createPayslip_success _ _ _ _ _ _ _ Hfiled)
    as (calculatedData & salary & _ & _ & Hsalary & Hheader & -> & -> & ->).
  set (newRow := payslip_array _ _ _ _ _ _) in *.
  exists i, row, c, salary, (to_cell <$> elements newRow).
  split; [done|]. split; [done|]. split; [done|].
  split; [unfold newRow; by rewrite length_fmap, length_payslip_array|].
  split; [done|].
  rewrite (alter_sheet _ _ _ sheet) by by rewrite lookup_insert_ne.
  by rewrite set_cell_below.
Qed.

End Approval.

Section Reapproval.
Context `{Runtime}.

Lemma row_object_from_ext (o o' : object) (hs : list string)
  (row : list value) (k : string) :
  get o k = get o' k →
  get (row_object_from o hs row) k = get (row_object_from o' hs row) k.
Proof.
  revert o o' row. induction hs as [|h hs IH]; intros o o' row Hk; [done|].
  cbn. apply IH. rewrite !get_insert. by case_decide.
Qed.

Lemma row_object_from_insert (o : object) (hs : list string)
  (row : list value) (c : nat) (v : value) (k : string) :
  hs !! c ≠ Some k →
  get (row_object_from o hs (<[c := v]> row)) k
  = get (row_object_from o hs row) k.
Proof.
  revert o row c. induction hs as [|h hs IH]; intros o row c Hc; [done|].
  cbn [row_object_from]. destruct c as [|c].
  - destruct row as [|x row]; [done|]. cbn.
    apply row_object_from_ext. rewrite !get_insert.
    destruct (decide (h = k)) as [->|Hh]; [by destruct Hc|done].
  - destruct row as [|x row]; [done|]. cbn. by apply IH.
Qed.

(** A cell written under one header does not change what is read under
    another name. *)
Lemma row_object_insert (hs : list string) (row : list value) (c : nat)
  (v : value) (k : string) :
  hs !! c ≠ Some k →
  get (row_object hs (<[c := v]> row)) k = get (row_object hs row) k.
Proof. apply row_object_from_insert. Qed.

Lemma find_index_alter (col : option nat) (key : value)
  (data : list (list value)) (i : nat) (row : list value)
  (f : list value → list value) :
  find_index col key data 0 = Some (i, row) →
  at_index (f row) col = at_index row col →
  find_index col key (alter f i data) 0 = Some (i, f row).
Proof.
  intros (p & -> & Hp & Hrow & Hbefore)%find_index_Some Hf.
  apply find_index_Some. exists p. cbn. split; [done|].
  split; [by rewrite list_lookup_alter_eq, Hp|].
  split; [by rewrite Hf|].
  cbn in *. by rewrite take_alter_ge by lia.
Qed.

Lemma at_index_insert (row : list value) (c : nat) (v : value)
  (col : option nat) :
  col ≠ Some c → at_index (<[c := v]> row) col = at_index row col.
Proof.
  intros Hc. destruct col as [j|]; [|done]. cbn.
  rewrite list_lookup_insert_ne; [done|congruence].
Qed.

Lemma validatePayslip_ext (data data' : object) :
  Forall (λ k, get data' k = get data k)
         ["EMPLOYEE NAME"; "WEEKENDING"; "HOURS"; "OVERTIMEHOURS"] →
  validatePayslip data' = validatePayslip data.
Proof.
  intros Hk. unfold validatePayslip.
  apply Forall_cons in Hk as [-> Hk]. apply Forall_cons in Hk as [-> Hk].
  apply Forall_cons in Hk as [-> Hk]. apply Forall_cons in Hk as [-> Hk].
  done.
Qed.

Lemma calculatePayslip_returns (data data' : object) (ss ss' : Spreadsheet)
  (calculatedData : object) :
  calculatePayslip data ss = Return calculatedData →
  ss' !! EMPLOYEE_SHEET = ss !! EMPLOYEE_SHEET →
  get data' "EMPLOYEE NAME" = get data "EMPLOYEE NAME" →
  ∃ calculatedData', calculatePayslip data' ss' = Return calculatedData'.
Proof.
  unfold calculatePayslip, getEmployeeByName, getSheet.
  intros Hcalc -> ->.
  destruct (ss !! EMPLOYEE_SHEET) as [employees|]; [|done].
  destruct (find_row _ _ _) as [employee|]; [|done]. cbn. by eexists.
Qed.

(** What a successful approval did. *)
Lemma approveTimesheet_success (user : string) (now : number)
  (recordId : value) (ss ss' : Spreadsheet) (message : string)
  (recordNumber : value) (sheet : Sheet) :
  ss !! "PendingTimesheets" = Some sheet →
  approveTimesheet user now recordId ss
  = (Return (Success message recordNumber), ss') →
  ∃ i row c,
    find_index (indexOf "RecordID" (header sheet)) recordId (body sheet) 0
    = Some (i, row)
    ∧ indexOf "Status" (header sheet) = Some c
    ∧ (createPayslip user now (row_object (header sheet) row) ss).1
      = Return (Success "Payslip created successfully." recordNumber)
    ∧ message = "Timesheet approved and payslip created"
    ∧ ss'
      = <["PendingTimesheets" :=
            mkSheet (header sheet)
                    (alter (λ r, <[c := VStr "Approved"]> r) i
                           (body sheet))]>
          (createPayslip user now (row_object (header sheet) row) ss).2.
Proof.
  intros Hsheet. rewrite approveTimesheet_run, Hsheet.
  destruct (find_index _ recordId (body sheet) 0) as [[i row]|]; [|done].
  cbv zeta.
  destruct (createPayslip user now _ ss) as [[[errs|msg|msg rn]|e] ss1]
    eqn:Hfiled; try done.
  cbn [fst snd].
  destruct (indexOf "Status" (header sheet)) as [c|]; [|done].
  intros [= <- <- <-].
  destruct (createPayslip_success _ _ _ _ _ _ _ Hfiled)
    as (calculatedData & salary & _ & _ & Hsalary & Hheader & -> & _ & ->).
  exists i, row, c. rewrite Hfiled. cbn [fst snd].
  split; [done|]. split; [done|]. split; [done|]. split; [done|].
  rewrite (alter_sheet _ _ _ sheet) by by rewrite lookup_insert_ne.
  by rewrite set_cell_below.
Qed.

(** X10. [approveTimesheet] does not look at the Status of the timesheet:
    after an approval that succeeded, approving the same record id again
    succeeds again, and the salary sheet then holds two payslips more
    than it did at first. *)
Theorem approving_twice_files_two_payslips (user user' : string)
  (now now' : number) (recordId : value) (ss ss' : Spreadsheet)
  (message : string) (recordNumber : value) (sheet salary : Sheet) :
  ss !! "PendingTimesheets" = Some sheet →
  ss !! "salary" = Some salary →
  approveTimesheet user now recordId ss
  = (Return (Success message recordNumber), ss') →
  ∃ recordNumber' ss'' salary'',
    approveTimesheet user' now' recordId ss'
    = (Return (Success "Timesheet approved and payslip created"
                       recordNumber'),
       ss'')
    ∧ ss'' !! "salary" = Some salary''
    ∧ length (body salary'') = length (body salary) + 2.
Proof.
  intros Hsheet Hsalary Happroved.
  destruct (approveTimesheet_success _ _ _ _ _ _ _ _ Hsheet Happroved)
    as (i & row & c & Hfound & Hstatus & Hfiled & _ & ->).
  destruct (createPayslip user now _ ss) as [result ss1] eqn:Hfirst.
  cbn [fst snd] in *. subst result.
  destruct (createPayslip_success _ _ _ _ _ _ _ Hfirst)
    as (calculatedData & salary0 & Hvalid & Hcalc & Hsalary0 & Hheader
        & _ & _ & ->).
  rewrite Hsalary in Hsalary0. injection Hsalary0 as <-.
  set (data := row_object (header sheet) row) in *.
  set (row' := <[c := VStr "Approved"]> row).
  set (data' := row_object (header sheet) row').
  set (salary1 := append_row _ salary).
  match goal with
  | |- context [approveTimesheet _ _ _ ?s] => set (ss' := s)
  end.
  assert (∀ k, k ≠ "Status" → get data' k = get data k) as Hdata.
  { intros k Hk. apply row_object_insert.
    apply indexOf_Some in Hstatus. rewrite Hstatus. congruence. }
  assert (find_index (indexOf "RecordID" (header sheet)) recordId
            (alter (λ r, <[c := VStr "Approved"]> r) i (body sheet)) 0
          = Some (i, row')) as Hfound'.
  { apply (find_index_alter _ _ _ _ _ (λ r, <[c := VStr "Approved"]> r)
                            Hfound).
    apply at_index_insert.
    intros Hc. by pose proof (indexOf_inj _ _ _ _ Hc Hstatus). }
  assert (ss' !! "salary" = Some salary1) as Hsalary1.
  { unfold ss'. rewrite lookup_insert_ne by done. apply lookup_insert_eq. }
  destruct (calculatePayslip_returns data data' ss ss' _ Hcalc)
    as [calculatedData' Hcalc'].
  { unfold ss'. by rewrite !lookup_insert_ne. }
  { by apply Hdata. }
  assert (isValid (validatePayslip data') = true) as Hvalid'.
  { rewrite (validatePayslip_ext data); [done|].
    repeat constructor; by apply Hdata. }
  pose proof (createPayslip_succeeds user' now' data' ss' calculatedData'
                salary1 Hvalid' Hcalc' Hsalary1 Hheader) as Hsecond.
  cbv zeta in Hsecond.
  eexists _, _, _. split.
  - rewrite approveTimesheet_run. unfold ss' at 1.
    rewrite lookup_insert_eq. cbn [header body]. rewrite Hfound'.
    cbv zeta. fold row' data' ss'. rewrite Hsecond. cbn [fst snd].
    rewrite Hstatus. reflexivity.
  - split.
    + rewrite lookup_alter_ne by done. apply lookup_insert_eq.
    + unfold append_row, salary1. cbn [body append_row].
      rewrite !length_app. cbn. lia.
Qed.

End Reapproval.

(** ** Staging and clearing timesheets *)

Section StagingFacts.
Context `{Runtime}.

Lemma fmap_lookup_indexOf {A : Type} (f : string → A) (k : string)
  (hs : list string) (c : nat) :
  indexOf k hs = Some c → (f <$> hs) !! c = Some (f k).
Proof.
  intros Hc%indexOf_Some. by rewrite list_lookup_fmap, Hc.
Qed.

Lemma staged_rows_length (headers : list string) (uuid : nat → string)
  (now : nat → number) (i : nat) (data : list object) :
  length (staged_rows headers uuid now i data)
  = length (filter (λ record, isValid (validateTimesheet record) = true)
                   data).
Proof.
  revert i. induction data as [|record rest IH]; intros i; [done|].
  cbn [staged_rows]. rewrite filter_cons.
  destruct (isValid (validateTimesheet record)); cbn [negb].
  - rewrite decide_True by done. cbn. by rewrite IH.
  - rewrite decide_False by done. apply IH.
Qed.

Lemma staged_rows_pending (headers : list string) (uuid : nat → string)
  (now : nat → number) (i : nat) (data : list object) :
  Forall (λ row,
            length row = length headers
            ∧ ∀ c, indexOf "Status" headers = Some c →
                   row !! c = Some (VStr "Pending"))
         (staged_rows headers uuid now i data).
Proof.
  revert i. induction data as [|record rest IH]; intros i; [constructor|].
  cbn [staged_rows].
  destruct (negb (isValid (validateTimesheet record))); [apply IH|].
  constructor; [|apply IH]. unfold timesheet_row. split.
  - by rewrite !length_fmap.
  - intros c Hc. rewrite list_lookup_fmap.
    rewrite (fmap_lookup_indexOf _ _ _ _ Hc). cbn.
    by rewrite decide_True.
Qed.

(** X11. [stagePendingTimesheets] appends one row for each record that
    passes [validateTimesheet], in the order of the records and after the
    rows already there; each of these rows is as wide as the header and
    reads Pending under Status.  The records that fail are left out
    without a word: the answer is a success that counts the rows added. *)
Theorem stagePendingTimesheets_appends_the_valid_records
  (uuid : nat → string) (now : nat → number) (data : list object)
  (ss : Spreadsheet) (sheet : Sheet) :
  ss !! "PendingTimesheets" = Some sheet →
  header sheet ≠ [] →
  ∃ rows,
    stagePendingTimesheets uuid now data ss
    = (Return (Success
                 (Number_toString (of_Z (Z.of_nat (length rows)))
                  ++ " timesheet record(s) staged for approval")
                 VUndef),
       <["PendingTimesheets" :=
           mkSheet (header sheet) (body sheet ++ rows)]> ss)
    ∧ length rows
      = length (filter (λ record, isValid (validateTimesheet record) = true)
                       data)
    ∧ Forall (λ row,
                length row = length (header sheet)
                ∧ ∀ c, indexOf "Status" (header sheet) = Some c →
                       row !! c = Some (VStr "Pending"))
             rows.
Proof.
  intros Hsheet Hheader.
  exists (staged_rows (header sheet) uuid now 0 data).
  rewrite stagePendingTimesheets_run, Hsheet.
  split; [by destruct (header sheet)|].
  split; [apply staged_rows_length | apply staged_rows_pending].
Qed.

Lemma clearPendingTimesheets_run (ss : Spreadsheet) :
  clearPendingTimesheets ss
  = match ss !! "PendingTimesheets" with
    | None => (Return (Failure "PendingTimesheets sheet not found"), ss)
    | Some sheet =>
        (Return (Success "All pending timesheets cleared" VUndef),
         if decide (1 < getLastRow sheet)
         then <["PendingTimesheets" := clear_rows sheet]> ss
         else ss)
    end.
Proof.
  unfold clearPendingTimesheets, try_catch, mbind, script_bind, mret,
    script_ret, reads, getSheet.
  destruct (ss !! "PendingTimesheets") as [sheet|] eqn:Hsheet; [|done].
  case_decide; [|done]. unfold clearContent.
  by rewrite (alter_sheet _ _ _ _ Hsheet).
Qed.

(** X12. [clearPendingTimesheets] keeps the header of the sheet and
    removes every row below it, whatever its status; afterwards no record
    id is found any more by [approveTimesheet] or [rejectTimesheet]. *)
Theorem cleared_timesheets_are_gone (user : string) (now : number)
  (recordId : value) (ss : Spreadsheet) (sheet : Sheet) :
  ss !! "PendingTimesheets" = Some sheet →
  header sheet ≠ [] →
  let ss' := <["PendingTimesheets" := mkSheet (header sheet) []]> ss in
  clearPendingTimesheets ss
  = (Return (Success "All pending timesheets cleared" VUndef), ss')
  ∧ approveTimesheet user now recordId ss'
    = (Return (Failure "Timesheet record not found"), ss')
  ∧ rejectTimesheet recordId ss'
    = (Return (Failure "Timesheet record not found"), ss').
Proof.
  intros Hsheet Hheader ss'. split.
  - rewrite clearPendingTimesheets_run, Hsheet. f_equal.
    unfold getLastRow. destruct sheet as [[|h hs] rows]; [done|].
    cbn [header body] in *. case_decide as Hrows; [done|].
    destruct rows; [|cbn in Hrows; lia].
    unfold ss'. by rewrite insert_id.
  - rewrite approveTimesheet_run, rejectTimesheet_run. unfold ss'.
    by rewrite lookup_insert_eq.
Qed.

End StagingFacts.

Section ApprovedFacts.
Context `{Runtime} `{Utilities}.

Lemma approved_rows_approved (statusCol weekEndingCol : option nat)
  (weekEnding : value) (data approved : list (list value)) :
  approved_rows statusCol weekEndingCol weekEnding data = Return approved →
  Forall (λ row,
            row ∈ data
            ∧ at_index row statusCol = VStr "Approved"
            ∧ ∃ week,
                formatDate (at_index row weekEndingCol) = Return week
                ∧ formatDate weekEnding = Return week)
         approved.
Proof.
  revert approved. induction data as [|row rest IH]; intros approved.
  - intros [= <-]. constructor.
  - cbn [approved_rows].
    destruct (strict_eq (at_index row statusCol) (VStr "Approved"))
      eqn:Hstatus.
    + destruct (formatDate (at_index row weekEndingCol)) as [week|e]
        eqn:Hweek; [|done].
      destruct (formatDate weekEnding) as [wanted|e] eqn:Hwanted; [|done].
      cbn. destruct (approved_rows _ _ _ rest) as [kept|e]; [|done].
      specialize (IH kept eq_refl).
      assert (Forall (λ r,
                r ∈ row :: rest
                ∧ at_index r statusCol = VStr "Approved"
                ∧ ∃ week,
                    formatDate (at_index r weekEndingCol) = Return week
                    ∧ Return wanted = Return week) kept) as IH'.
      { eapply Forall_impl; [exact IH|]. intros r (Hr & Hs & Hw).
        split; [by apply list_elem_of_further|done]. }
      cbn. destruct (strict_eq week wanted) eqn:Heq; intros [= <-]; [|done].
      constructor; [|done]. split; [apply list_elem_of_here|].
      split; [by apply strict_eq_text|].
      exists week. split; [done|]. f_equal.
      destruct week, wanted; cbn in Heq; try done.
      * by apply bool_decide_eq_true in Heq as ->.
      * destruct n, n0; cbn in Heq; try done.
        by apply bool_decide_eq_true in Heq as ->.
      * by apply bool_decide_eq_true in Heq as ->.
    + cbn. destruct (approved_rows _ _ _ rest) as [kept|e]; [|done].
      cbn. intros [= <-]. specialize (IH kept eq_refl).
      eapply Forall_impl; [exact IH|]. intros r (Hr & Hs & Hw).
      split; [by apply list_elem_of_further|done].
Qed.

(** X13. Every record that [getApprovedTimesheets] returns is a row of
    the PendingTimesheets sheet whose Status reads Approved and whose
    week-ending date is formatted to the same day as the week asked for;
    a pending or rejected timesheet is never among them. *)
Theorem getApprovedTimesheets_lists_approved_rows_only (weekEnding : value)
  (ss : Spreadsheet) (sheet : Sheet) (records : list object) :
  ss !! "PendingTimesheets" = Some sheet →
  column_unique "Status" (header sheet) →
  column_unique "WEEKENDING" (header sheet) →
  getApprovedTimesheets weekEnding ss = Return records →
  Forall (λ record,
            record ∈ row_object (header sheet) <$> body sheet
            ∧ get record "Status" = VStr "Approved"
            ∧ ∃ week,
                formatDate (get record "WEEKENDING") = Return week
                ∧ formatDate weekEnding = Return week)
         records.
Proof.
  intros Hsheet Hstatus Hweek. unfold getApprovedTimesheets, getSheet.
  rewrite Hsheet.
  destruct (approved_rows _ _ weekEnding (body sheet)) as [approved|e]
    eqn:Happroved; [|done].
  cbn. intros [= <-]. apply approved_rows_approved in Happroved.
  apply Forall_fmap. eapply Forall_impl; [exact Happroved|].
  intros row (Hrow & Hs & Hw). cbn.
  rewrite !row_object_get by done.
  split; [by apply list_elem_of_fmap_2|done].
Qed.

End ApprovedFacts.

(** ** Timesheet files *)

Section CsvText.

Lemma split_nonempty (sep : ascii) (s : string) : split sep s ≠ [].
Proof.
  induction s as [|c s IH]; cbn; [done|].
  case_decide; [done|]. by destruct (split sep s).
Qed.

(** The pieces are one more than the separators. *)
Lemma split_length (sep : ascii) (s : string) :
  length (split sep s)
  = S (length (filter (λ c, c = sep) (list_ascii_of_string s))).
Proof.
  induction s as [|c s IH]; cbn [split list_ascii_of_string]; [done|].
  rewrite filter_cons. case_decide.
  - cbn. by rewrite IH.
  - pose proof (split_nonempty sep s).
    destruct (split sep s); [done|]. cbn in *. done.
Qed.

Lemma trim_end_idemp (s : string) : trim_end (trim_end s) = trim_end s.
Proof.
  induction s as [|c s IH]; [done|]. cbn [trim_end].
  destruct (trim_end s) as [|c' t] eqn:Ht.
  - destruct (is_white_space c) eqn:Hc; [done|]. cbn. by rewrite Hc.
  - cbn [trim_end]. cbn [trim_end] in IH. by rewrite IH.
Qed.

Lemma trim_start_head (c : ascii) (s : string) :
  is_white_space c = false → trim_start (String c s) = String c s.
Proof. intros Hc. cbn. by rewrite Hc. Qed.

Lemma trim_start_end (s : string) :
  trim_start (trim_end s) = trim_end (trim_start s).
Proof.
  induction s as [|c s IH]; [done|].
  destruct (is_white_space c) eqn:Hc.
  - cbn [trim_start trim_end]. rewrite Hc, <- IH.
    destruct (trim_end s) as [|c' t]; [done|]. cbn [trim_start].
    by rewrite Hc.
  - rewrite (trim_start_head c s Hc). cbn [trim_end].
    destruct (trim_end s) as [|c' t]; rewrite ?Hc; by apply trim_start_head.
Qed.

Lemma trim_start_idemp (s : string) :
  trim_start (trim_start s) = trim_start s.
Proof.
  induction s as [|c s IH]; [done|]. cbn [trim_start].
  destruct (is_white_space c) eqn:Hc; [done|]. by apply trim_start_head.
Qed.

(** Text that was trimmed has nothing left to trim. *)
Lemma trim_idemp (s : string) : trim (trim s) = trim s.
Proof.
  unfold trim. rewrite trim_start_end, trim_start_idemp.
  apply trim_end_idemp.
Qed.

Lemma row_object_from_lookup (o : object) (hs : list string)
  (row : list value) (k : string) (v : value) :
  row_object_from o hs row !! k = Some v →
  (k ∈ hs ∧ (v = VUndef ∨ v ∈ row)) ∨ ((k ∉ hs) ∧ o !! k = Some v).
Proof.
  revert o row. induction hs as [|h hs IH]; intros o row; cbn.
  - intros Hk. right. split; [apply not_elem_of_nil|done].
  - intros [[Hk Hv]|[Hk Hv]]%IH.
    + left. split; [by apply list_elem_of_further|].
      destruct Hv as [->|Hv]; [by left|]. right.
      destruct row; [by apply elem_of_nil in Hv|].
      by apply list_elem_of_further.
    + destruct (decide (h = k)) as [->|Hh].
      * rewrite lookup_insert_eq in Hv. injection Hv as <-. left.
        split; [apply list_elem_of_here|].
        destruct row as [|x row]; [by left|]. right. apply list_elem_of_here.
      * rewrite lookup_insert_ne in Hv by done. right.
        split; [|done]. by apply not_elem_of_cons.
Qed.

Lemma row_object_from_is_Some (o : object) (hs : list string)
  (row : list value) (k : string) :
  k ∈ hs ∨ is_Some (o !! k) → is_Some (row_object_from o hs row !! k).
Proof.
  revert o row. induction hs as [|h hs IH]; intros o row; cbn.
  - intros [Hk|Hk]; [by apply elem_of_nil in Hk|done].
  - intros [Hk|Hk]; apply IH.
    + apply elem_of_cons in Hk as [->|Hk]; [|by left]. right.
      by rewrite lookup_insert_eq.
    + right. destruct (decide (h = k)) as [->|Hh].
      * by rewrite lookup_insert_eq.
      * by rewrite lookup_insert_ne.
Qed.

Lemma row_object_from_absent (o : object) (hs : list string)
  (row : list value) (k : string) :
  k ∉ hs → row_object_from o hs row !! k = o !! k.
Proof.
  revert o row. induction hs as [|h hs IH]; intros o row Hk; [done|].
  apply not_elem_of_cons in Hk as [Hh Hk]. cbn.
  rewrite IH by done. by rewrite lookup_insert_ne.
Qed.

(** A header holds the cell at the place of its last occurrence, and
    [undefined] when the row ends before that place. *)
Lemma row_object_from_last (o : object) (hs : list string)
  (row : list value) (i : nat) (h : string) :
  hs !! i = Some h →
  (∀ j, i < j → hs !! j ≠ Some h) →
  row_object_from o hs row !! h = Some (default VUndef (row !! i)).
Proof.
  revert o row i. induction hs as [|h0 hs IH]; intros o row i Hi Hlast;
    [done|].
  destruct i as [|i]; cbn in *.
  - injection Hi as ->.
    rewrite row_object_from_absent, lookup_insert_eq.
    + by destruct row.
    + intros (j & Hj)%list_elem_of_lookup_1.
      apply (Hlast (S j)); [lia|done].
  - rewrite (IH _ _ i Hi).
    + by destruct row.
    + intros j Hj. apply (Hlast (S j)). lia.
Qed.

(** X14. [parseTimesheetCSV] fails exactly when the text, once trimmed,
    has no line break.  Otherwise it returns one record for each line
    after the first, in their order.  The fields of a record are the
    names that the first line holds between its commas, trimmed, and no
    other; the field named at a place of the first line (the last such
    place, for a name that occurs twice) is the trimmed text at the same
    place of the record's line, and [undefined] when that line has fewer
    places; no field has white space around it. *)
Theorem parseTimesheetCSV_records (csvText : string) :
  let lines := split "010"%char (trim csvText) in
  let breaks :=
    length (filter (λ c, c = "010"%char)
                   (list_ascii_of_string (trim csvText))) in
  let headers :=
    trim <$> split ","%char (default EmptyString (head lines)) in
  match parseTimesheetCSV csvText with
  | ParseFailure message =>
      breaks = 0 ∧ message = "CSV file is empty or invalid"
  | Parsed data =>
      0 < breaks
      ∧ length data = breaks
      ∧ ∀ (n : nat) (record : object), data !! n = Some record →
          ∃ line : string,
            lines !! S n = Some line
            ∧ (∀ k, is_Some (record !! k) ↔ k ∈ headers)
            ∧ (∀ (i : nat) (h : string),
                 headers !! i = Some h →
                 (∀ j, i < j → headers !! j ≠ Some h) →
                 record !! h
                 = Some (match split ","%char line !! i with
                         | Some piece => VStr (trim piece)
                         | None => VUndef
                         end))
            ∧ ∀ k v, record !! k = Some v →
                v = VUndef ∨ ∃ s, v = VStr s ∧ trim s = s
  end.
Proof.
  cbv zeta. unfold parseTimesheetCSV.
  pose proof (split_length "010"%char (trim csvText)) as Hlen.
  case_bool_decide as Hlines; [split; [lia|done]|].
  split; [lia|]. rewrite length_fmap.
  split; [destruct (split "010"%char (trim csvText)); cbn in *; lia|].
  intros n record Hrecord.
  rewrite list_lookup_fmap in Hrecord.
  destruct (tail (split "010"%char (trim csvText)) !! n) as [line|] eqn:Hline;
    [|done].
  injection Hrecord as <-. rewrite lookup_tail in Hline.
  exists line. split; [done|]. cbn. split; [|split].
  - intros k. split.
    + intros [v [[Hk _]|[_ Hk]]%row_object_from_lookup]; done.
    + intros Hk. apply row_object_from_is_Some. by left.
  - intros i h Hi Hlast. unfold row_object.
    rewrite (row_object_from_last _ _ _ i h Hi Hlast).
    rewrite !list_lookup_fmap. by destruct (split ","%char line !! i).
  - intros k v [[_ Hv]|[_ Hv]]%row_object_from_lookup; [|done].
    destruct Hv as [->|Hv]; [by left|]. right.
    apply list_elem_of_fmap in Hv as (s & -> & Hs).
    apply list_elem_of_fmap in Hs as (s' & -> & _).
    eexists. split; [done|]. apply trim_idemp.
Qed.

End CsvText.

(** ** Adding a loan *)

Section LoanRuns.
Context `{Runtime}.

(** The amount that [addLoanTransaction] files. *)
Lemma addLoanTransaction_run (uuid : string) (now : number) (data : object)
  (ss : Spreadsheet) :
  addLoanTransaction uuid now data ss
  = if negb (isValid (validateLoan data))
    then (Return (Invalid (errors (validateLoan data))), ss)
    else
      match getEmployeeByName (get data "Employee Name") ss with
      | Throw _ =>
          (Return (Failure
             "An error occurred while adding the loan transaction."), ss)
      | Return None => (Return (Failure "Employee not found."), ss)
      | Return (Some employee) =>
          let employeeId := get employee "id" in
          let first := recalculateLoanBalances employeeId ss in
          match first.1 with
          | Throw _ =>
              (Return (Failure
                 "An error occurred while adding the loan transaction."),
               first.2)
          | Return _ =>
              match first.2 !! "loans" with
              | None => (Return (Failure "Loans sheet not found."), first.2)
              | Some sheet =>
                  match header sheet with
                  | [] =>
                      (Return (Failure
                         "An error occurred while adding the loan transaction."),
                       first.2)
                  | _ =>
                      let balanceBefore :=
                        getCurrentLoanBalance employeeId first.2 in
                      let amount :=
                        if strict_eq (get data "LoanType") (VStr "Repayment")
                        then Number.neg
                               (Number.abs (ToNumber (get data "LoanAmount")))
                        else Number.abs (ToNumber (get data "LoanAmount")) in
                      let newRow :=
                        loan_row data (header sheet) uuid now employeeId
                                 amount balanceBefore
                                 (js_add balanceBefore amount) in
                      let second :=
                        recalculateLoanBalances employeeId
                          (<["loans" := append_row newRow sheet]> first.2) in
                      match second.1 with
                      | Return _ =>
                          (Return (Success
                             "Loan transaction added successfully." VUndef),
                           second.2)
                      | Throw _ =>
                          (Return (Failure
                             "An error occurred while adding the loan transaction."),
                           second.2)
                      end
                  end
              end
          end
      end.
Proof.
  unfold addLoanTransaction, try_catch, mbind, script_bind, mret, script_ret,
    attempts, reads, appendRow, getSheet, header_row.
  destruct (negb (isValid (validateLoan data))); [done|].
  destruct (getEmployeeByName _ ss) as [[employee|]|e]; try done.
  cbv zeta.
  destruct (recalculateLoanBalances (get employee "id") ss)
    as [[[]|e] ss1]; [|done].
  cbn [fst snd].
  destruct (ss1 !! "loans") as [sheet|] eqn:Hsheet; [|done].
  destruct (header sheet) as [|h hs] eqn:Hheader; [done|].
  rewrite (alter_sheet _ _ _ _ Hsheet). rewrite <- Hheader.
  by destruct (recalculateLoanBalances _ _) as [[[]|e] ss3].
Qed.

End LoanRuns.

Section LoanFrame.
Context `{Runtime}.

Lemma balances_apart_refl (sheet : Sheet) : balances_apart sheet sheet.
Proof. split; [done|]. intros i row Hrow. by exists row. Qed.

Lemma balances_apart_trans (a b c : Sheet) :
  balances_apart a b → balances_apart b c → balances_apart a c.
Proof.
  intros [Hab Hrows] [Hbc Hrows']. split; [congruence|].
  intros i row Hrow.
  destruct (Hrows i row Hrow) as (row' & Hrow' & Hlen & Hcells).
  destruct (Hrows' i row' Hrow') as (row'' & Hrow'' & Hlen' & Hcells').
  exists row''. split; [done|]. split; [congruence|].
  intros j Hb Ha. rewrite Hcells' by (by rewrite Hab). by apply Hcells.
Qed.

Lemma balances_apart_append (row : list value) (sheet : Sheet) :
  balances_apart sheet (append_row row sheet).
Proof.
  split; [done|]. intros i r Hr. exists r. split; [|done].
  cbn. by apply lookup_app_l_Some.
Qed.

(** What a recomputation leaves of the spreadsheet. *)
Lemma recalculateLoanBalances_loans (employeeId : value) (ss : Spreadsheet)
  (sheet : Sheet) :
  ss !! "loans" = Some sheet →
  ∃ sheet',
    (recalculateLoanBalances employeeId ss).2 = <["loans" := sheet']> ss
    ∧ balances_apart sheet sheet'
    ∧ length (body sheet') = length (body sheet).
Proof.
  intros Hsheet. rewrite recalculateLoanBalances_run, Hsheet. cbv zeta.
  eexists. split; [done|]. split; [split; [done|]|].
  - cbn [header body]. intros i row Hrow. eexists.
    rewrite patched_lookup, Hrow. split; [done|].
    split; [by rewrite length_imap|]. intros j Hb Ha.
    rewrite list_lookup_imap. destruct (row !! j); [|done]. cbn.
    unfold patch. by rewrite recalculation_skips_column.
  - cbn [body]. unfold patched. by rewrite length_imap.
Qed.

Lemma recalculateLoanBalances_no_loans (employeeId : value)
  (ss : Spreadsheet) :
  ss !! "loans" = None →
  recalculateLoanBalances employeeId ss = (Return (), ss).
Proof. intros Hnone. by rewrite recalculateLoanBalances_run, Hnone. Qed.

(** X16. Whatever it is given, [addLoanTransaction] returns an answer,
    writes to no sheet but the loans sheet, and there keeps the header
    and every row on file, in its place and with all its cells save the
    two balances; it adds at most one row, and exactly one when it
    answers with a success. *)
Theorem addLoanTransaction_keeps_what_is_on_file (uuid : string)
  (now : number) (data : object) (ss : Spreadsheet) :
  let filed := addLoanTransaction uuid now data ss in
  (∃ result, filed.1 = Return result)
  ∧ (∀ name, name ≠ "loans" → filed.2 !! name = ss !! name)
  ∧ match ss !! "loans" with
    | None => filed.2 !! "loans" = None
    | Some sheet =>
        ∃ sheet',
          filed.2 !! "loans" = Some sheet'
          ∧ balances_apart sheet sheet'
          ∧ (length (body sheet') = length (body sheet)
             ∨ length (body sheet') = S (length (body sheet)))
          ∧ ∀ message recordNumber,
              filed.1 = Return (Success message recordNumber) →
              length (body sheet') = S (length (body sheet))
    end.
Proof.
  cbv zeta. rewrite addLoanTransaction_run.
  assert (match ss !! "loans" with
          | None => ss !! "loans" = None
          | Some sheet =>
              ∃ sheet', ss !! "loans" = Some sheet'
                ∧ balances_apart sheet sheet'
                ∧ (length (body sheet') = length (body sheet)
                   ∨ length (body sheet') = S (length (body sheet)))
          end) as Hsame.
  { destruct (ss !! "loans") as [sheet|]; [|done]. exists sheet.
    split; [done|]. split; [apply balances_apart_refl|by left]. }
  assert (∀ (r : response),
            (∀ m v, r ≠ Success m v) →
            (∃ result, (Return r, ss).1 = Return result)
            ∧ (∀ name, name ≠ "loans" → (Return r, ss).2 !! name = ss !! name)
            ∧ match ss !! "loans" with
              | None => (Return r, ss).2 !! "loans" = None
              | Some sheet =>
                  ∃ sheet',
                    (Return r, ss).2 !! "loans" = Some sheet'
                    ∧ balances_apart sheet sheet'
                    ∧ (length (body sheet') = length (body sheet)
                       ∨ length (body sheet') = S (length (body sheet)))
                    ∧ ∀ message recordNumber,
                        (Return r, ss).1
                        = Return (Success message recordNumber) →
                        length (body sheet') = S (length (body sheet))
              end) as Hnothing.
  { intros r Hr. cbn [fst snd]. split; [by eexists|]. split; [done|].
    destruct (ss !! "loans") as [sheet|]; [|done].
    destruct Hsame as (sheet' & ? & ? & ?). exists sheet'.
    split; [done|]. split; [done|]. split; [done|].
    intros m v [= ->]. by edestruct Hr. }
  destruct (negb (isValid (validateLoan data))); [by apply Hnothing|].
  destruct (getEmployeeByName _ ss) as [[employee|]|e];
    [|by apply Hnothing..].
  cbv zeta. clear Hnothing Hsame.
  set (employeeId := get employee "id").
  destruct (ss !! "loans") as [sheet|] eqn:Hsheet.
  - destruct (recalculateLoanBalances_loans employeeId ss sheet Hsheet)
      as (sheet1 & Hfirst & Hapart1 & Hlen1).
    rewrite Hfirst. rewrite lookup_insert_eq.
    assert (∀ (r : response),
              (∀ m v, r ≠ Success m v) →
              (∃ result, (Return r, <["loans" := sheet1]> ss).1
                         = Return result)
              ∧ (∀ name, name ≠ "loans" →
                   (Return r, <["loans" := sheet1]> ss).2 !! name
                   = ss !! name)
              ∧ ∃ sheet',
                  (Return r, <["loans" := sheet1]> ss).2 !! "loans"
                  = Some sheet'
                  ∧ balances_apart sheet sheet'
                  ∧ (length (body sheet') = length (body sheet)
                     ∨ length (body sheet') = S (length (body sheet)))
                  ∧ ∀ message recordNumber,
                      (Return r, <["loans" := sheet1]> ss).1
                      = Return (Success message recordNumber) →
                      length (body sheet') = S (length (body sheet)))
      as Hfailed.
    { intros r Hr. cbn [fst snd]. split; [by eexists|].
      split; [intros name Hname; by rewrite lookup_insert_ne|].
      exists sheet1. rewrite lookup_insert_eq.
      split; [done|]. split; [done|]. split; [by left|].
      intros m v [= ->]. by edestruct Hr. }
    destruct (recalculateLoanBalances employeeId ss).1 as [[]|e];
      [|by apply Hfailed].
    destruct (header sheet1) as [|h hs] eqn:Hheader; [by apply Hfailed|].
    rewrite <- Hheader. clear Hfailed. cbv zeta.
    set (newRow := loan_row _ _ _ _ _ _ _ _).
    destruct (recalculateLoanBalances_loans employeeId
                (<["loans" := append_row newRow sheet1]>
                   (<["loans" := sheet1]> ss))
                (append_row newRow sheet1))
      as (sheet3 & Hsecond & Hapart3 & Hlen3); [apply lookup_insert_eq|].
    rewrite Hsecond.
    assert (balances_apart sheet sheet3) as Hapart.
    { eapply balances_apart_trans; [exact Hapart1|].
      eapply balances_apart_trans; [apply balances_apart_append|done]. }
    assert (length (body sheet3) = S (length (body sheet))) as Hlen.
    { rewrite Hlen3. cbn. rewrite length_app. cbn. lia. }
    destruct (recalculateLoanBalances employeeId _).1 as [[]|e];
      cbn [fst snd].
    + split; [by eexists|].
      split; [intros name Hname; by rewrite !lookup_insert_ne|].
      exists sheet3. rewrite lookup_insert_eq.
      split; [done|]. split; [done|]. split; [by right|done].
    + split; [by eexists|].
      split; [intros name Hname; by rewrite !lookup_insert_ne|].
      exists sheet3. rewrite lookup_insert_eq.
      split; [done|]. split; [done|]. split; [by right|done].
  - rewrite recalculateLoanBalances_no_loans by done. cbn [fst snd].
    rewrite Hsheet. split; [by eexists|]. done.
Qed.

End LoanFrame.

Section LoanChain.
Context `{Runtime}.

(** On a well-formed ledger the recomputation returns and leaves the
    history of the employee in order, each balance following from the
    one before. *)
Lemma recalculation_chain (employeeId : value) (ss : Spreadsheet)
  (sheet : Sheet) :
  ss !! "loans" = Some sheet →
  ledger_sheet sheet →
  employee_rows_dated employeeId sheet →
  let ss' :=
    <["loans" :=
        mkSheet (header sheet)
                (patched (carried_out (recalculation_writes employeeId sheet))
                         (body sheet))]> ss in
  recalculateLoanBalances employeeId ss = (Return (), ss')
  ∧ StronglySorted chronological (getLoanHistory employeeId ss')
  ∧ balance_chain Number.zero (getLoanHistory employeeId ss')
  ∧ length (getLoanHistory employeeId ss')
    = length (employee_items employeeId sheet).
Proof.
  intros Hsh [Hu Hb Ha Hrect] Hdated.
  destruct (indexOf_elem_of _ _ Hb) as [b Hbcol].
  destruct (indexOf_elem_of _ _ Ha) as [a Hacol].
  assert (b ≠ a) as Hba.
  { intros ->. pose proof (indexOf_inj _ _ _ _ Hbcol Hacol) as Heq.
    discriminate Heq. }
  unfold ledger_columns in Hu.
  apply Forall_cons in Hu as [Huid Hu]. apply Forall_cons in Hu as [Hud Hu].
  apply Forall_cons in Hu as [Hut Hu]. apply Forall_cons in Hu as [Hum Hu].
  apply Forall_cons in Hu as [Hub Hu]. apply Forall_cons in Hu as [Hua _].
  rewrite recalculateLoanBalances_run, Hsh. cbv zeta.
  set (ws := carried_out (recalculation_writes employeeId sheet)).
  set (ss' := <["loans" := _]> ss).
  split.
  { f_equal. unfold recalculation_outcome, recalculation_writes.
    by rewrite Hbcol, Hacol, balance_writes_all_carried_out. }
  set (F := λ it, row_object (header sheet) (rowData (patched_item ws it))).
  assert (getLoanHistory employeeId ss'
          = F <$> employee_rows employeeId sheet) as Hhistory.
  { erewrite getLoanHistory_rows; [|apply lookup_insert_eq|done..].
    cbn [header]. destruct sheet as [hs rows]. cbn [header body] in *.
    rewrite employee_rows_patched
      by (by apply (recalculation_keeps employeeId (mkSheet hs rows))).
    by rewrite <- list_fmap_compose. }
  assert (∀ it, signed_amount (F it)
                = parseFloat (at_index (rowData it)
                                       (indexOf "LoanAmount" (header sheet))))
    as Hamount.
  { intros it. unfold signed_amount, F. rewrite row_object_get by done.
    by rewrite at_index_patched_item by by apply recalculation_keeps. }
  assert (∀ it, transaction_times (F it)
                = times (at_index (rowData it)
                                  (indexOf "TransactionDate" (header sheet)))
                        (at_index (rowData it)
                                  (indexOf "Timestamp" (header sheet))))
    as Htimes.
  { intros it. unfold transaction_times, F. rewrite !row_object_get by done.
    by rewrite !at_index_patched_item by by apply recalculation_keeps. }
  split.
  { apply getLoanHistory_sorted.
    rewrite <- getLoanHistory_perm, Hhistory.
    apply Forall_fmap, Forall_forall. intros it Hit. cbn.
    rewrite Htimes.
    apply elem_of_employee_rows in Hit as (Hrow & _ & Hid).
    apply (Hdated (rowData it)); [|done]. by eapply list_elem_of_lookup_2. }
  rewrite Hhistory. split.
  - apply balance_chain_intro. intros p t Hp. cbv zeta.
    rewrite list_lookup_fmap in Hp.
    destruct (employee_rows employeeId sheet !! p) as [it|] eqn:Hit;
      [|done].
    injection Hp as <-.
    rewrite <- fmap_take, foldl_fmap.
    rewrite (foldl_ext _ (λ bal it,
               (bal + parseFloat (at_index (rowData it)
                                   (indexOf "LoanAmount" (header sheet))))%num))
      by (intros; by rewrite Hamount).
    fold (balance_at (indexOf "LoanAmount" (header sheet))
                     (employee_rows employeeId sheet) Number.zero p).
    rewrite Hamount.
    pose proof (list_elem_of_lookup_2 _ _ _ Hit) as Hin.
    apply elem_of_employee_rows in Hin as (Hrow & Hge & _).
    pose proof (Forall_lookup_1 _ _ _ _ Hrect Hrow) as Hlen. cbn beta in Hlen.
    pose proof (indexOf_lt _ _ _ Hbcol) as Hblt.
    pose proof (indexOf_lt _ _ _ Hacol) as Halt.
    destruct (lookup_lt_is_Some_2 (rowData it) b) as [xb Hxb]; [lia|].
    destruct (lookup_lt_is_Some_2 (rowData it) a) as [xa Hxa]; [lia|].
    unfold F. rewrite !row_object_get by done. rewrite Hbcol, Hacol.
    cbn [at_index patched_item rowData rowIndex].
    rewrite !list_lookup_imap, Hxb, Hxa.
    cbn [fmap option_fmap option_map default].
    unfold patch, ws, recalculation_writes. rewrite Hbcol, Hacol.
    rewrite (balance_writes_before b a _ _ _ p it)
      by (done || apply employee_rows_NoDup).
    rewrite (balance_writes_after b a _ _ _ p it)
      by (done || apply employee_rows_NoDup).
    done.
  - rewrite length_fmap. unfold employee_rows. by rewrite length_js_sort.
Qed.

End LoanChain.

Section LoanInsert.
Context `{Runtime}.

Lemma employee_items_app (employeeId : value) (hs : list string)
  (rows : list (list value)) (r : list value) :
  employee_items employeeId (mkSheet hs (rows ++ [r]))
  = (employee_items employeeId (mkSheet hs rows)
     ++ (if strict_eq (at_index r (indexOf "Employee ID" hs)) employeeId
         then [mkItem (length rows + 2) r] else []))%list.
Proof.
  unfold employee_items. cbn [header body].
  rewrite imap_app, List.filter_app. f_equal. cbn.
  rewrite Nat.add_0_r. by destruct (strict_eq _ employeeId).
Qed.

Lemma at_index_fmap_indexOf (f : string → value) (k : string)
  (hs : list string) :
  k ∈ hs → at_index (f <$> hs) (indexOf k hs) = f k.
Proof.
  intros [c Hc]%indexOf_elem_of. rewrite Hc. cbn.
  by rewrite (fmap_lookup_indexOf f k hs c Hc).
Qed.

(** The cells of the row that [addLoanTransaction] appends. *)
Lemma loan_row_cell (data : object) (hs : list string) (uuid : string)
  (now : number) (employeeId : value) (amount : number)
  (balanceBefore balanceAfter : value) (k : string) :
  k ∈ hs →
  at_index (to_cell <$> loan_row data hs uuid now employeeId amount
                                 balanceBefore balanceAfter)
           (indexOf k hs)
  = to_cell
      (if decide (k = "LoanID") then VStr uuid
       else if decide (k = "Employee ID") then employeeId
       else if decide (k = "Timestamp") then VDate now
       else if decide (k = "TransactionDate")
            then Date_new (get data "TransactionDate")
       else if decide (k = "LoanAmount") then VNum amount
       else if decide (k = "BalanceBefore") then balanceBefore
       else if decide (k = "BalanceAfter") then balanceAfter
       else js_or (get data k) VNull).
Proof.
  intros Hk. unfold loan_row. rewrite <- list_fmap_compose.
  by rewrite (at_index_fmap_indexOf _ k hs Hk).
Qed.

Lemma elem_of_patched (ws : list (nat * nat * value))
  (rows : list (list value)) (row' : list value) :
  row' ∈ patched ws rows →
  ∃ i row, rows !! i = Some row ∧ row' = imap (patch ws i) row.
Proof.
  intros [i Hi]%list_elem_of_lookup. rewrite patched_lookup in Hi.
  destruct (rows !! i) as [row|] eqn:Hrow; [|done].
  injection Hi as <-. by exists i, row.
Qed.

(** X15. A valid loan for an employee that is found, added to a
    well-formed ledger that has the six columns of the ledger and in
    which the rows of the employee carry valid dates, is answered with a
    success when its own dates are valid; the history of the employee's
    id then begins at balance 0, carries each balance over to the next
    transaction, is in order of transaction date and recording time, and
    holds one transaction more when the id is one that a cell can hold. *)
Theorem addLoanTransaction_keeps_the_balance_invariant (uuid : string)
  (now : number) (data : object) (ss : Spreadsheet) (employee : object)
  (sheet : Sheet) :
  isValid (validateLoan data) = true →
  getEmployeeByName (get data "Employee Name") ss = Return (Some employee) →
  ss !! "loans" = Some sheet →
  ledger_sheet sheet →
  Forall (λ k, k ∈ header sheet) ledger_columns →
  let employeeId := get employee "id" in
  employee_rows_dated employeeId sheet →
  Date_getTime (get data "TransactionDate") ≠ NaN →
  now ≠ NaN →
  ∃ ss',
    addLoanTransaction uuid now data ss
    = (Return (Success "Loan transaction added successfully." VUndef), ss')
    ∧ let history := getLoanHistory employeeId ss' in
      StronglySorted chronological history
      ∧ balance_chain Number.zero history
      ∧ length history
        = length (transactions_of employeeId ss)
          + (if strict_eq (to_cell employeeId) employeeId then 1 else 0).
Proof.
  intros Hvalid Hemployee Hsheet Hledger Hcols employeeId Hdated Hdate Hnow.
  pose proof Hledger as [Hu Hb Ha Hrect].
  unfold ledger_columns in Hcols, Hu.
  apply Forall_cons in Hcols as [Hcid Hcols].
  apply Forall_cons in Hcols as [Hcd Hcols].
  apply Forall_cons in Hcols as [Hct _].
  pose proof Hu as Hu'. apply Forall_cons in Hu' as [Huid _].
  destruct (recalculation_chain employeeId ss sheet Hsheet Hledger Hdated)
    as (Hfirst & _ & _ & _).
  set (ws1 := carried_out (recalculation_writes employeeId sheet)) in *.
  set (sheet1 := mkSheet (header sheet) (patched ws1 (body sheet))) in *.
  set (ss1 := <["loans" := sheet1]> ss) in *.
  rewrite addLoanTransaction_run, Hvalid, Hemployee. cbn [negb]. cbv zeta.
  fold employeeId. rewrite Hfirst. cbn [fst snd].
  unfold ss1 at 1. rewrite lookup_insert_eq.
  destruct (header sheet1) as [|h hs] eqn:Hheader.
  { cbn in Hheader. rewrite Hheader in Hb. by apply elem_of_nil in Hb. }
  rewrite <- Hheader. clear h hs Hheader. cbn [header].
  set (amount := if strict_eq _ _ then _ else _).
  set (balanceBefore := getCurrentLoanBalance employeeId ss1).
  set (newRow := loan_row _ _ _ _ _ _ _ _).
  set (sheet2 := append_row newRow sheet1).
  assert (∀ i row k, body sheet !! i = Some row →
            k ≠ "BalanceBefore" → k ≠ "BalanceAfter" →
            at_index (imap (patch ws1 i) row) (indexOf k (header sheet))
            = at_index row (indexOf k (header sheet))) as Hkept.
  { intros i row k Hrow Hkb Hka. apply at_index_patch.
    intros j Hj. by apply (recalculation_keeps employeeId sheet k). }
  assert (ledger_sheet sheet2) as Hledger2.
  { split; try done. cbn [header body sheet2 sheet1 append_row].
    apply Forall_app. split.
    - apply Forall_forall. intros row' (i & row & Hrow & ->)%elem_of_patched.
      rewrite length_imap.
      apply (Forall_lookup_1 _ _ _ _ Hrect Hrow).
    - repeat constructor. unfold newRow, loan_row. by rewrite !length_fmap. }
  assert (employee_rows_dated employeeId sheet2) as Hdated2.
  { intros row' Hrow' Hid. cbn [header body sheet2 sheet1 append_row] in *.
    apply elem_of_app in Hrow' as [Hrow'|Hrow'].
    - apply elem_of_patched in Hrow' as (i & row & Hrow & ->).
      rewrite !Hkept in * by done.
      apply Hdated; [by eapply list_elem_of_lookup_2|done].
    - apply list_elem_of_singleton in Hrow' as ->. unfold newRow.
      rewrite !loan_row_cell by done.
      repeat (case_decide; [done|]). rewrite decide_True by done.
      repeat (case_decide; [done|]). rewrite decide_True by done.
      unfold times. cbn.
      destruct (Date_getTime (get data "TransactionDate")); [done|].
      destruct now; [done|]. by eexists. }
  destruct (recalculation_chain employeeId
              (<["loans" := sheet2]> ss1) sheet2)
    as (Hsecond & Hsorted & Hchain & Hlength);
    [apply lookup_insert_eq|done..|].
  rewrite Hsecond. cbn [fst snd]. eexists. split; [done|]. cbv zeta.
  split; [done|]. split; [done|].
  rewrite Hlength. unfold sheet2, sheet1, append_row. cbn [header body].
  rewrite employee_items_app.
  rewrite employee_items_patched
    by (by apply (recalculation_keeps employeeId sheet)).
  rewrite length_app, length_fmap.
  unfold transactions_of, getSheet. rewrite Hsheet.
  rewrite employee_transactions_items by done. rewrite length_fmap.
  destruct sheet as [hs rows]. cbn [header body] in *. f_equal.
  unfold newRow. rewrite loan_row_cell by done.
  rewrite decide_False by done. rewrite decide_True by done.
  by destruct (strict_eq (to_cell employeeId) employeeId).
Qed.

End LoanInsert.

Section LoanFiled.
Context `{Runtime}.

(** What a successful [addLoanTransaction] did. *)
Lemma addLoanTransaction_success (uuid : string) (now : number)
  (data : object) (ss ss' : Spreadsheet) (message : string)
  (recordNumber : value) :
  addLoanTransaction uuid now data ss
  = (Return (Success message recordNumber), ss') →
  ∃ employee sheet,
    isValid (validateLoan data) = true
    ∧ getEmployeeByName (get data "Employee Name") ss
      = Return (Some employee)
    ∧ ss !! "loans" = Some sheet
    ∧ let employeeId := get employee "id" in
      let sheet1 :=
        mkSheet (header sheet)
          (patched (carried_out (recalculation_writes employeeId sheet))
                   (body sheet)) in
      let balanceBefore :=
        getCurrentLoanBalance employeeId (<["loans" := sheet1]> ss) in
      let amount :=
        if strict_eq (get data "LoanType") (VStr "Repayment")
        then Number.neg (Number.abs (ToNumber (get data "LoanAmount")))
        else Number.abs (ToNumber (get data "LoanAmount")) in
      let newRow :=
        loan_row data (header sheet) uuid now employeeId amount
                 balanceBefore (js_add balanceBefore amount) in
      let sheet2 := append_row newRow sheet1 in
      ss'
      = <["loans" :=
            mkSheet (header sheet)
              (patched (carried_out (recalculation_writes employeeId sheet2))
                       (body sheet2))]> ss.
Proof.
  rewrite addLoanTransaction_run.
  destruct (isValid (validateLoan data)); [|done]. cbn [negb].
  destruct (getEmployeeByName _ ss) as [[employee|]|e]; try done.
  cbv zeta. rewrite recalculateLoanBalances_run.
  destruct (ss !! "loans") as [sheet|] eqn:Hsheet; cbn [fst snd].
  - cbv zeta. cbn [fst snd]. destruct (recalculation_outcome _); [|done].
    rewrite lookup_insert_eq. cbn [header].
    destruct (header sheet) as [|h hs] eqn:Hheader; [done|].
    rewrite <- Hheader. rewrite recalculateLoanBalances_run.
    rewrite lookup_insert_eq. cbv zeta. cbn [fst snd].
    destruct (recalculation_outcome _); [|done].
    intros [= <- <- <-]. exists employee, sheet.
    split; [done|]. split; [done|]. split; [done|].
    cbn [header append_row]. by rewrite !insert_insert_eq.
  - by rewrite Hsheet.
Qed.

Lemma patched_app_last (ws : list (nat * nat * value))
  (rows : list (list value)) (row : list value) :
  last (patched ws (rows ++ [row]))
  = Some (imap (patch ws (length rows)) row).
Proof.
  unfold patched. rewrite imap_app. cbn. rewrite Nat.add_0_r.
  apply last_snoc.
Qed.

(** The cell that a filed loan holds in a column that is not a balance. *)
Lemma filed_loan_cell (employeeId : value) (sheet1 : Sheet)
  (data : object) (uuid : string) (now : number) (amount : number)
  (balanceBefore balanceAfter : value) (k : string) :
  k ∈ header sheet1 → k ≠ "BalanceBefore" → k ≠ "BalanceAfter" →
  let newRow :=
    loan_row data (header sheet1) uuid now employeeId amount balanceBefore
             balanceAfter in
  let sheet2 := append_row newRow sheet1 in
  at_index
    (imap (patch (carried_out (recalculation_writes employeeId sheet2))
                 (length (body sheet1)))
          (to_cell <$> newRow))
    (indexOf k (header sheet1))
  = to_cell
      (if decide (k = "LoanID") then VStr uuid
       else if decide (k = "Employee ID") then employeeId
       else if decide (k = "Timestamp") then VDate now
       else if decide (k = "TransactionDate")
            then Date_new (get data "TransactionDate")
       else if decide (k = "LoanAmount") then VNum amount
       else js_or (get data k) VNull).
Proof.
  intros Hk Hb Ha newRow sheet2.
  rewrite at_index_patch.
  - unfold newRow. rewrite loan_row_cell by done.
    by repeat case_decide.
  - intros j Hj.
    by apply (recalculation_keeps employeeId sheet2 k).
Qed.

Lemma validateLoan_amount (data : object) (q : Qc) :
  isValid (validateLoan data) = true →
  ToNumber (get data "LoanAmount") = Num q → (0 < q)%Qc.
Proof.
  rewrite validateLoan_isValid, validateLoan_errors, bool_decide_eq_true.
  intros Hnone Hq. apply Qcnot_le_lt. intros Hle.
  assert (AmountStrictlyPositive ∈ filter (violates data) loan_rules)
    as Hin.
  { apply list_elem_of_filter. split.
    - right. rewrite Hq. exact Hle.
    - unfold loan_rules. apply list_elem_of_further, list_elem_of_here. }
  destruct (filter (violates data) loan_rules); [|done].
  by apply elem_of_nil in Hin.
Qed.

Lemma abs_positive (n : number) :
  (∀ q, n = Num q → (0 < q)%Qc) → Number.abs n = n.
Proof.
  destruct n as [|q]; [done|]. intros Hq. cbn.
  rewrite decide_False; [done|]. apply Qcle_not_lt, Qclt_le_weak. by apply Hq.
Qed.

(** X17. In the row of a loan that was added, the amount is the amount
    that was entered, negated when the type is 'Repayment' and as it is
    for every other type; an amount that is a number is positive, for
    validation let it through. *)
Theorem loan_amount_is_signed_by_its_type (uuid : string) (now : number)
  (data : object) (ss ss' : Spreadsheet) (message : string)
  (recordNumber : value) :
  addLoanTransaction uuid now data ss
  = (Return (Success message recordNumber), ss') →
  let entered := ToNumber (get data "LoanAmount") in
  (∀ q, entered = Num q → (0 < q)%Qc)
  ∧ ∃ sheet' row,
      ss' !! "loans" = Some sheet'
      ∧ last (body sheet') = Some row
      ∧ ("LoanAmount" ∈ header sheet' →
         at_index row (indexOf "LoanAmount" (header sheet'))
         = VNum (if strict_eq (get data "LoanType") (VStr "Repayment")
                 then Number.neg entered else entered)).
Proof.
  intros (employee & sheet & Hvalid & _ & _ & ->)%addLoanTransaction_success
    entered.
  assert (∀ q, entered = Num q → (0 < q)%Qc) as Hpositive
    by (intros q; by apply validateLoan_amount).
  split; [done|]. eexists _, _. split; [apply lookup_insert_eq|].
  cbn [header body append_row]. split; [apply patched_app_last|].
  intros Hcol.
  etrans; [by apply (filed_loan_cell _ (mkSheet (header sheet) _) _ _ _ _ _
                                     _ "LoanAmount")|].
  repeat (case_decide; [done|]). rewrite decide_True by done. cbn.
  fold entered. by rewrite abs_positive.
Qed.

End LoanFiled.

Section LoanKeys.
Context `{Runtime}.

Lemma get_row_object_absent (hs : list string) (row : list value)
  (k : string) :
  k ∉ hs → get (row_object hs row) k = VUndef.
Proof.
  intros Hk. unfold get, row_object.
  destruct (row_object_from ∅ hs row !! k) as [v|] eqn:Hv; [|done].
  by apply row_object_from_lookup in Hv as [[? _]|[_ ?]].
Qed.

Lemma getEmployeeByName_Some (name : value) (ss : Spreadsheet)
  (employee : object) :
  getEmployeeByName name ss = Return (Some employee) →
  ∃ sheet row,
    ss !! EMPLOYEE_SHEET = Some sheet
    ∧ employee = row_object (header sheet) row.
Proof.
  unfold getEmployeeByName, getSheet.
  destruct (ss !! EMPLOYEE_SHEET) as [sheet|]; [|done].
  destruct (find_row _ name (body sheet)) as [row|]; [|done].
  intros [= <-]. by exists sheet, row.
Qed.

Lemma employee_items_none (employeeId : value) (sheet : Sheet) :
  Forall (λ row,
            strict_eq (at_index row (indexOf "Employee ID" (header sheet)))
                      employeeId = false)
         (body sheet) →
  employee_items employeeId sheet = [].
Proof.
  intros Hnone. unfold employee_items.
  destruct (List.filter _ _) as [|it items] eqn:Hitems; [done|].
  assert (it ∈ employee_items employeeId sheet) as Hit
    by (unfold employee_items; rewrite Hitems; apply list_elem_of_here).
  apply elem_of_employee_items in Hit as (Hrow & _ & Hid).
  pose proof (Forall_lookup_1 _ _ _ _ Hnone Hrow) as Hno. cbn in Hno.
  congruence.
Qed.

Lemma patched_nil (rows : list (list value)) : patched [] rows = rows.
Proof.
  unfold patched. apply imap_id. intros i row _. by apply imap_id.
Qed.

(** A recomputation for an employee without rows changes nothing. *)
Lemma recalculateLoanBalances_none (employeeId : value) (ss : Spreadsheet)
  (sheet : Sheet) :
  ss !! "loans" = Some sheet →
  employee_items employeeId sheet = [] →
  recalculateLoanBalances employeeId ss = (Return (), ss).
Proof.
  intros Hsheet Hnone. rewrite recalculateLoanBalances_run, Hsheet.
  cbv zeta. unfold recalculation_writes, employee_rows. rewrite Hnone.
  cbn. rewrite patched_nil. f_equal. rewrite insert_id; [done|].
  rewrite Hsheet. by destruct sheet.
Qed.

Lemma getLoanHistory_none (employeeId : value) (ss : Spreadsheet)
  (sheet : Sheet) :
  ss !! "loans" = Some sheet →
  column_unique "Employee ID" (header sheet) →
  employee_items employeeId sheet = [] →
  getLoanHistory employeeId ss = [].
Proof.
  intros Hsheet Hu Hnone. rewrite getLoanHistory_unfold.
  unfold transactions_of, getSheet. rewrite Hsheet.
  rewrite employee_transactions_items by done. by rewrite Hnone.
Qed.

Lemma add_zero_l (n : number) : (Number.zero + n)%num = n.
Proof. destruct n as [|q]; [done|]. cbn. by rewrite Qcplus_0_l. Qed.

Lemma strict_eq_undefined (v : value) :
  v ≠ VUndef → strict_eq v VUndef = false.
Proof. by destruct v. Qed.

Lemma match_header {A : Type} (sheet : Sheet) (a b : A) :
  header sheet ≠ [] →
  match header sheet with [] => a | _ :: _ => b end = b.
Proof. by destruct (header sheet). Qed.

(** X18. [addLoanTransaction] reads the employee's [id]; the employee
    sheet that [addEmployee] fills names that column [ID].  When the
    employee sheet has no column called [id], a valid loan for a known
    employee is appended with an empty Employee ID, a balance of 0 before
    it and its own amount after it, whatever the ledger holds; no
    existing row is touched, and the history of every employee id is
    what it was. *)
Theorem loan_is_filed_under_no_employee (uuid : string) (now : number)
  (data : object) (ss : Spreadsheet) (employees sheet : Sheet)
  (employee : object) :
  isValid (validateLoan data) = true →
  ss !! EMPLOYEE_SHEET = Some employees →
  "id" ∉ header employees →
  getEmployeeByName (get data "Employee Name") ss = Return (Some employee) →
  ss !! "loans" = Some sheet →
  "Employee ID" ∈ header sheet →
  column_unique "Employee ID" (header sheet) →
  Forall (λ row,
            at_index row (indexOf "Employee ID" (header sheet)) ≠ VUndef)
         (body sheet) →
  let amount :=
    if strict_eq (get data "LoanType") (VStr "Repayment")
    then Number.neg (Number.abs (ToNumber (get data "LoanAmount")))
    else Number.abs (ToNumber (get data "LoanAmount")) in
  let row :=
    to_cell <$> loan_row data (header sheet) uuid now VUndef amount
                         (VNum Number.zero) (VNum amount) in
  let ss' :=
    <["loans" := mkSheet (header sheet) (body sheet ++ [row])]> ss in
  addLoanTransaction uuid now data ss
  = (Return (Success "Loan transaction added successfully." VUndef), ss')
  ∧ at_index row (indexOf "Employee ID" (header sheet)) = blank
  ∧ ∀ employeeId,
      employeeId ≠ blank →
      getLoanHistory employeeId ss' = getLoanHistory employeeId ss.
Proof.
  intros Hvalid Hemployees Hid Hemployee Hsheet Hcol Hu Hcells amount row ss'.
  assert (get employee "id" = VUndef) as Hnoid.
  { apply getEmployeeByName_Some in Hemployee as (sh & r & Hsh & ->).
    rewrite Hemployees in Hsh. injection Hsh as <-.
    by apply get_row_object_absent. }
  assert (at_index row (indexOf "Employee ID" (header sheet)) = blank)
    as Hblank.
  { unfold row. rewrite loan_row_cell by done.
    rewrite decide_False by done. by rewrite decide_True by done. }
  assert (employee_items VUndef sheet = []) as Hnone.
  { apply employee_items_none. eapply Forall_impl; [exact Hcells|].
    intros r Hr. by apply strict_eq_undefined. }
  assert (employee_items VUndef (mkSheet (header sheet) (body sheet ++ [row]))
          = []) as Hnone'.
  { rewrite employee_items_app. destruct sheet as [hs rows].
    cbn [header body] in *. rewrite Hnone, Hblank. done. }
  split; [|split; [done|]].
  - rewrite addLoanTransaction_run, Hvalid, Hemployee. cbn [negb]. cbv zeta.
    rewrite Hnoid.
    rewrite (recalculateLoanBalances_none _ _ _ Hsheet Hnone).
    cbn [fst snd]. rewrite Hsheet.
    rewrite match_header
      by (intros Hnil; rewrite Hnil in Hcol; by apply elem_of_nil in Hcol).
    unfold getCurrentLoanBalance.
    rewrite (getLoanHistory_none _ _ _ Hsheet Hu Hnone). cbn [length].
    rewrite bool_decide_eq_true_2 by done.
    cbn [js_add ToNumber]. rewrite add_zero_l. fold amount.
    unfold append_row. cbn [header body]. fold row.
    rewrite (recalculateLoanBalances_none _ _
               (mkSheet (header sheet) (body sheet ++ [row])))
      by (apply lookup_insert_eq || done).
    done.
  - intros employeeId Hother. rewrite !getLoanHistory_unfold. f_equal.
    unfold transactions_of, getSheet, ss'.
    rewrite lookup_insert_eq, Hsheet.
    unfold employee_transactions. cbn [header body].
    rewrite fmap_app, List.filter_app. cbn.
    rewrite row_object_get by done. rewrite Hblank.
    replace (strict_eq blank employeeId) with false; [by rewrite app_nil_r|].
    destruct employeeId as [| | | |s|]; try done. cbn.
    symmetry. apply bool_decide_eq_false. intros Hs. apply Hother.
    by rewrite <- Hs.
Qed.

Lemma patched_app (ws : list (nat * nat * value))
  (rows : list (list value)) (row : list value) :
  patched ws (rows ++ [row])
  = (patched ws rows ++ [imap (patch ws (length rows)) row])%list.
Proof.
  unfold patched. rewrite imap_app. cbn. by rewrite Nat.add_0_r.
Qed.

Lemma truthy_cell (v : value) :
  truthy v = true → js_or v VNull = v ∧ to_cell v = v ∧ v ≠ VNum NaN.
Proof.
  intros Hv. unfold js_or. rewrite Hv. by destruct v as [| | |[|q]| |].
Qed.

(** X19. A loan that was added with a salary link is found by it: when
    the ledger has a SalaryLink column and no row on file is linked to
    the same payslip, [findLoanRecordBySalaryLink] of the link returns
    the transaction that was just appended. *)
Theorem loan_is_found_by_its_salary_link (uuid : string) (now : number)
  (data : object) (ss ss' : Spreadsheet) (message : string)
  (recordNumber : value) (sheet : Sheet) :
  addLoanTransaction uuid now data ss
  = (Return (Success message recordNumber), ss') →
  ss !! "loans" = Some sheet →
  "SalaryLink" ∈ header sheet →
  let link := get data "SalaryLink" in
  truthy link = true →
  (∀ t, link ≠ VDate t) →
  Forall (λ row,
            loose_eq (at_index row (indexOf "SalaryLink" (header sheet)))
                     link = false)
         (body sheet) →
  ∃ sheet' row,
    ss' !! "loans" = Some sheet'
    ∧ last (body sheet') = Some row
    ∧ at_index row (indexOf "SalaryLink" (header sheet)) = link
    ∧ findLoanRecordBySalaryLink link ss'
      = Some (row_object (header sheet') row).
Proof.
  intros (employee & sheet0 & _ & _ & Hsheet0 & ->)%addLoanTransaction_success
    Hsheet Hcol link Hlink Hdate Hfresh.
  rewrite Hsheet in Hsheet0. injection Hsheet0 as <-.
  destruct (truthy_cell _ Hlink) as (Hor & Hcell & Hnan).
  set (employeeId := get employee "id").
  set (ws1 := carried_out (recalculation_writes employeeId sheet)).
  set (sheet1 := mkSheet (header sheet) (patched ws1 (body sheet))).
  set (newRow := loan_row _ _ _ _ _ _ _ _).
  set (sheet2 := append_row newRow sheet1).
  set (ws2 := carried_out (recalculation_writes employeeId sheet2)).
  assert (at_index (imap (patch ws2 (length (body sheet1)))
                         (to_cell <$> newRow))
                   (indexOf "SalaryLink" (header sheet)) = link) as Hlast.
  { etrans; [by apply (filed_loan_cell _ sheet1 _ _ _ _ _ _ "SalaryLink")|].
    repeat (case_decide; [done|]). fold link. by rewrite Hor. }
  eexists _, _. split; [apply lookup_insert_eq|].
  cbn [header body]. split; [apply patched_app_last|].
  split; [exact Hlast|].
  unfold findLoanRecordBySalaryLink, getSheet. rewrite lookup_insert_eq.
  cbn [header body sheet2 append_row]. rewrite patched_app.
  rewrite find_row_loose_app.
  - by rewrite Hlast, loose_eq_refl by done.
  - apply Forall_forall.
    intros row' (i & row1 & Hrow1 & ->)%elem_of_patched.
    cbn [sheet1 body] in Hrow1. rewrite patched_lookup in Hrow1.
    destruct (body sheet !! i) as [row|] eqn:Hrow; [|done].
    injection Hrow1 as <-.
    rewrite at_index_patch
      by (intros j Hj;
          by apply (recalculation_keeps employeeId sheet2 "SalaryLink")).
    rewrite at_index_patch
      by (intros j Hj;
          by apply (recalculation_keeps employeeId sheet "SalaryLink")).
    apply (Forall_lookup_1 _ _ _ _ Hfresh Hrow).
Qed.

End LoanKeys.

(** ** The properties on the sample data *)

Lemma pair_eta {A B : Type} (p : A * B) (a : A) : p.1 = a → p = (a, p.2).
Proof. intros <-. by destruct p. Qed.

(** Lerato is on contract, so her UIF is computed as 0; the 999 that the
    caller sent for it is what the sheet holds. *)
Lemma zero_derived_field_witness :
  ∃ calculatedData n sheet' row,
    calculatePayslip (H := Reference.runtime) Cases.week_with_uif
                     Cases.payroll
    = Return calculatedData
    ∧ get calculatedData "UIF" = VNum n
    ∧ (createPayslip (H := Reference.runtime) "clerk@example.com"
                     (of_Z 1704463200000) Cases.week_with_uif
                     Cases.payroll).2
        !! "salary" = Some sheet'
    ∧ last (body sheet') = Some row
    ∧ row !! 5
      = Some (if Number.truthy n then VNum n
              else to_cell (js_or (get Cases.week_with_uif "UIF") VNull)).
Proof.
  apply (zero_derived_field_yields_to_the_input (H := Reference.runtime)
           "clerk@example.com" (of_Z 1704463200000) Cases.week_with_uif
           Cases.payroll _ "Payslip created successfully."
           (VNum (of_Z 7916))
           (default (mkSheet [] []) (Cases.payroll !! "salary"))
           "UIF" 5).
  - reflexivity.
  - apply pair_eta. by_evaluation.
  - by_evaluation.
  - reflexivity.
Defined.

Example contract_week_with_uif :
  (createPayslip (H := Reference.runtime) "clerk@example.com"
                 (of_Z 1704463200000) Cases.week_with_uif Cases.payroll).2
    !! "salary"
  = Some (mkSheet Cases.payroll_header
            [[VNum (of_Z 7915); VStr "Lerato"; VStr "2023-12-29";
              VNum (of_Z 40); VNum (of_Z 3200); blank; VNum (of_Z 3200);
              VDate (of_Z 1703859000000); VStr "clerk@example.com"];
             [VNum (of_Z 7916); VStr "Lerato"; VStr "2024-01-05";
              VNum (of_Z 40); VNum (of_Z 3200); VNum (of_Z 999);
              VNum (of_Z 3200); VDate (of_Z 1704463200000);
              VStr "clerk@example.com"]]).
Proof. by_evaluation. Qed.

(** Payslip 7916 of the sample week is read back by its number. *)
Lemma getPayslip_witness :
  ∃ sheet' row,
    (createPayslip (H := Reference.runtime) "clerk@example.com"
                   (of_Z 1704463200000) Sample.week Sample.books).2
      !! "salary" = Some sheet'
    ∧ last (body sheet') = Some row
    ∧ at_index row (indexOf "RECORDNUMBER" Sample.salary_header)
      = VNum (of_Z 7916)
    ∧ getPayslip (H := Reference.runtime) (VNum (of_Z 7916))
        (createPayslip (H := Reference.runtime) "clerk@example.com"
                       (of_Z 1704463200000) Sample.week Sample.books).2
      = Some (row_object Sample.salary_header row).
Proof.
  refine (getPayslip_returns_the_new_payslip (H := Reference.runtime)
            "clerk@example.com" (of_Z 1704463200000) Sample.week
            Sample.books
            (createPayslip (H := Reference.runtime) "clerk@example.com"
               (of_Z 1704463200000) Sample.week Sample.books).2
            "Payslip created successfully." (VNum (of_Z 7916))
            (default (mkSheet [] []) (Sample.books !! "salary"))
            _ _ _ _ _).
  - reflexivity.
  - by_evaluation.
  - apply pair_eta. by_evaluation.
  - discriminate.
  - by_evaluation.
Defined.

(** The two payslips of the sorted books, listed latest first. *)
Lemma listPayslips_witness :
  ∃ payslips,
    listPayslips (H := Reference.runtime) (H0 := Calendar.utilities) ∅
                 Sample.sorted_books
    = Return payslips
    ∧ payslips
      ≡ₚ row_object Sample.salary_header
           <$> body (default (mkSheet [] [])
                             (Sample.sorted_books !! "salary"))
    ∧ (Forall (λ p, ToNumber (H := Reference.runtime)
                             (get p "RECORDNUMBER") ≠ NaN) payslips →
       StronglySorted
         (λ a b, Number.leb (ToNumber (H := Reference.runtime)
                                      (get b "RECORDNUMBER"))
                            (ToNumber (H := Reference.runtime)
                                      (get a "RECORDNUMBER")) = true)
         payslips).
Proof.
  refine (listPayslips_lists_all_latest_first (H := Reference.runtime)
            (H0 := Calendar.utilities) ∅ Sample.sorted_books
            (default (mkSheet [] []) (Sample.sorted_books !! "salary"))
            _ _).
  - reflexivity.
  - reflexivity.
Defined.

(** Of the two, the week that ends on 5 January has payslip 7916. *)
Lemma listPayslips_week_witness :
  let filters : object := {[ "weekEnding" := VStr "2024-01-05" ]} in
  Forall (λ p,
            p ∈ row_object Sample.salary_header
                  <$> body (default (mkSheet [] [])
                                    (Sample.sorted_books !! "salary"))
            ∧ truthy (get p "WEEKENDING") = true
            ∧ ∃ week,
                formatDate (H := Reference.runtime)
                           (H0 := Calendar.utilities) (get p "WEEKENDING")
                = Return (VStr week)
                ∧ Utilities_formatDate
                    (Utilities := Calendar.utilities)
                    (Date_getTime (H := Reference.runtime)
                                  (get filters "weekEnding"))
                  = Return week)
         (match listPayslips (H := Reference.runtime)
                             (H0 := Calendar.utilities) filters
                             Sample.sorted_books with
          | Return payslips => payslips
          | Throw _ => []
          end).
Proof.
  intros filters.
  refine (listPayslips_selects_the_week (H := Reference.runtime)
            (H0 := Calendar.utilities) filters Sample.sorted_books
            (default (mkSheet [] []) (Sample.sorted_books !! "salary"))
            _ _ _ _).
  - reflexivity.
  - reflexivity.
  - by_evaluation.
Defined.

Example payslips_of_the_first_week :
  (λ p, get p "RECORDNUMBER")
    <$> match listPayslips (H := Reference.runtime)
                           (H0 := Calendar.utilities)
                           {[ "weekEnding" := VStr "2024-01-05" ]}
                           Sample.sorted_books with
        | Return payslips => payslips
        | Throw _ => []
        end
  = [VNum (of_Z 7916)].
Proof. by_evaluation. Qed.

(** No timesheet has the id 999999. *)
Lemma unknown_timesheet_witness :
  approveTimesheet (H := Reference.runtime) "clerk@example.com"
                   (of_Z 1704463200000) (VStr "999999") Cases.pending
  = (Return (Failure "Timesheet record not found"), Cases.pending)
  ∧ rejectTimesheet (VStr "999999") Cases.pending
    = (Return (Failure "Timesheet record not found"), Cases.pending).
Proof.
  refine (unknown_timesheet_is_reported (H := Reference.runtime)
            "clerk@example.com" (of_Z 1704463200000) (VStr "999999")
            Cases.pending
            (default (mkSheet [] []) (Cases.pending !! "PendingTimesheets"))
            _ _).
  - reflexivity.
  - by_evaluation.
Defined.

(** The week of 170 hours is refused with the message of the payslip
    validation. *)
Lemma refused_timesheet_witness :
  approveTimesheet (H := Reference.runtime) "clerk@example.com"
                   (of_Z 1704463200000) (VStr "310002") Cases.pending
  = (Return (Invalid
               ["Total hours exceed maximum possible (168 hours/week)"]),
     Cases.pending).
Proof.
  refine (refused_timesheet_stays_as_it_was (H := Reference.runtime)
            "clerk@example.com" (of_Z 1704463200000) (VStr "310002")
            Cases.pending
            (default (mkSheet [] []) (Cases.pending !! "PendingTimesheets"))
            1
            [VStr "310002"; VStr "Lerato"; VStr "2024-01-05";
             VStr "100"; VStr "70"; VStr "Pending";
             VDate (of_Z 1704700000000)]
            (Invalid
               ["Total hours exceed maximum possible (168 hours/week)"])
            _ _ _ _).
  - reflexivity.
  - reflexivity.
  - by_evaluation.
  - discriminate.
Defined.

Lemma timesheet_over_168_hours_witness :
  ∃ messages,
    approveTimesheet (H := Reference.runtime) "clerk@example.com"
                     (of_Z 1704463200000) (VStr "310002") Cases.pending
    = (Return (Invalid messages), Cases.pending)
    ∧ "Total hours exceed maximum possible (168 hours/week)" ∈ messages
    ∧ "Total hours exceed maximum possible (168 hours/week)"
        ∉ errors (validateTimesheet (H := Reference.runtime)
                    (row_object Cases.pending_header
                       [VStr "310002"; VStr "Lerato"; VStr "2024-01-05";
                        VStr "100"; VStr "70"; VStr "Pending";
                        VDate (of_Z 1704700000000)])).
Proof.
  refine (timesheet_over_168_hours_is_not_approved (H := Reference.runtime)
            "clerk@example.com" (of_Z 1704463200000) (VStr "310002")
            Cases.pending
            (default (mkSheet [] []) (Cases.pending !! "PendingTimesheets"))
            1
            [VStr "310002"; VStr "Lerato"; VStr "2024-01-05";
             VStr "100"; VStr "70"; VStr "Pending";
             VDate (of_Z 1704700000000)]
            _ _ _).
  - reflexivity.
  - reflexivity.
  - by_evaluation.
Defined.

(** Thabo's week is approved as payslip 7916. *)
Lemma approveTimesheet_witness :
  ∃ i row c salary payslip,
    find_index (indexOf "RecordID" Cases.pending_header) (VStr "310001")
               (body (default (mkSheet [] [])
                              (Cases.pending !! "PendingTimesheets"))) 0
    = Some (i, row)
    ∧ indexOf "Status" Cases.pending_header = Some c
    ∧ Cases.pending !! "salary" = Some salary
    ∧ length payslip = length (header salary)
    ∧ createPayslip (H := Reference.runtime) "clerk@example.com"
                    (of_Z 1704463200000)
                    (row_object Cases.pending_header row) Cases.pending
      = (Return (Success "Payslip created successfully."
                         (VNum (of_Z 7916))),
         <["salary" := mkSheet (header salary) (body salary ++ [payslip])]>
           Cases.pending)
    ∧ (approveTimesheet (H := Reference.runtime) "clerk@example.com"
                        (of_Z 1704463200000) (VStr "310001")
                        Cases.pending).2
      = <["PendingTimesheets" :=
            mkSheet Cases.pending_header
                    (alter (λ r, <[c := VStr "Approved"]> r) i
                           (body (default (mkSheet [] [])
                                    (Cases.pending !! "PendingTimesheets"))))]>
          (<["salary" :=
               mkSheet (header salary) (body salary ++ [payslip])]>
             Cases.pending).
Proof.
  refine (approveTimesheet_files_and_marks (H := Reference.runtime)
            "clerk@example.com" (of_Z 1704463200000) (VStr "310001")
            Cases.pending
            (approveTimesheet (H := Reference.runtime) "clerk@example.com"
               (of_Z 1704463200000) (VStr "310001") Cases.pending).2
            "Timesheet approved and payslip created" (VNum (of_Z 7916))
            (default (mkSheet [] []) (Cases.pending !! "PendingTimesheets"))
            _ _).
  - reflexivity.
  - apply pair_eta. by_evaluation.
Defined.

(** Approved a second time, Thabo's week becomes payslip 7917 as well. *)
Lemma approving_twice_witness :
  ∃ recordNumber' ss'' salary'',
    approveTimesheet (H := Reference.runtime) "clerk@example.com"
                     (of_Z 1704467000000) (VStr "310001")
                     (approveTimesheet (H := Reference.runtime)
                        "clerk@example.com" (of_Z 1704463200000)
                        (VStr "310001") Cases.pending).2
    = (Return (Success "Timesheet approved and payslip created"
                       recordNumber'),
       ss'')
    ∧ ss'' !! "salary" = Some salary''
    ∧ length (body salary'')
      = length (body (default (mkSheet [] []) (Cases.pending !! "salary")))
        + 2.
Proof.
  refine (approving_twice_files_two_payslips (H := Reference.runtime)
            "clerk@example.com" "clerk@example.com" (of_Z 1704463200000)
            (of_Z 1704467000000) (VStr "310001") Cases.pending
            (approveTimesheet (H := Reference.runtime) "clerk@example.com"
               (of_Z 1704463200000) (VStr "310001") Cases.pending).2
            "Timesheet approved and payslip created" (VNum (of_Z 7916))
            (default (mkSheet [] []) (Cases.pending !! "PendingTimesheets"))
            (default (mkSheet [] []) (Cases.pending !! "salary"))
            _ _ _).
  - reflexivity.
  - reflexivity.
  - apply pair_eta. by_evaluation.
Defined.

Example second_approval_is_payslip_7917 :
  (approveTimesheet (H := Reference.runtime) "clerk@example.com"
                    (of_Z 1704467000000) (VStr "310001")
                    (approveTimesheet (H := Reference.runtime)
                       "clerk@example.com" (of_Z 1704463200000)
                       (VStr "310001") Cases.pending).2).1
  = Return (Success "Timesheet approved and payslip created"
                    (VNum (of_Z 7917))).
Proof. by_evaluation. Qed.

(** Of the two records, the one with a name is staged. *)
Lemma stagePendingTimesheets_witness :
  ∃ rows,
    stagePendingTimesheets (H := Reference.runtime) Cases.uuids Cases.clock
                           Cases.records Cases.pending
    = (Return (Success
                 (Number_toString (Runtime := Reference.runtime)
                                  (of_Z (Z.of_nat (length rows)))
                  ++ " timesheet record(s) staged for approval")
                 VUndef),
       <["PendingTimesheets" :=
           mkSheet Cases.pending_header
                   (body (default (mkSheet [] [])
                            (Cases.pending !! "PendingTimesheets"))
                    ++ rows)]> Cases.pending)
    ∧ length rows
      = length (filter (λ record,
                          isValid (validateTimesheet (H := Reference.runtime)
                                                     record) = true)
                       Cases.records)
    ∧ Forall (λ row,
                length row = length Cases.pending_header
                ∧ ∀ c, indexOf "Status" Cases.pending_header = Some c →
                       row !! c = Some (VStr "Pending"))
             rows.
Proof.
  refine (stagePendingTimesheets_appends_the_valid_records
            (H := Reference.runtime) Cases.uuids Cases.clock Cases.records
            Cases.pending
            (default (mkSheet [] []) (Cases.pending !! "PendingTimesheets"))
            _ _).
  - reflexivity.
  - discriminate.
Defined.

Example one_record_is_staged :
  (stagePendingTimesheets (H := Reference.runtime) Cases.uuids Cases.clock
                          Cases.records Cases.pending).1
  = Return (Success "1 timesheet record(s) staged for approval" VUndef).
Proof. by_evaluation. Qed.

Lemma cleared_timesheets_witness :
  let ss' :=
    <["PendingTimesheets" := mkSheet Cases.pending_header []]>
      Cases.pending in
  clearPendingTimesheets Cases.pending
  = (Return (Success "All pending timesheets cleared" VUndef), ss')
  ∧ approveTimesheet (H := Reference.runtime) "clerk@example.com"
                     (of_Z 1704463200000) (VStr "310001") ss'
    = (Return (Failure "Timesheet record not found"), ss')
  ∧ rejectTimesheet (VStr "310001") ss'
    = (Return (Failure "Timesheet record not found"), ss').
Proof.
  refine (cleared_timesheets_are_gone (H := Reference.runtime)
            "clerk@example.com" (of_Z 1704463200000) (VStr "310001")
            Cases.pending
            (default (mkSheet [] []) (Cases.pending !! "PendingTimesheets"))
            _ _).
  - reflexivity.
  - discriminate.
Defined.

(** Once Thabo's week is approved it is the one approved timesheet of
    the week that ends on 5 January. *)
Lemma getApprovedTimesheets_witness :
  let ss' :=
    (approveTimesheet (H := Reference.runtime) "clerk@example.com"
                      (of_Z 1704463200000) (VStr "310001")
                      Cases.pending).2 in
  Forall (λ record,
            record
              ∈ row_object Cases.pending_header
                  <$> body (default (mkSheet [] [])
                                    (ss' !! "PendingTimesheets"))
            ∧ get record "Status" = VStr "Approved"
            ∧ ∃ week,
                formatDate (H := Reference.runtime)
                           (H0 := Calendar.utilities)
                           (get record "WEEKENDING")
                = Return week
                ∧ formatDate (H := Reference.runtime)
                             (H0 := Calendar.utilities) (VStr "2024-01-05")
                  = Return week)
         (match getApprovedTimesheets (H := Reference.runtime)
                  (H0 := Calendar.utilities) (VStr "2024-01-05") ss' with
          | Return records => records
          | Throw _ => []
          end).
Proof.
  intros ss'.
  refine (getApprovedTimesheets_lists_approved_rows_only
            (H := Reference.runtime) (H0 := Calendar.utilities)
            (VStr "2024-01-05") ss'
            (default (mkSheet [] []) (ss' !! "PendingTimesheets"))
            _ _ _ _ _).
  - by_evaluation.
  - apply NoDup_column_unique. by_evaluation.
  - apply NoDup_column_unique. by_evaluation.
  - by_evaluation.
Defined.

Example approved_timesheets_of_the_week :
  (λ record, get record "RecordID")
    <$> match getApprovedTimesheets (H := Reference.runtime)
                (H0 := Calendar.utilities) (VStr "2024-01-05")
                (approveTimesheet (H := Reference.runtime)
                   "clerk@example.com" (of_Z 1704463200000)
                   (VStr "310001") Cases.pending).2 with
        | Return records => records
        | Throw _ => []
        end
  = [VStr "310001"].
Proof. by_evaluation. Qed.

(** Thabo's repayment of 250, dated before his loan of 1000, is inserted
    at the head of his history and the balances are carried through. *)
Lemma addLoanTransaction_witness :
  ∃ ss',
    addLoanTransaction (H := Reference.runtime) "700003"
                       (of_Z 1704300000000) Cases.repayment
                       Cases.linked_ledger
    = (Return (Success "Loan transaction added successfully." VUndef), ss')
    ∧ let history :=
        getLoanHistory (H := Reference.runtime) (VStr "100001") ss' in
      StronglySorted (chronological (H := Reference.runtime)) history
      ∧ balance_chain (H := Reference.runtime) Number.zero history
      ∧ length history
        = length (transactions_of (VStr "100001") Cases.linked_ledger) + 1.
Proof.
  refine (addLoanTransaction_keeps_the_balance_invariant
            (H := Reference.runtime) "700003" (of_Z 1704300000000)
            Cases.repayment Cases.linked_ledger
            (row_object (header Cases.staff)
               [VStr "100001"; VStr "Thabo"; VNum (of_Z 100);
                VStr "Permanent"])
            (default (mkSheet [] []) (Cases.linked_ledger !! "loans"))
            _ _ _ _ _ _ _ _).
  - by_evaluation.
  - reflexivity.
  - reflexivity.
  - apply ledger_sheet_intro; by_evaluation.
  - by_evaluation.
  - apply employee_rows_dated_intro. by_evaluation.
  - by_evaluation.
  - discriminate.
Defined.

Example repayment_heads_the_history :
  (λ t, (get t "LoanID", get t "BalanceBefore", get t "BalanceAfter"))
    <$> getLoanHistory (H := Reference.runtime) (VStr "100001")
          (addLoanTransaction (H := Reference.runtime) "700003"
             (of_Z 1704300000000) Cases.repayment Cases.linked_ledger).2
  = [(VStr "700003", VNum (of_Z 0), VNum (of_Z (-250)));
     (VStr "700001", VNum (of_Z (-250)), VNum (of_Z 750))].
Proof. by_evaluation. Qed.

(** The repayment of 250 is filed as -250. *)
Lemma loan_amount_witness :
  (∀ q, ToNumber (H := Reference.runtime) (get Cases.repayment "LoanAmount")
        = Num q → (0 < q)%Qc)
  ∧ ∃ sheet' row,
      (addLoanTransaction (H := Reference.runtime) "700003"
         (of_Z 1704300000000) Cases.repayment Cases.linked_ledger).2
        !! "loans" = Some sheet'
      ∧ last (body sheet') = Some row
      ∧ ("LoanAmount" ∈ header sheet' →
         at_index row (indexOf "LoanAmount" (header sheet'))
         = VNum (if strict_eq (get Cases.repayment "LoanType")
                              (VStr "Repayment")
                 then Number.neg
                        (ToNumber (H := Reference.runtime)
                                  (get Cases.repayment "LoanAmount"))
                 else ToNumber (H := Reference.runtime)
                               (get Cases.repayment "LoanAmount"))).
Proof.
  refine (loan_amount_is_signed_by_its_type (H := Reference.runtime)
            "700003" (of_Z 1704300000000) Cases.repayment
            Cases.linked_ledger
            (addLoanTransaction (H := Reference.runtime) "700003"
               (of_Z 1704300000000) Cases.repayment Cases.linked_ledger).2
            "Loan transaction added successfully." VUndef _).
  apply pair_eta. by_evaluation.
Defined.

(** On the sample spreadsheet, whose employee sheet has the column ID, a
    loan of 250 to Thabo is filed under no employee. *)
Lemma loan_under_no_employee_witness :
  let form : object :=
    {[ "Employee Name" := VStr "Thabo"; "LoanType" := VStr "Disbursement";
       "LoanAmount" := VNum (of_Z 250);
       "TransactionDate" := VDate (of_Z 1704240000000) ]} in
  let sheet := default (mkSheet [] []) (Sample.ledger !! "loans") in
  let amount :=
    if strict_eq (get form "LoanType") (VStr "Repayment")
    then Number.neg (Number.abs (ToNumber (H := Reference.runtime)
                                          (get form "LoanAmount")))
    else Number.abs (ToNumber (H := Reference.runtime)
                              (get form "LoanAmount")) in
  let row :=
    to_cell <$> loan_row (H := Reference.runtime) form (header sheet)
                         "700004" (of_Z 1704300000000) VUndef amount
                         (VNum Number.zero) (VNum amount) in
  let ss' :=
    <["loans" := mkSheet (header sheet) (body sheet ++ [row])]>
      Sample.ledger in
  addLoanTransaction (H := Reference.runtime) "700004"
                     (of_Z 1704300000000) form Sample.ledger
  = (Return (Success "Loan transaction added successfully." VUndef), ss')
  ∧ at_index row (indexOf "Employee ID" (header sheet)) = blank
  ∧ ∀ employeeId,
      employeeId ≠ blank →
      getLoanHistory (H := Reference.runtime) employeeId ss'
      = getLoanHistory (H := Reference.runtime) employeeId Sample.ledger.
Proof.
  intros form sheet.
  refine (loan_is_filed_under_no_employee (H := Reference.runtime)
            "700004" (of_Z 1704300000000) form Sample.ledger
            Sample.employees sheet
            (row_object (header Sample.employees)
               [VStr "100001"; VStr "Thabo"; VNum (of_Z 100);
                VStr "Permanent"])
            _ _ _ _ _ _ _ _).
  - by_evaluation.
  - reflexivity.
  - by_evaluation.
  - reflexivity.
  - reflexivity.
  - by_evaluation.
  - apply NoDup_column_unique. by_evaluation.
  - by_evaluation.
Defined.

(** The repayment deducted on payslip 7916 is found by that number. *)
Lemma salary_link_witness :
  let ss' :=
    (addLoanTransaction (H := Reference.runtime) "700003"
       (of_Z 1704300000000) Cases.repayment Cases.linked_ledger).2 in
  ∃ sheet' row,
    ss' !! "loans" = Some sheet'
    ∧ last (body sheet') = Some row
    ∧ at_index row (indexOf "SalaryLink" Cases.linked_header)
      = VNum (of_Z 7916)
    ∧ findLoanRecordBySalaryLink (H := Reference.runtime)
                                 (VNum (of_Z 7916)) ss'
      = Some (row_object (header sheet') row).
Proof.
  intros ss'.
  refine (loan_is_found_by_its_salary_link (H := Reference.runtime)
            "700003" (of_Z 1704300000000) Cases.repayment
            Cases.linked_ledger ss'
            "Loan transaction added successfully." VUndef
            (default (mkSheet [] []) (Cases.linked_ledger !! "loans"))
            _ _ _ _ _ _).
  - apply pair_eta. by_evaluation.
  - reflexivity.
  - by_evaluation.
  - by_evaluation.
  - discriminate.
  - by_evaluation.
Defined.


(** * Rejection, import, employees and the weekly report *)

Section Rejection.
Context `{Runtime}.

(** The record number that [createPayslip] answers does not depend on
    the data of the payslip. *)
Lemma payslip_array_recordNumber_any (calculatedData data calculatedData'
  data' : object) (headers : list string) (lastRecordNumber : value)
  (user : string) (now : number) :
  array_get (payslip_array calculatedData' data' headers lastRecordNumber
                           user now)
            (indexOf "RECORDNUMBER" headers)
  = array_get (payslip_array calculatedData data headers lastRecordNumber
                             user now)
              (indexOf "RECORDNUMBER" headers).
Proof.
  destruct (indexOf "RECORDNUMBER" headers) as [j|] eqn:Hj.
  - rewrite <- Hj. rewrite !payslip_array_recordNumber; [done|..];
      apply indexOf_Some in Hj; by eapply list_elem_of_lookup_2.
  - unfold payslip_array. rewrite Hj.
    by destruct (indexOf "TIMESTAMP" headers), (indexOf "USER" headers).
Qed.

(** The answer of [createPayslip] depends on the data through its
    validation and the employee it names only. *)
Lemma createPayslip_answer_ext (user : string) (now : number)
  (data data' : object) (ss ss' : Spreadsheet) :
  validatePayslip data' = validatePayslip data →
  getEmployeeByName (get data' "EMPLOYEE NAME") ss'
  = getEmployeeByName (get data "EMPLOYEE NAME") ss →
  ss' !! "salary" = ss !! "salary" →
  (createPayslip user now data' ss').1 = (createPayslip user now data ss).1.
Proof.
  intros Hvalid Hemployee Hsalary. rewrite !createPayslip_run.
  rewrite Hvalid, Hsalary. unfold calculatePayslip. rewrite Hemployee.
  destruct (negb (isValid (validatePayslip data))); [done|].
  destruct (getEmployeeByName _ ss) as [[employee|]|e]; try done.
  destruct (ss !! "salary") as [sheet|]; [|done].
  destruct (header sheet) as [|h hs] eqn:Hheader; [done|].
  cbv zeta. cbn [fst]. do 2 f_equal. rewrite <- Hheader.
  apply payslip_array_recordNumber_any.
Qed.

Lemma getEmployeeByName_ext (name : value) (ss ss' : Spreadsheet) :
  ss' !! EMPLOYEE_SHEET = ss !! EMPLOYEE_SHEET →
  getEmployeeByName name ss' = getEmployeeByName name ss.
Proof. unfold getEmployeeByName, getSheet. by intros ->. Qed.

(** X20. A rejection that succeeds writes 'Rejected' into the Status cell
    of the first row with the record id and changes nothing else; and as
    [approveTimesheet] does not look at the Status, approving the record
    afterwards is answered exactly as it would have been before the
    rejection. *)
Theorem rejected_timesheet_can_still_be_approved (user : string)
  (now : number) (recordId : value) (ss ss' : Spreadsheet)
  (message : string) (recordNumber : value) (sheet : Sheet) :
  ss !! "PendingTimesheets" = Some sheet →
  rejectTimesheet recordId ss
  = (Return (Success message recordNumber), ss') →
  ∃ i row c,
    find_index (indexOf "RecordID" (header sheet)) recordId (body sheet) 0
    = Some (i, row)
    ∧ indexOf "Status" (header sheet) = Some c
    ∧ ss'
      = <["PendingTimesheets" :=
            mkSheet (header sheet)
                    (alter (λ r, <[c := VStr "Rejected"]> r) i
                           (body sheet))]> ss
    ∧ (approveTimesheet user now recordId ss').1
      = (approveTimesheet user now recordId ss).1.
Proof.
  intros Hsheet. rewrite rejectTimesheet_run, Hsheet.
  destruct (find_index _ recordId (body sheet) 0) as [[i row]|] eqn:Hfound;
    [|done].
  destruct (indexOf "Status" (header sheet)) as [c|] eqn:Hstatus; [|done].
  intros [= <- <- <-]. exists i, row, c.
  split; [done|]. split; [done|].
  rewrite (alter_sheet _ _ _ _ Hsheet), set_cell_below. cbn [to_cell].
  split; [done|].
  set (row' := <[c := VStr "Rejected"]> row).
  set (ss' := <["PendingTimesheets" := _]> ss).
  set (data := row_object (header sheet) row).
  set (data' := row_object (header sheet) row').
  assert (∀ k, k ≠ "Status" → get data' k = get data k) as Hdata.
  { intros k Hk. apply row_object_insert.
    apply indexOf_Some in Hstatus. rewrite Hstatus. congruence. }
  assert (find_index (indexOf "RecordID" (header sheet)) recordId
            (alter (λ r, <[c := VStr "Rejected"]> r) i (body sheet)) 0
          = Some (i, row')) as Hfound'.
  { apply (find_index_alter _ _ _ _ _ (λ r, <[c := VStr "Rejected"]> r)
                            Hfound).
    apply at_index_insert.
    intros Hc. by pose proof (indexOf_inj _ _ _ _ Hc Hstatus). }
  assert ((createPayslip user now data' ss').1
          = (createPayslip user now data ss).1) as Hanswer.
  { apply createPayslip_answer_ext.
    - apply validatePayslip_ext. repeat constructor; by apply Hdata.
    - rewrite Hdata by done. apply getEmployeeByName_ext.
      unfold ss'. by rewrite lookup_insert_ne.
    - unfold ss'. by rewrite lookup_insert_ne. }
  rewrite !approveTimesheet_run. unfold ss' at 1.
  rewrite lookup_insert_eq, Hsheet. cbn [header body].
  rewrite Hfound', Hfound. cbv zeta. fold row' data' data ss'.
  rewrite Hanswer, Hstatus.
  by destruct (createPayslip user now data ss).1 as [[| |]|].
Qed.

End Rejection.

Section CsvImport.
Context `{Runtime}.

Lemma parseTimesheetCSV_cases (csvText : string) :
  let breaks :=
    length (filter (λ c, c = "010"%char)
                   (list_ascii_of_string (trim csvText))) in
  (breaks = 0
   ∧ parseTimesheetCSV csvText = ParseFailure "CSV file is empty or invalid")
  ∨ (0 < breaks
     ∧ ∃ data, parseTimesheetCSV csvText = Parsed data
         ∧ length data = breaks).
Proof.
  cbv zeta. unfold parseTimesheetCSV.
  pose proof (split_length "010"%char (trim csvText)) as Hlen.
  case_bool_decide as Hlines; [left; split; [lia|done]|]. right.
  split; [lia|]. eexists. split; [done|]. rewrite length_fmap.
  destruct (split "010"%char (trim csvText)); cbn in *; lia.
Qed.

Lemma importTimesheetCSV_run (uuid : nat → string) (now : nat → number)
  (csvText : string) (ss : Spreadsheet) :
  importTimesheetCSV uuid now csvText ss
  = match parseTimesheetCSV csvText with
    | ParseFailure message => (Return (Failure message), ss)
    | Parsed data => stagePendingTimesheets uuid now data ss
    end.
Proof.
  unfold importTimesheetCSV, try_catch.
  destruct (parseTimesheetCSV csvText) as [message|data]; [done|].
  rewrite stagePendingTimesheets_run.
  destruct (ss !! "PendingTimesheets") as [sheet|]; [|done].
  by destruct (header sheet).
Qed.

(** X21. [importTimesheetCSV] of a text that has no line break once
    trimmed fails with 'CSV file is empty or invalid' and writes nothing.
    Of any other text it succeeds, whatever the lines hold: it appends
    rows below those already staged, at most one for each line after the
    first and each as wide as the header, and reports their number. *)
Theorem importTimesheetCSV_stages_the_valid_lines (uuid : nat → string)
  (now : nat → number) (csvText : string) (ss : Spreadsheet)
  (sheet : Sheet) :
  ss !! "PendingTimesheets" = Some sheet →
  header sheet ≠ [] →
  let breaks :=
    length (filter (λ c, c = "010"%char)
                   (list_ascii_of_string (trim csvText))) in
  (breaks = 0
   ∧ importTimesheetCSV uuid now csvText ss
     = (Return (Failure "CSV file is empty or invalid"), ss))
  ∨ (0 < breaks
     ∧ ∃ rows,
         importTimesheetCSV uuid now csvText ss
         = (Return (Success
                      (Number_toString (of_Z (Z.of_nat (length rows)))
                       ++ " timesheet record(s) staged for approval")
                      VUndef),
            <["PendingTimesheets" :=
                mkSheet (header sheet) (body sheet ++ rows)]> ss)
         ∧ (length rows ≤ breaks)%nat
         ∧ Forall (λ row, length row = length (header sheet)) rows).
Proof.
  intros Hsheet Hheader breaks. rewrite importTimesheetCSV_run.
  destruct (parseTimesheetCSV_cases csvText)
    as [[Hnone ->]|(Hsome & data & -> & Hdata)]; [by left|right].
  split; [done|].
  exists (staged_rows (header sheet) uuid now 0 data).
  rewrite stagePendingTimesheets_run, Hsheet.
  split; [by destruct (header sheet)|]. split.
  - rewrite staged_rows_length. fold breaks in Hdata. rewrite <- Hdata.
    apply length_filter.
  - eapply Forall_impl; [apply staged_rows_pending|]. by intros row [? _].
Qed.

End CsvImport.

Section EmployeeRecords.
Context `{Runtime}.

Lemma updateEmployee_run (user : string) (now : number) (id : value)
  (data : object) (ss : Spreadsheet) :
  updateEmployee user now id data ss
  = match ss !! EMPLOYEE_SHEET with
    | None =>
        (Return (Failure "An error occurred while updating the employee."),
         ss)
    | Some sheet =>
        match find_index (indexOf "ID" (header sheet)) id (body sheet) 0 with
        | None => (Return (Failure "Employee not found."), ss)
        | Some (i, row) =>
            match header sheet with
            | [] =>
                (Return (Failure
                   "An error occurred while updating the employee."), ss)
            | _ =>
                (Return (Success "Employee updated successfully." VUndef),
                 <[EMPLOYEE_SHEET :=
                     mkSheet (header sheet)
                       (<[i := to_cell <$> updated_row data (header sheet)
                                                       row user now]>
                          (body sheet))]> ss)
            end
        end
    end.
Proof.
  unfold updateEmployee, try_catch, mbind, script_bind, mret, script_ret,
    attempts, employee_sheet, getSheet.
  destruct (ss !! EMPLOYEE_SHEET) as [sheet|] eqn:Hsheet; [|done].
  destruct (find_index _ id (body sheet) 0) as [[i row]|]; [|done].
  unfold setValues, updated_row.
  destruct (header sheet) as [|h hs] eqn:Hheader; [done|].
  cbn [imap]. rewrite (alter_sheet _ _ _ _ Hsheet).
  unfold set_row. rewrite decide_False by lia.
  replace (i + 2 - 2) with i by lia. by rewrite Hheader.
Qed.

Lemma find_row_find_index (col : option nat) (key : value)
  (data : list (list value)) (i0 : nat) :
  find_row col key data = snd <$> find_index col key data i0.
Proof.
  revert i0. induction data as [|row data IH]; intros i0; [done|]. cbn.
  destruct (strict_eq (at_index row col) key); [done|]. apply IH.
Qed.

Lemma find_index_insert (col : option nat) (key : value)
  (data : list (list value)) (i : nat) (row row' : list value) :
  find_index col key data 0 = Some (i, row) →
  strict_eq (at_index row' col) key = true →
  find_index col key (<[i := row']> data) 0 = Some (i, row').
Proof.
  intros (p & -> & Hp & Hrow & Hbefore)%find_index_Some Hrow'.
  apply find_index_Some. exists p. cbn in *. split; [done|].
  split; [apply list_lookup_insert_eq; by eapply lookup_lt_Some|].
  split; [done|]. by rewrite take_insert_ge by lia.
Qed.

Lemma strict_eq_eq (a b : value) : strict_eq a b = true → a = b.
Proof.
  destruct a as [| |x|[|x]|x|x], b as [| |y|[|y]|y|y]; cbn; try done;
    by intros ->%bool_decide_eq_true.
Qed.

(** The cell of an updated row under the header [h]. *)
Lemma updated_row_cell (data : object) (hs : list string)
  (old : list value) (user : string) (now : number) (h : string) :
  h ∈ hs →
  at_index (to_cell <$> updated_row data hs old user now) (indexOf h hs)
  = to_cell
      (if decide (h = "MODIFIED_BY") then VStr user
       else if decide (h = "LAST_MODIFIED") then VDate now
       else match data !! h with
            | Some v => v
            | None => at_index old (indexOf h hs)
            end).
Proof.
  intros [j Hj]%indexOf_elem_of. rewrite Hj. cbn.
  unfold updated_row. rewrite list_lookup_fmap, list_lookup_imap.
  by rewrite (indexOf_Some _ _ _ Hj).
Qed.

(** X22. An employee that was updated is read back: when the update
    succeeds, does not give a new ID and the id is a value that a cell
    holds as it is, [getEmployeeById] finds the employee before and
    after, and afterwards each field is the user under MODIFIED_BY, the
    time of the update under LAST_MODIFIED, the value of [data] for a
    property that [data] has, and what it was before for the rest. *)
Theorem updated_employee_is_read_back (user : string) (now : number)
  (id : value) (data : object) (ss ss' : Spreadsheet) (message : string)
  (recordNumber : value) (sheet : Sheet) :
  ss !! EMPLOYEE_SHEET = Some sheet →
  updateEmployee user now id data ss
  = (Return (Success message recordNumber), ss') →
  data !! "ID" = None →
  to_cell id = id →
  ∃ old new,
    getEmployeeById id ss = Return (Some old)
    ∧ getEmployeeById id ss' = Return (Some new)
    ∧ ∀ h, h ∈ header sheet → column_unique h (header sheet) →
        get new h
        = to_cell
            (if decide (h = "MODIFIED_BY") then VStr user
             else if decide (h = "LAST_MODIFIED") then VDate now
             else match data !! h with
                  | Some v => v
                  | None => get old h
                  end).
Proof.
  intros Hsheet Hupdated Hdata Hid.
  rewrite updateEmployee_run, Hsheet in Hupdated.
  destruct (find_index _ id (body sheet) 0) as [[i row]|] eqn:Hfound;
    [|done].
  destruct (header sheet) as [|h0 hs0] eqn:Hheader; [done|].
  rewrite <- Hheader in *. injection Hupdated as <- <- <-.
  set (newRow := to_cell <$> updated_row data (header sheet) row user now).
  pose proof Hfound as (p & -> & Hp & Hrow & Hbefore)%find_index_Some.
  assert ("ID" ∈ header sheet) as Hcol.
  { destruct (indexOf "ID" (header sheet)) eqn:Hc.
    - apply indexOf_Some in Hc. by eapply list_elem_of_lookup_2.
    - cbn in Hrow. destruct id; try done. }
  assert (strict_eq (at_index newRow (indexOf "ID" (header sheet))) id
          = true) as Hrow'.
  { unfold newRow. rewrite updated_row_cell by done.
    rewrite !decide_False by done. rewrite Hdata.
    pose proof (strict_eq_eq _ _ Hrow) as Heq.
    rewrite Heq in Hrow |- *. by rewrite Hid. }
  exists (row_object (header sheet) row), (row_object (header sheet) newRow).
  split.
  { unfold getEmployeeById, getSheet. rewrite Hsheet.
    by rewrite (find_row_find_index _ _ _ 0), Hfound. }
  split.
  { unfold getEmployeeById, getSheet. rewrite lookup_insert_eq.
    cbn [header body].
    by rewrite (find_row_find_index _ _ _ 0),
      (find_index_insert _ _ _ _ _ _ Hfound Hrow'). }
  intros h Hh Hu. rewrite !row_object_get by done.
  unfold newRow. by rewrite updated_row_cell.
Qed.

(** X23. Payroll does not look at a termination.  When the employee that
    a payslip names is the one that was terminated, [createPayslip]
    answers after the termination as it did before; [calculatePayslip]
    returns both times, and after the termination it deducts no UIF, as
    the status is not 'Permanent' any more. *)
Theorem terminated_employee_is_still_paid (user user' : string)
  (now now' : number) (id terminationDate : value) (data : object)
  (ss ss' : Spreadsheet) (message : string) (recordNumber : value)
  (sheet : Sheet) :
  ss !! EMPLOYEE_SHEET = Some sheet →
  terminateEmployee user now id terminationDate ss
  = (Return (Success message recordNumber), ss') →
  find_index (indexOf "EMPLOYEE NAME" (header sheet))
             (get data "EMPLOYEE NAME") (body sheet) 0
  = find_index (indexOf "ID" (header sheet)) id (body sheet) 0 →
  truthy (get data "EMPLOYEE NAME") = true →
  "EMPLOYMENT STATUS" ∈ header sheet →
  column_unique "EMPLOYMENT STATUS" (header sheet) →
  (createPayslip user' now' data ss').1 = (createPayslip user' now' data ss).1
  ∧ ∃ before after,
      calculatePayslip data ss = Return before
      ∧ calculatePayslip data ss' = Return after
      ∧ get after "UIF" = VNum Number.zero.
Proof.
  intros Hsheet Hterminated Hsame Hname Hcol Hu.
  unfold terminateEmployee in Hterminated.
  rewrite updateEmployee_run, Hsheet in Hterminated.
  destruct (find_index (indexOf "ID" _) id (body sheet) 0) as [[i row]|]
    eqn:Hfound; [|done].
  destruct (header sheet) as [|h0 hs0] eqn:Hheader; [done|].
  rewrite <- Hheader in *. injection Hterminated as <- <- <-.
  set (form := {[ "TERMINATION DATE" := terminationDate;
                  "EMPLOYMENT STATUS" := VStr "Terminated" ]} : object)
    in *.
  set (newRow := to_cell <$> updated_row form (header sheet) row user now).
  set (ss' := <[EMPLOYEE_SHEET := _]> ss).
  pose proof Hsame as (p & -> & Hp & Hrow & Hbefore)%find_index_Some.
  destruct (truthy_cell _ Hname) as (_ & Hcell & _).
  assert ("EMPLOYEE NAME" ∈ header sheet) as Hncol.
  { destruct (indexOf "EMPLOYEE NAME" (header sheet)) eqn:Hc.
    - apply indexOf_Some in Hc. by eapply list_elem_of_lookup_2.
    - cbn in Hrow. by destruct (get data "EMPLOYEE NAME"). }
  assert (strict_eq (at_index newRow
                       (indexOf "EMPLOYEE NAME" (header sheet)))
                    (get data "EMPLOYEE NAME") = true) as Hrow'.
  { unfold newRow. rewrite updated_row_cell by done.
    rewrite !decide_False by done.
    replace (form !! "EMPLOYEE NAME") with (@None value) by done.
    pose proof (strict_eq_eq _ _ Hrow) as Heq.
    rewrite Heq in Hrow |- *. by rewrite Hcell. }
  assert (getEmployeeByName (get data "EMPLOYEE NAME") ss
          = Return (Some (row_object (header sheet) row))) as Hold.
  { unfold getEmployeeByName, getSheet. rewrite Hsheet.
    by rewrite (find_row_find_index _ _ _ 0), Hsame. }
  assert (getEmployeeByName (get data "EMPLOYEE NAME") ss'
          = Return (Some (row_object (header sheet) newRow))) as Hnew.
  { unfold getEmployeeByName, getSheet, ss'. rewrite lookup_insert_eq.
    cbn [header body].
    by rewrite (find_row_find_index _ _ _ 0),
      (find_index_insert _ _ _ _ _ _ Hsame Hrow'). }
  split.
  - rewrite !createPayslip_run. unfold calculatePayslip.
    rewrite Hold, Hnew.
    replace (ss' !! "salary") with (ss !! "salary")
      by (unfold ss'; by rewrite lookup_insert_ne).
    destruct (negb (isValid (validatePayslip data))); [done|].
    destruct (ss !! "salary") as [salary|]; [|done].
    destruct (header salary) as [|h hs] eqn:Hsalary; [done|].
    cbv zeta. cbn [fst]. do 2 f_equal. rewrite <- Hsalary.
    apply payslip_array_recordNumber_any.
  - unfold calculatePayslip. rewrite Hold, Hnew.
    eexists _, _. split; [done|]. split; [done|].
    rewrite !get_insert.
    rewrite !decide_False by done. rewrite decide_True by done.
    rewrite row_object_get by done. unfold newRow.
    rewrite updated_row_cell by done.
    rewrite !decide_False by done.
    replace (form !! "EMPLOYMENT STATUS")
      with (Some (VStr "Terminated")) by done.
    done.
Qed.

End EmployeeRecords.

Section ReportFacts.
Context `{Runtime} `{Utilities}.

Lemma approveTimesheet_other_sheets (user : string) (now : number)
  (recordId : value) (ss : Spreadsheet) (name : string) :
  name ≠ "salary" → name ≠ "PendingTimesheets" →
  (approveTimesheet user now recordId ss).2 !! name = ss !! name.
Proof.
  intros Hsalary Hpending. rewrite approveTimesheet_run.
  destruct (ss !! "PendingTimesheets") as [sheet|]; [|done].
  destruct (find_index _ recordId (body sheet) 0) as [[i row]|]; [|done].
  cbv zeta.
  pose proof (createPayslip_other_sheets user now
                (row_object (header sheet) row) ss name Hsalary) as Hframe.
  destruct (createPayslip user now _ ss) as [[[errs|msg|msg rn]|e] ss1];
    cbn [fst snd] in *; try done.
  destruct (indexOf "Status" (header sheet)); cbn [snd]; [|done].
  by rewrite lookup_alter_ne.
Qed.

Lemma generateWeeklyReport_ext (weekEnding : value) (ss ss' : Spreadsheet) :
  ss' !! "MASTERSALARY" = ss !! "MASTERSALARY" →
  generateWeeklyReport weekEnding ss' = generateWeeklyReport weekEnding ss.
Proof. unfold generateWeeklyReport, getSheet. by intros ->. Qed.

(** X24. The weekly report reads the sheet MASTERSALARY, while
    [createPayslip] files payslips in the sheet salary: creating a
    payslip, directly or by approving a timesheet, never changes the
    weekly report of any week. *)
Theorem weekly_report_does_not_see_new_payslips (user : string)
  (now : number) (data : object) (recordId weekEnding : value)
  (ss : Spreadsheet) :
  generateWeeklyReport weekEnding (createPayslip user now data ss).2
  = generateWeeklyReport weekEnding ss
  ∧ generateWeeklyReport weekEnding
      (approveTimesheet user now recordId ss).2
    = generateWeeklyReport weekEnding ss.
Proof.
  split; apply generateWeeklyReport_ext.
  - by apply createPayslip_other_sheets.
  - by apply approveTimesheet_other_sheets.
Qed.

Lemma weekly_lines_totals (weekEndingCol employeeCol grossCol netCol paidCol
  : option nat) (weekEnding : value) (data : list (list value))
  (weekData weekData' : list Reports.line) (totals totals' : Reports.totals)
  (P : list Reports.line → Reports.totals → Prop) :
  (∀ lines t row,
     P lines t →
     P (lines ++ [Reports.mkLine (at_index row employeeCol)
                                 (at_index row grossCol)
                                 (at_index row netCol)
                                 (at_index row paidCol)])%list
       (Reports.mkTotals
          (S (Reports.employees t))
          (Reports.grossTotal t + parseFloat_or_0 (at_index row grossCol))%num
          (Reports.netTotal t + parseFloat_or_0 (at_index row netCol))%num
          (Reports.paidTotal t
           + parseFloat_or_0 (at_index row paidCol))%num)) →
  weekly_lines weekEndingCol employeeCol grossCol netCol paidCol weekEnding
               data weekData totals
  = Return (weekData', totals') →
  P weekData totals → P weekData' totals'.
Proof.
  intros Hstep. revert weekData totals.
  induction data as [|row rest IH]; intros weekData totals.
  - by intros [= <- <-].
  - cbn [weekly_lines].
    destruct (formatDate (at_index row weekEndingCol)) as [week|e]; [|done].
    destruct (formatDate weekEnding) as [wanted|e]; [|done]. cbn.
    destruct (strict_eq week wanted).
    + intros Hrest HP. eapply IH; [exact Hrest|]. by apply Hstep.
    + apply IH.
Qed.

(** X25. In a weekly report the totals agree with the lines: the number
    of employees is the number of lines, and the gross, net and paid
    totals are the sums of the gross, net and paid amounts of the lines,
    each read with [parseFloat(x) || 0]. *)
Theorem weekly_totals_add_up (weekEnding weekEnding' : value)
  (ss : Spreadsheet) (data : list Reports.line) (totals : Reports.totals) :
  generateWeeklyReport weekEnding ss
  = Reports.WeeklyReport weekEnding' data totals →
  weekEnding' = weekEnding
  ∧ Reports.employees totals = length data
  ∧ Reports.grossTotal totals
    = foldl (λ sum l, sum + parseFloat_or_0 (Reports.gross l))%num
            Number.zero data
  ∧ Reports.netTotal totals
    = foldl (λ sum l, sum + parseFloat_or_0 (Reports.net l))%num
            Number.zero data
  ∧ Reports.paidTotal totals
    = foldl (λ sum l, sum + parseFloat_or_0 (Reports.paid l))%num
            Number.zero data.
Proof.
  unfold generateWeeklyReport.
  destruct (getSheet "MASTERSALARY" ss) as [sheet|]; [|done].
  cbv zeta.
  destruct (weekly_lines _ _ _ _ _ weekEnding (body sheet) [] _)
    as [[weekData totals0]|e] eqn:Hlines; [|done].
  intros [= <- <- <-]. split; [done|].
  eapply (weekly_lines_totals _ _ _ _ _ _ _ _ _ _ _
            (λ lines t,
               Reports.employees t = length lines
               ∧ Reports.grossTotal t
                 = foldl (λ sum l, sum + parseFloat_or_0 (Reports.gross l))%num
                         Number.zero lines
               ∧ Reports.netTotal t
                 = foldl (λ sum l, sum + parseFloat_or_0 (Reports.net l))%num
                         Number.zero lines
               ∧ Reports.paidTotal t
                 = foldl (λ sum l, sum + parseFloat_or_0 (Reports.paid l))%num
                         Number.zero lines));
    [|exact Hlines|done].
  intros lines t row (Hn & Hg & Hnet & Hp). cbn.
  rewrite length_app, !foldl_app. cbn. rewrite Hn, Hg, Hnet, Hp.
  repeat split; lia.
Qed.

End ReportFacts.

(** ** These properties on the sample data *)

(** Thabo's week is rejected; approving it afterwards is answered as
    before. *)
Lemma rejected_timesheet_witness :
  let ss' := (rejectTimesheet (VStr "310001") Cases.pending).2 in
  ∃ i row c,
    find_index (indexOf "RecordID" Cases.pending_header) (VStr "310001")
               (body (default (mkSheet [] [])
                              (Cases.pending !! "PendingTimesheets"))) 0
    = Some (i, row)
    ∧ indexOf "Status" Cases.pending_header = Some c
    ∧ ss'
      = <["PendingTimesheets" :=
            mkSheet Cases.pending_header
                    (alter (λ r, <[c := VStr "Rejected"]> r) i
                           (body (default (mkSheet [] [])
                                    (Cases.pending !! "PendingTimesheets"))))]>
          Cases.pending
    ∧ (approveTimesheet (H := Reference.runtime) "clerk@example.com"
                        (of_Z 1704463200000) (VStr "310001") ss').1
      = (approveTimesheet (H := Reference.runtime) "clerk@example.com"
                          (of_Z 1704463200000) (VStr "310001")
                          Cases.pending).1.
Proof.
  intros ss'.
  refine (rejected_timesheet_can_still_be_approved (H := Reference.runtime)
            "clerk@example.com" (of_Z 1704463200000) (VStr "310001")
            Cases.pending ss' "Timesheet rejected" VUndef
            (default (mkSheet [] []) (Cases.pending !! "PendingTimesheets"))
            _ _).
  - reflexivity.
  - apply pair_eta. by_evaluation.
Defined.

Example rejected_week_becomes_payslip_7916 :
  (approveTimesheet (H := Reference.runtime) "clerk@example.com"
                    (of_Z 1704463200000) (VStr "310001")
                    (rejectTimesheet (VStr "310001") Cases.pending).2).1
  = Return (Success "Timesheet approved and payslip created"
                    (VNum (of_Z 7916))).
Proof. by_evaluation. Qed.

(** The file of three lines has two line breaks once trimmed; its one
    valid record is staged. *)
Lemma importTimesheetCSV_witness :
  let breaks :=
    length (filter (λ c, c = "010"%char)
                   (list_ascii_of_string (trim Cases.csv))) in
  (breaks = 0
   ∧ importTimesheetCSV (H := Reference.runtime) Cases.uuids Cases.clock
                        Cases.csv Cases.pending
     = (Return (Failure "CSV file is empty or invalid"), Cases.pending))
  ∨ (0 < breaks
     ∧ ∃ rows,
         importTimesheetCSV (H := Reference.runtime) Cases.uuids Cases.clock
                            Cases.csv Cases.pending
         = (Return (Success
                      (Number_toString (Runtime := Reference.runtime)
                                       (of_Z (Z.of_nat (length rows)))
                       ++ " timesheet record(s) staged for approval")
                      VUndef),
            <["PendingTimesheets" :=
                mkSheet Cases.pending_header
                        (body (default (mkSheet [] [])
                                 (Cases.pending !! "PendingTimesheets"))
                         ++ rows)]> Cases.pending)
         ∧ (length rows ≤ breaks)%nat
         ∧ Forall (λ row, length row = length Cases.pending_header) rows).
Proof.
  refine (importTimesheetCSV_stages_the_valid_lines (H := Reference.runtime)
            Cases.uuids Cases.clock Cases.csv Cases.pending
            (default (mkSheet [] []) (Cases.pending !! "PendingTimesheets"))
            _ _).
  - reflexivity.
  - discriminate.
Defined.

Example the_file_stages_one_row :
  parseTimesheetCSV Cases.csv
  = Parsed [ {[ "EMPLOYEE NAME" := VStr "Thabo";
                "WEEKENDING" := VStr "2024-01-12";
                "HOURS" := VStr "38" ]};
             {[ "EMPLOYEE NAME" := blank;
                "WEEKENDING" := VStr "2024-01-12";
                "HOURS" := VStr "12" ]} ]
  ∧ (importTimesheetCSV (H := Reference.runtime) Cases.uuids Cases.clock
                        Cases.csv Cases.pending).1
    = Return (Success "1 timesheet record(s) staged for approval" VUndef).
Proof. split; by_evaluation. Qed.

(** Thabo's rate is raised to 120 and read back. *)
Lemma updated_employee_witness :
  let ss' :=
    (updateEmployee "clerk@example.com" (of_Z 1704463200000)
                    (VStr "100001") Cases.rise Sample.fresh).2 in
  ∃ old new,
    getEmployeeById (VStr "100001") Sample.fresh = Return (Some old)
    ∧ getEmployeeById (VStr "100001") ss' = Return (Some new)
    ∧ ∀ h, h ∈ header Sample.employees →
        column_unique h (header Sample.employees) →
        get new h
        = to_cell
            (if decide (h = "MODIFIED_BY") then VStr "clerk@example.com"
             else if decide (h = "LAST_MODIFIED")
                  then VDate (of_Z 1704463200000)
             else match Cases.rise !! h with
                  | Some v => v
                  | None => get old h
                  end).
Proof.
  intros ss'.
  refine (updated_employee_is_read_back "clerk@example.com"
            (of_Z 1704463200000) (VStr "100001") Cases.rise Sample.fresh
            ss' "Employee updated successfully." VUndef Sample.employees
            _ _ _ _).
  - reflexivity.
  - apply pair_eta. by_evaluation.
  - reflexivity.
  - reflexivity.
Defined.

Example the_rate_is_120 :
  match getEmployeeById (VStr "100001")
          (updateEmployee "clerk@example.com" (of_Z 1704463200000)
                          (VStr "100001") Cases.rise Sample.fresh).2 with
  | Return (Some employee) => get employee "HOURLY RATE"
  | _ => VUndef
  end
  = VNum (of_Z 120).
Proof. by_evaluation. Qed.

(** Thabo is terminated; the sample week is paid all the same, without
    UIF. *)
Lemma terminated_employee_witness :
  let ss' :=
    (terminateEmployee "clerk@example.com" (of_Z 1704463200000)
                       (VStr "100001") (VStr "2024-01-08")
                       Sample.fresh).2 in
  (createPayslip (H := Reference.runtime) "clerk@example.com"
                 (of_Z 1705068000000) Sample.week ss').1
  = (createPayslip (H := Reference.runtime) "clerk@example.com"
                   (of_Z 1705068000000) Sample.week Sample.fresh).1
  ∧ ∃ before after,
      calculatePayslip (H := Reference.runtime) Sample.week Sample.fresh
      = Return before
      ∧ calculatePayslip (H := Reference.runtime) Sample.week ss'
        = Return after
      ∧ get after "UIF" = VNum Number.zero.
Proof.
  intros ss'.
  refine (terminated_employee_is_still_paid (H := Reference.runtime)
            "clerk@example.com" "clerk@example.com" (of_Z 1704463200000)
            (of_Z 1705068000000) (VStr "100001") (VStr "2024-01-08")
            Sample.week Sample.fresh ss' "Employee updated successfully."
            VUndef Sample.employees _ _ _ _ _ _).
  - reflexivity.
  - apply pair_eta. by_evaluation.
  - reflexivity.
  - reflexivity.
  - by_evaluation.
  - apply NoDup_column_unique. by_evaluation.
Defined.

(** The week that ends on 5 January has one payslip in the sheet
    MASTERSALARY. *)
Lemma weekly_totals_witness :
  VStr "2024-01-05" = VStr "2024-01-05"
  ∧ 1 = length [Reports.mkLine (VStr "Thabo") (VNum (of_Z 4000))
                               (VNum (of_Z 3960)) (VNum (of_Z 3960))]
  ∧ of_Z 4000
    = foldl (λ sum l, sum + parseFloat_or_0 (H := Reference.runtime)
                                            (Reports.gross l))%num
            Number.zero
            [Reports.mkLine (VStr "Thabo") (VNum (of_Z 4000))
                            (VNum (of_Z 3960)) (VNum (of_Z 3960))]
  ∧ of_Z 3960
    = foldl (λ sum l, sum + parseFloat_or_0 (H := Reference.runtime)
                                            (Reports.net l))%num
            Number.zero
            [Reports.mkLine (VStr "Thabo") (VNum (of_Z 4000))
                            (VNum (of_Z 3960)) (VNum (of_Z 3960))]
  ∧ of_Z 3960
    = foldl (λ sum l, sum + parseFloat_or_0 (H := Reference.runtime)
                                            (Reports.paid l))%num
            Number.zero
            [Reports.mkLine (VStr "Thabo") (VNum (of_Z 4000))
                            (VNum (of_Z 3960)) (VNum (of_Z 3960))].
Proof.
  refine (weekly_totals_add_up (H := Reference.runtime)
            (H0 := Calendar.utilities) (VStr "2024-01-05")
            (VStr "2024-01-05") Cases.master
            [Reports.mkLine (VStr "Thabo") (VNum (of_Z 4000))
                            (VNum (of_Z 3960)) (VNum (of_Z 3960))]
            (Reports.mkTotals 1 (of_Z 4000) (of_Z 3960) (of_Z 3960)) _).
  by_evaluation.
Defined.

(** In a file whose second line ends after the hours the week ending is
    a field of the record, and it is [undefined]. *)
Lemma parseTimesheetCSV_witness :
  ∃ record : object,
    parseTimesheetCSV Cases.short_csv = Parsed [record]
    ∧ (∀ k, is_Some (record !! k)
            ↔ k ∈ ["EMPLOYEE NAME"; "HOURS"; "WEEKENDING"])
    ∧ record !! "EMPLOYEE NAME" = Some (VStr "Thabo")
    ∧ record !! "HOURS" = Some (VStr "38")
    ∧ record !! "WEEKENDING" = Some VUndef.
Proof.
  pose proof (parseTimesheetCSV_records Cases.short_csv) as Hrecords.
  cbv zeta in Hrecords.
  destruct (parseTimesheetCSV Cases.short_csv) as [message|data].
  { destruct Hrecords as [Hbreaks _]. vm_compute in Hbreaks. discriminate. }
  destruct Hrecords as (_ & Hlength & Hrecords).
  change (length data = 1) in Hlength.
  destruct data as [|record [|]]; try discriminate.
  exists record. split; [reflexivity|].
  destruct (Hrecords 0 record eq_refl)
    as (line & Hline & Hfields & Hfield & _).
  vm_compute in Hline. injection Hline as <-.
  split; [exact Hfields|].
  split; [|split].
  - etrans; [apply (Hfield 0 "EMPLOYEE NAME")|]; [reflexivity| |reflexivity].
    intros [|[|[|j]]] Hj Heq; try lia; vm_compute in Heq; discriminate.
  - etrans; [apply (Hfield 1 "HOURS")|]; [reflexivity| |reflexivity].
    intros [|[|[|j]]] Hj Heq; try lia; vm_compute in Heq; discriminate.
  - etrans; [apply (Hfield 2 "WEEKENDING")|]; [reflexivity| |reflexivity].
    intros [|[|[|j]]] Hj Heq; try lia; vm_compute in Heq; discriminate.
Defined.
